(** * RTanks player-statistics bot: extraction engine and formatter

    A shallow embedding of [scraper.py] ([RTanksScraper._parse_player_data])
    and of the rank and ratio helpers of [utils.py], with the properties of
    the specification that concern them.

    Conventions of the model.
    - A Python [str] is a [string]: a sequence of 8-bit characters.  The
      classes [\d] and [\s], [str.lower], [str.strip], [str.isdigit] and
      the [re.IGNORECASE] flag are the ASCII ones; a character above 127 is
      carried unchanged and never folded.  The two-language literals of the
      source are kept byte for byte.
    - A function that returns [None], or that raises inside the [try] block
      of [_parse_player_data] (whose handler returns [None]), is an
      [option] that is [None].
    - Python integers are [Z].
    - The libraries the code calls are not part of the repository:
      [BeautifulSoup] and [urllib.parse.quote] are parameters of the
      development, and so are the constants of the absent [config] module. *)

From Stdlib Require Import String Ascii List ZArith Bool Lia.
Import ListNotations.
Open Scope string_scope.
Open Scope Z_scope.

Set Implicit Arguments.

(* ------------------------------------------------------------------ *)
(** ** Python strings *)

Module Str.

Definition code (c : ascii) : nat := nat_of_ascii c.

Definition in_range (lo hi c : ascii) : bool :=
  (Nat.leb (code lo) (code c) && Nat.leb (code c) (code hi))%bool.

Definition is_upper (c : ascii) : bool := in_range "A" "Z" c.
Definition is_lower (c : ascii) : bool := in_range "a" "z" c.
Definition is_digit (c : ascii) : bool := in_range "0" "9" c.

(** [str.isspace] on one character: TAB, LF, VT, FF, CR, the four
    separators FS, GS, RS, US, and the space. *)
Definition is_space (c : ascii) : bool :=
  (in_range "009" "013" c || in_range "028" "032" c)%bool.

Definition lower_char (c : ascii) : ascii :=
  if is_upper c then ascii_of_nat (code c + 32) else c.

Definition upper_char (c : ascii) : ascii :=
  if is_lower c then ascii_of_nat (code c - 32) else c.

(** [s.lower()] *)
Fixpoint lower (s : string) : string :=
  match s with
  | EmptyString => EmptyString
  | String c s' => String (lower_char c) (lower s')
  end.

(** [len(s)] *)
Definition len (s : string) : Z := Z.of_nat (String.length s).

(** [s.startswith(p)] *)
Fixpoint startswith (p s : string) : bool :=
  match p, s with
  | EmptyString, _ => true
  | String a p', String b s' => (Ascii.eqb a b && startswith p' s')%bool
  | String _ _, EmptyString => false
  end.

(** [p in s] *)
Fixpoint contains (p s : string) : bool :=
  (startswith p s ||
   match s with
   | EmptyString => false
   | String _ s' => contains p s'
   end)%bool.

(** [s.replace(old, new)] for a one-character [old]. *)
Fixpoint replace (old : ascii) (new : string) (s : string) : string :=
  match s with
  | EmptyString => EmptyString
  | String c s' =>
      if Ascii.eqb c old then new ++ replace old new s'
      else String c (replace old new s')
  end.

Fixpoint forallb (p : ascii -> bool) (s : string) : bool :=
  match s with
  | EmptyString => true
  | String c s' => (p c && forallb p s')%bool
  end.

Definition is_empty (s : string) : bool :=
  match s with EmptyString => true | _ => false end.

(** [s.isdigit()] *)
Definition isdigit (s : string) : bool :=
  (negb (is_empty s) && forallb is_digit s)%bool.

Fixpoint lstrip (s : string) : string :=
  match s with
  | String c s' => if is_space c then lstrip s' else s
  | EmptyString => EmptyString
  end.

Fixpoint rev_acc (s acc : string) : string :=
  match s with
  | EmptyString => acc
  | String c s' => rev_acc s' (String c acc)
  end.

Definition rev (s : string) : string := rev_acc s EmptyString.

(** [s.strip()] *)
Definition strip (s : string) : string := rev (lstrip (rev (lstrip s))).

(** The first [n] characters of [s]. *)
Fixpoint take (n : nat) (s : string) : string :=
  match n, s with
  | S n', String c s' => String c (take n' s')
  | _, _ => EmptyString
  end.

Fixpoint drop (n : nat) (s : string) : string :=
  match n, s with
  | S n', String _ s' => drop n' s'
  | _, _ => s
  end.

(** The part of [s] that was consumed to leave the suffix [rest]. *)
Definition consumed (s rest : string) : string :=
  take (String.length s - String.length rest) s.

Definition digit_value (c : ascii) : Z := Z.of_nat (code c - 48).

Fixpoint digits_value (acc : Z) (s : string) : Z :=
  match s with
  | EmptyString => acc
  | String c s' => digits_value (10 * acc + digit_value c) s'
  end.

(** [int(s)] on the strings the scraper passes to it: they start and end
    with a digit and hold digits and white space only, so the conversion
    succeeds exactly when every character is a digit; anything else is a
    [ValueError]. *)
Definition int (s : string) : option Z :=
  if isdigit s then Some (digits_value 0 s) else None.

Definition digit_char (d : Z) : ascii := ascii_of_nat (48 + Z.to_nat d).

Fixpoint of_pos_aux (fuel : nat) (n : Z) (acc : string) : string :=
  match fuel with
  | O => acc
  | S f =>
      let acc' := String (digit_char (n mod 10)) acc in
      if n <? 10 then acc' else of_pos_aux f (n / 10) acc'
  end.

(** [str(n)] for a Python integer. *)
Definition of_Z (n : Z) : string :=
  if n <? 0
  then String "-" (of_pos_aux (S (Z.to_nat (Z.log2 (- n)))) (- n) EmptyString)
  else of_pos_aux (S (Z.to_nat (Z.log2 n))) n EmptyString.

(** The double quote, as a one-character string. *)
Definition dquote : string := String "034" EmptyString.

End Str.

(* ------------------------------------------------------------------ *)
(** ** Python's [re]: a backtracking matcher

    The patterns of the scraper are written as syntax trees; the matcher
    explores them the way [re] does: alternatives left to right, greedy
    repetition, and the first success wins. *)

Module Re.

Inductive item : Type :=
| IChar (c : ascii)            (* a literal member of a class *)
| IRange (lo hi : ascii)       (* [lo-hi] *)
| IDigit                       (* \d *)
| ISpace.                      (* \s *)

Inductive regex : Type :=
| Eps                                        (* the empty pattern *)
| Dot                                        (* . *)
| Chr (c : ascii)                            (* one literal character *)
| Cls (negated : bool) (items : list item)   (* [...] and [^...] *)
| Cat (r1 r2 : regex)                        (* r1 r2 *)
| Alt (r1 r2 : regex)                        (* r1|r2 *)
| Star (r : regex)                           (* r*, greedy *)
| Grp (n : nat) (r : regex).                 (* capturing group number n *)

Record flags : Type := { IGNORECASE : bool; DOTALL : bool }.

Definition no_flags : flags := {| IGNORECASE := false; DOTALL := false |}.
Definition ignorecase : flags := {| IGNORECASE := true; DOTALL := false |}.
Definition dotall : flags := {| IGNORECASE := false; DOTALL := true |}.

(** Derived forms. *)
Definition Opt (r : regex) : regex := Alt r Eps.          (* r? *)
Definition Plus (r : regex) : regex := Cat r (Star r).    (* r+ *)
Definition digit : regex := Cls false [IDigit].           (* \d *)
Definition space : regex := Cls false [ISpace].           (* \s *)
Definition digit3 : regex := Cat digit (Cat digit digit). (* \d{3} *)
Definition digit1to3 : regex :=                           (* \d{1,3} *)
  Cat digit (Opt (Cat digit (Opt digit))).

(** A literal string. *)
Fixpoint Lit (s : string) : regex :=
  match s with
  | EmptyString => Eps
  | String c EmptyString => Chr c
  | String c s' => Cat (Chr c) (Lit s')
  end.

Fixpoint Seq (rs : list regex) : regex :=
  match rs with
  | [] => Eps
  | [r] => r
  | r :: rs' => Cat r (Seq rs')
  end.

Definition item_matches (fl : flags) (i : item) (c : ascii) : bool :=
  if IGNORECASE fl then
    let c' := Str.lower_char c in
    match i with
    | IChar x => Ascii.eqb (Str.lower_char x) c'
    | IRange lo hi =>
        (Str.in_range lo hi c' || Str.in_range lo hi (Str.upper_char c'))%bool
    | IDigit => Str.is_digit c'
    | ISpace => Str.is_space c'
    end
  else
    match i with
    | IChar x => Ascii.eqb x c
    | IRange lo hi => Str.in_range lo hi c
    | IDigit => Str.is_digit c
    | ISpace => Str.is_space c
    end.

Definition chr_matches (fl : flags) (x c : ascii) : bool :=
  item_matches fl (IChar x) c.

Definition cls_matches (fl : flags) (negated : bool) (items : list item)
    (c : ascii) : bool :=
  xorb negated (existsb (fun i => item_matches fl i c) items).

Definition dot_matches (fl : flags) (c : ascii) : bool :=
  (DOTALL fl || negb (Ascii.eqb c "010"))%bool.

(** The groups captured so far, the most recent binding first. *)
Definition captures : Type := list (nat * string).

Fixpoint lookup (n : nat) (c : captures) : option string :=
  match c with
  | [] => None
  | (k, v) :: c' => if Nat.eqb k n then Some v else lookup n c'
  end.

Section Matcher.
Variable A : Type.
Variable fl : flags.

(** The continuation of a match: what is left of the text, and the groups. *)
Definition cont : Type := string -> captures -> option A.

(** A greedy repetition of [step]: one more iteration first, and when
    that way fails, the rest of the pattern.  An iteration that consumes
    nothing is given up. *)
Fixpoint star_loop (step : string -> captures -> cont -> option A) (k : cont)
    (fuel : nat) (s : string) (c : captures) {struct fuel} : option A :=
  match fuel with
  | O => k s c
  | S fuel' =>
      match
        step s c
          (fun s' c' =>
             if Nat.ltb (String.length s') (String.length s)
             then star_loop step k fuel' s' c'
             else None)
      with
      | Some x => Some x
      | None => k s c
      end
  end.

(** [run r s c k]: match [r] at the start of [s] and hand what is left
    of [s] to the continuation [k]; when [k] refuses, the next way of
    matching [r] is tried. *)
Fixpoint run (r : regex) (s : string) (c : captures) (k : cont)
    {struct r} : option A :=
  match r with
  | Eps => k s c
  | Dot =>
      match s with
      | String a s' => if dot_matches fl a then k s' c else None
      | EmptyString => None
      end
  | Chr x =>
      match s with
      | String a s' => if chr_matches fl x a then k s' c else None
      | EmptyString => None
      end
  | Cls neg items =>
      match s with
      | String a s' => if cls_matches fl neg items a then k s' c else None
      | EmptyString => None
      end
  | Cat r1 r2 => run r1 s c (fun s' c' => run r2 s' c' k)
  | Alt r1 r2 =>
      match run r1 s c k with
      | Some x => Some x
      | None => run r2 s c k
      end
  | Star r1 => star_loop (run r1) k (String.length s) s c
  | Grp n r1 =>
      run r1 s c (fun s' c' => k s' ((n, Str.consumed s s') :: c'))
  end.
End Matcher.

(** A match object: where the match starts, the matched text
    ([group(0)]), the groups, and the text after the match. *)
Record match_obj : Type := {
  m_start : nat;
  m_text : string;
  m_groups : captures;
  m_rest : string
}.

(** [m.group(n)] for [n >= 1]; [None] for a group that took no part. *)
Definition mgroup (n : nat) (m : match_obj) : option string :=
  lookup n (m_groups m).

(** [pattern.match] at the start of [s]. *)
Definition match_here (fl : flags) (r : regex) (pos : nat) (s : string)
    : option match_obj :=
  run fl r s []
    (fun rest c =>
       Some {| m_start := pos; m_text := Str.consumed s rest;
               m_groups := c; m_rest := rest |}).

Fixpoint search_from (fl : flags) (r : regex) (pos : nat) (s : string)
    : option match_obj :=
  match match_here fl r pos s with
  | Some m => Some m
  | None =>
      match s with
      | EmptyString => None
      | String _ s' => search_from fl r (S pos) s'
      end
  end.

(** [re.search(pattern, s, flags)]: the leftmost match. *)
Definition search (fl : flags) (r : regex) (s : string) : option match_obj :=
  search_from fl r 0 s.

(** [bool(re.search(...))] *)
Definition found (fl : flags) (r : regex) (s : string) : bool :=
  match search fl r s with Some _ => true | None => false end.

Fixpoint finditer (fuel : nat) (fl : flags) (r : regex) (pos : nat)
    (s : string) : list match_obj :=
  match fuel with
  | O => []
  | S fuel' =>
      match search_from fl r pos s with
      | None => []
      | Some m =>
          m ::
          match m_text m, m_rest m with
          | EmptyString, EmptyString => []
          | EmptyString, String _ rest' =>
              finditer fuel' fl r (S (m_start m)) rest'
          | _, rest =>
              finditer fuel' fl r (m_start m + String.length (m_text m)) rest
          end
      end
  end.

(** The number of capturing groups of a pattern. *)
Fixpoint ngroups (r : regex) : nat :=
  match r with
  | Cat r1 r2 | Alt r1 r2 => ngroups r1 + ngroups r2
  | Star r1 => ngroups r1
  | Grp _ r1 => S (ngroups r1)
  | _ => O
  end.

(** [re.findall(pattern, s, flags)] for a pattern with at most one group:
    the texts of the group when there is one, of the whole match
    otherwise; the matches do not overlap and come left to right. *)
Definition findall (fl : flags) (r : regex) (s : string) : list string :=
  map (fun m =>
         match ngroups r with
         | O => m_text m
         | _ => match mgroup 1 m with Some g => g | None => EmptyString end
         end)
      (finditer (S (String.length s)) fl r 0 s).

End Re.

(* ------------------------------------------------------------------ *)
(** ** The parse tree of BeautifulSoup

    Only what the scraper asks of it: the strings and the tags of the
    document in document order, the attributes of a tag, and the text
    under a tag. *)

Module Bs4.

#[warnings="-register-all"] Inductive node : Type :=
| NavigableString (text : string)
| Tag (name : string) (attrs : list (string * string)) (children : list node).

(** The top-level contents of the document. *)
Definition soup : Type := list node.

(** A node and everything under it, in document order. *)
Fixpoint self_and_descendants (n : node) : list node :=
  n ::
  match n with
  | NavigableString _ => []
  | Tag _ _ children => flat_map self_and_descendants children
  end.

Definition descendants (doc : soup) : list node :=
  flat_map self_and_descendants doc.

Fixpoint get (key : string) (attrs : list (string * string)) : option string :=
  match attrs with
  | [] => None
  | (k, v) :: attrs' => if String.eqb k key then Some v else get key attrs'
  end.

(** [soup.find(text=re.compile(pattern, flags))]: the first string of the
    document in which the pattern is found. *)
Definition find_text (fl : Re.flags) (r : Re.regex) (doc : soup)
    : option string :=
  List.find (fun t => Re.found fl r t)
    (flat_map (fun n => match n with NavigableString t => [t] | Tag _ _ _ => [] end)
              (descendants doc)).

Definition attr_matches (key : string) (fl : Re.flags) (r : Re.regex)
    (n : node) : bool :=
  match n with
  | Tag _ attrs _ =>
      match get key attrs with
      | Some v => Re.found fl r v
      | None => false
      end
  | NavigableString _ => false
  end.

(** [soup.find(class_=...)] and [soup.find(id=...)] with a compiled
    pattern: the first tag whose attribute the pattern is found in.  None
    of the patterns used holds white space, so a hit in the value of
    [class] lies inside one of its tokens. *)
Definition find_attr (key : string) (fl : Re.flags) (r : Re.regex)
    (doc : soup) : option node :=
  List.find (attr_matches key fl r) (descendants doc).

Definition is_tag (name : string) (n : node) : bool :=
  match n with
  | Tag name' _ _ => String.eqb name' name
  | NavigableString _ => false
  end.

(** [soup.find_all(name)] *)
Definition find_all (name : string) (doc : soup) : list node :=
  filter (is_tag name) (descendants doc).

(** [soup.find_all(name, style=re.compile(pattern, flags))] *)
Definition find_all_style (name : string) (fl : Re.flags) (r : Re.regex)
    (doc : soup) : list node :=
  filter (fun n => (is_tag name n && attr_matches "style" fl r n)%bool)
         (descendants doc).

(** [tag.get_text(strip=True)]: the strings under the tag, each one
    stripped, the empty ones dropped, joined. *)
Definition get_text_strip (n : node) : string :=
  String.concat ""
    (flat_map
       (fun d =>
          match d with
          | NavigableString t =>
              let t' := Str.strip t in
              if Str.is_empty t' then [] else [t']
          | Tag _ _ _ => []
          end)
       (self_and_descendants n)).

End Bs4.

(* ------------------------------------------------------------------ *)
(** ** Python numbers: true division and [format(x, '.2f')] *)

Module Py.

(** The integer nearest to [n / d] for [d > 0], a tie going to the even
    one. *)
Definition round_half_even (n d : Z) : Z :=
  let q := n / d in
  let r := n mod d in
  if 2 * r <? d then q
  else if d <? 2 * r then q + 1
  else if Z.even q then q else q + 1.

(** A finite binary64 number: sign, and magnitude [mant * 2 ^ expo]. *)
Record float : Type := { negative : bool; mant : Z; expo : Z }.

(** The [E] with [2^E <= a / b < 2^(E+1)], for positive [a] and [b]. *)
Definition quotient_exponent (a b : Z) : Z :=
  let e := Z.log2 a - Z.log2 b in
  if 0 <=? e
  then (if b * 2 ^ e <=? a then e else e - 1)
  else (if b <=? a * 2 ^ (- e) then e else e - 1).

(** [a / b] on integers: the binary64 number nearest to the exact
    quotient (53 significant bits, fewer below [2^-1022]), ties to even;
    [ZeroDivisionError] and [OverflowError] are [None]. *)
Definition true_div (a b : Z) : option float :=
  if b =? 0 then None
  else
    let sign := xorb (a <? 0) (b <? 0) in
    let a := Z.abs a in
    let b := Z.abs b in
    if a =? 0 then Some {| negative := sign; mant := 0; expo := 0 |}
    else
      let u := Z.max (quotient_exponent a b - 52) (-1074) in
      let m :=
        if 0 <=? u then round_half_even a (b * 2 ^ u)
        else round_half_even (a * 2 ^ (- u)) b in
      if ((0 <=? u) && (2 ^ 1024 <=? m * 2 ^ u))%bool then None
      else Some {| negative := sign; mant := m; expo := u |}.

(** The number of hundredths nearest to the magnitude of [x]. *)
Definition hundredths (x : float) : Z :=
  if 0 <=? expo x then 100 * mant x * 2 ^ expo x
  else round_half_even (100 * mant x) (2 ^ (- expo x)).

(** [f"{x:.2f}"] *)
Definition format_2f (x : float) : string :=
  let n := hundredths x in
  (if negative x then "-" else "") ++
  Str.of_Z (n / 100) ++ "." ++
  String (Str.digit_char (n mod 100 / 10))
    (String (Str.digit_char (n mod 10)) EmptyString).

End Py.

(* ------------------------------------------------------------------ *)
(** ** utils.py *)

Module Utils.

Fixpoint dict_get (A : Type) (key : string) (d : list (string * A))
    : option A :=
  match d with
  | [] => None
  | (k, v) :: d' => if String.eqb k key then Some v else dict_get key d'
  end.

(** [d.get(key, default)] *)
Definition get_default (A : Type) (d : list (string * A)) (key : string)
    (default : A) : A :=
  match dict_get key d with Some v => v | None => default end.

(** The table of [get_rank_emoji]. *)
Definition rank_mapping : list (string * Z) :=
  [ ("recruit", 1); ("private", 2); ("gefreiter", 3); ("corporal", 4);
    ("master_corporal", 5); ("sergeant", 6); ("staff_sergeant", 7);
    ("master_sergeant", 8); ("first_sergeant", 9); ("sergeant_major", 10);
    ("warrant_officer_1", 11); ("warrant_officer_2", 12);
    ("warrant_officer_3", 13); ("warrant_officer_4", 14);
    ("warrant_officer_5", 15); ("third_lieutenant", 16);
    ("second_lieutenant", 17); ("first_lieutenant", 18); ("captain", 19);
    ("major", 20); ("lieutenant_colonel", 21); ("colonel", 22);
    ("brigadier", 23); ("major_general", 24); ("lieutenant_general", 25);
    ("general", 26); ("marshal", 27); ("field_marshal", 28);
    ("commander", 29); ("generalissimo", 30); ("legend", 31);
    ("legend_premium", 31) ].

(** [rank_name.lower().replace(' ', '_')] *)
Definition normalize (rank_name : string) : string :=
  Str.replace " " "_" (Str.lower rank_name).

(** The index [get_rank_emoji] looks up in [RANK_EMOJIS]: 31 for every
    name that starts with [Legend], the entry of the table for a name the
    table knows, 31 otherwise. *)
Definition emoji_index (rank_name : string) : Z :=
  if Str.startswith "Legend" rank_name then 31
  else get_default rank_mapping (normalize rank_name) 31.

Fixpoint emojis_get (key : Z) (d : list (Z * string)) : option string :=
  match d with
  | [] => None
  | (k, v) :: d' => if k =? key then Some v else emojis_get key d'
  end.

Section Config.
(** [config.RANK_EMOJIS], a dictionary from index to symbol; the
    [config] module is not among the sources. *)
Variable RANK_EMOJIS : list (Z * string).

Definition trophy : string := "🏆".

Definition get_rank_emoji (rank_name : string) : string :=
  match emojis_get (emoji_index rank_name) RANK_EMOJIS with
  | Some e => e
  | None => trophy
  end.
End Config.

(** [calculate_kd_ratio(kills, deaths)]; [None] when the division
    raises. *)
Definition calculate_kd_ratio (kills deaths : Z) : option string :=
  if deaths =? 0 then
    Some (if 0 <? kills then Str.of_Z kills else "0.00")
  else
    match Py.true_div kills deaths with
    | Some x => Some (Py.format_2f x)
    | None => None
    end.

(** The table of [get_max_experience_for_rank]: the progression of the
    31 ranks, from the lowest to the highest, each with the experience
    at which it ends. *)
Definition rank_experience_map : list (string * Z) :=
  [ ("Recruit", 400); ("Private", 1000); ("Gefreiter", 2200);
    ("Corporal", 4400); ("Master Corporal", 7700); ("Sergeant", 12300);
    ("Staff Sergeant", 20000); ("Master Sergeant", 29000);
    ("First Sergeant", 41000); ("Sergeant Major", 57000);
    ("Warrant Officer 1", 76000); ("Warrant Officer 2", 98000);
    ("Warrant Officer 3", 125000); ("Warrant Officer 4", 156000);
    ("Warrant Officer 5", 192000); ("Third Lieutenant", 233000);
    ("Second Lieutenant", 280000); ("First Lieutenant", 332000);
    ("Captain", 390000); ("Major", 455000); ("Lieutenant Colonel", 527000);
    ("Colonel", 606000); ("Brigadier", 695000); ("Major General", 787000);
    ("Lieutenant General", 889000); ("General", 1000000);
    ("Marshal", 1122000); ("Field Marshal", 1255000);
    ("Commander", 1400000); ("Generalissimo", 1600000);
    ("Legend", 1800000) ].

(** The rank names of the progression, in seniority order. *)
Definition progression : list string := map fst rank_experience_map.

End Utils.

(* ------------------------------------------------------------------ *)
(** ** utils.py: the formatters and the table of maxima

    The numbers given to the formatters are Python integers. *)

Module Formatter.

(** [f"{num:,}"] on the digits of a natural number: a comma before every
    group of three digits counted from the right. *)
Fixpoint group_thousands (digits : string) : string :=
  match digits with
  | EmptyString => EmptyString
  | String c rest =>
      String c
        (if (negb (Str.is_empty rest)
             && Nat.eqb (Nat.modulo (String.length rest) 3) 0)%bool
         then "," ++ group_thousands rest
         else group_thousands rest)
  end.

(** [format_exact_number(num)] *)
Definition format_exact_number (num : Z) : string :=
  if num <? 0 then "-" ++ group_thousands (Str.of_Z (- num))
  else group_thousands (Str.of_Z num).

(** The number of units of [1 / scale] nearest to the magnitude of [x]. *)
Definition scaled (scale : Z) (x : Py.float) : Z :=
  if 0 <=? Py.expo x then scale * Py.mant x * 2 ^ Py.expo x
  else Py.round_half_even (scale * Py.mant x) (2 ^ (- Py.expo x)).

(** The text of [n] tenths: the integer part, a point, one digit. *)
Definition render_tenths (n : Z) : string :=
  Str.of_Z (n / 10) ++ "." ++ String (Str.digit_char (n mod 10)) EmptyString.

(** [f"{x:.1f}"] *)
Definition format_1f (x : Py.float) : string :=
  (if Py.negative x then "-" else "") ++ render_tenths (scaled 10 x).

(** [format_number(num)] on an integer; [None] when the division
    raises. *)
Definition format_number (num : Z) : option string :=
  if num =? 0 then Some "0"
  else if num <? 1000 then Some (Str.of_Z num)
  else if num <? 1000000 then
    option_map (fun x => format_1f x ++ "K") (Py.true_div num 1000)
  else if num <? 1000000000 then
    option_map (fun x => format_1f x ++ "M") (Py.true_div num 1000000)
  else
    option_map (fun x => format_1f x ++ "B") (Py.true_div num 1000000000).

(** [format_duration(seconds)] on a whole number of seconds. *)
Definition format_duration (seconds : Z) : string :=
  if seconds <? 60 then Str.of_Z seconds ++ "s"
  else if seconds <? 3600 then
    Str.of_Z (seconds / 60) ++ "m " ++ Str.of_Z (seconds mod 60) ++ "s"
  else if seconds <? 86400 then
    Str.of_Z (seconds / 3600) ++ "h "
    ++ Str.of_Z ((seconds mod 3600) / 60) ++ "m"
  else
    Str.of_Z (seconds / 86400) ++ "d "
    ++ Str.of_Z ((seconds mod 86400) / 3600) ++ "h".

(** [s.split(sep)] for a one-character separator: the pieces between the
    separators, empty ones included. *)
Fixpoint split (sep : ascii) (s : string) : list string :=
  match s with
  | EmptyString => [EmptyString]
  | String c s' =>
      if Ascii.eqb c sep then EmptyString :: split sep s'
      else
        match split sep s' with
        | piece :: pieces => String c piece :: pieces
        | [] => [String c EmptyString]
        end
  end.

(** The digits of an integer literal: digits, with single underscores
    allowed between two digits.  [after_digit] tells whether the previous
    character was a digit. *)
Fixpoint literal_digits (after_digit : bool) (acc : Z) (s : string)
    : option Z :=
  match s with
  | EmptyString => if after_digit then Some acc else None
  | String c s' =>
      if Str.is_digit c then
        literal_digits true (10 * acc + Str.digit_value c) s'
      else if (Ascii.eqb c "_" && after_digit)%bool then
        literal_digits false acc s'
      else None
  end.

(** [int(s)] on any text: white space around the literal is dropped, a
    sign may come first; [None] is a [ValueError]. *)
Definition int (s : string) : option Z :=
  match Str.strip s with
  | String "+" d => literal_digits false 0 d
  | String "-" d => option_map Z.opp (literal_digits false 0 d)
  | d => literal_digits false 0 d
  end.

(** [get_max_experience_for_rank(rank)] *)
Definition get_max_experience_for_rank (rank : string) : Z :=
  if Str.startswith "Legend" rank then
    if String.eqb rank "Legend" then 1800000
    else
      match nth_error (split " " rank) 1 with
      | Some piece =>
          match int piece with
          | Some level => 1600000 + level * 200000
          | None => 1800000
          end
      | None => 1800000
      end
  else Utils.get_default Utils.rank_experience_map rank 0.

End Formatter.

(* ------------------------------------------------------------------ *)
(** ** utils.py: the text helpers *)

Module TextTools.

Import Re.

(** The text between and after the matches [ms] of a text, each match
    replaced by [repl]; [s] is what is left of the text from the
    position [pos] on. *)
Fixpoint sub_matches (repl : string) (ms : list match_obj) (pos : nat)
    (s : string) : string :=
  match ms with
  | [] => s
  | m :: ms' =>
      Str.take (m_start m - pos) s ++ repl ++
      sub_matches repl ms' (m_start m + String.length (m_text m)) (m_rest m)
  end.

(** [re.sub(pattern, repl, s)] for a replacement without backslash: the
    matches are those of [finditer]. *)
Definition sub (fl : flags) (r : regex) (repl : string) (s : string)
    : string :=
  sub_matches repl (finditer (S (String.length s)) fl r 0 s) 0 s.

(** [[^a-zA-Z0-9_-]] *)
Definition unsafe_character : regex :=
  Cls true [IRange "a" "z"; IRange "A" "Z"; IRange "0" "9";
            IChar "_"; IChar "-"].

(** [sanitize_username(username)] *)
Definition sanitize_username (username : string) : string :=
  sub no_flags unsafe_character "" username.



End TextTools.

Module TextVocabulary.

(** The characters a sanitized name may hold: the letters and digits of
    ASCII, the underscore and the hyphen. *)
Definition url_safe (c : ascii) : bool :=
  (Str.is_lower c || Str.is_upper c || Str.is_digit c
   || Ascii.eqb c "_" || Ascii.eqb c "-")%bool.

(** The characters of [s] that satisfy [p], in their order. *)
Fixpoint keep (p : ascii -> bool) (s : string) : string :=
  match s with
  | EmptyString => EmptyString
  | String c s' => if p c then String c (keep p s') else keep p s'
  end.



End TextVocabulary.

Module GroupingVocabulary.





End GroupingVocabulary.

(* ------------------------------------------------------------------ *)
(** ** scraper.py: [RTanksScraper._parse_player_data] *)

Module Scraper.

(** The dictionary [player_data]; the key [max_experience] is present
    only when a [current/max] pair was read. *)
Record player_data : Type := {
  username : string;
  rank : string;
  experience : Z;
  max_experience : option Z;
  kills : Z;
  deaths : Z;
  kd_ratio : string;
  gold_boxes : Z;
  premium : bool;
  group : string;
  is_online : bool;
  status_indicator : string;
  turrets : list string;
  hulls : list string
}.

Definition base_url : string := "https://ratings.ranked-rtanks.online".

(** Python's [any] on a list of truth values. *)
Definition any (l : list bool) : bool := existsb (fun b => b) l.

Definition is_some (A : Type) (o : option A) : bool :=
  match o with Some _ => true | None => false end.

(** The first pattern of a list that is found in [s], with its match:
    the loops [for pattern in patterns: m = re.search(...); if m: ...
    break]. *)
Fixpoint first_search (fl : Re.flags) (patterns : list Re.regex) (s : string)
    : option (Re.regex * Re.match_obj) :=
  match patterns with
  | [] => None
  | p :: ps =>
      match Re.search fl p s with
      | Some m => Some (p, m)
      | None => first_search fl ps s
      end
  end.

(** [x.replace(',', '').replace(' ', '')] *)
Definition strip_separators (x : string) : string :=
  Str.replace " " "" (Str.replace "," "" x).

(** *** The patterns *)

Import Re.

Definition colon_or_space : regex := Cls false [IChar ":"; ISpace].   (* [:\s] *)
Definition not_digit : regex := Cls true [IRange "0" "9"].            (* [^0-9] *)
Definition not_alnum : regex :=                                       (* [^a-zA-Z0-9] *)
  Cls true [IRange "a" "z"; IRange "A" "Z"; IRange "0" "9"].
Definition either (a b : ascii) : regex := Cls false [IChar a; IChar b].
Definition quoted (s : string) : regex := Lit (Str.dquote ++ s ++ Str.dquote).

(** [(\d{1,3}(?:\s?\d{3})* )] as group [n] *)
Definition number_spaced (n : nat) : regex :=
  Grp n (Cat digit1to3 (Star (Cat (Opt space) digit3))).
(** [(\d{1,3}(?:,\d{3})* )] as group [n] *)
Definition number_commas (n : nat) : regex :=
  Grp n (Cat digit1to3 (Star (Cat (Chr ",") digit3))).
(** [(\d{1,3}(?:,?\d{3})* )] *)
Definition number_opt_commas : regex :=
  Grp 1 (Cat digit1to3 (Star (Cat (Opt (Chr ",")) digit3))).
(** [(\d{1,3}(?:[,\s]\d{3})* )] *)
Definition number_grouped : regex :=
  Grp 1 (Cat digit1to3 (Star (Cat (Cls false [IChar ","; ISpace]) digit3))).
(** [\s*/\s*] *)
Definition slash : regex := Seq [Star space; Chr "/"; Star space].

(** [404|not found|error] *)
Definition error_text : regex :=
  Alt (Lit "404") (Alt (Lit "not found") (Lit "error")).

(** [profile|user-info|player-card] and [profile|user|player] *)
Definition profile_class : regex :=
  Alt (Lit "profile") (Alt (Lit "user-info") (Lit "player-card")).
Definition profile_id : regex :=
  Alt (Lit "profile") (Alt (Lit "user") (Lit "player")).
Definition activity_label : regex := Alt (Lit "Activity") (Lit "–ê–∫—Ç–∏–≤–Ω–æ—Å—Ç—å").
Definition combat_stats_label : regex :=
  Alt (Lit "Combat Stats") (Lit "–°—Ç–∞—Ç–∏—Å—Ç–∏–∫–∞ –±–æ—è").

(** [14/400] *)
Definition default_experience : regex := Lit "14/400".
(** [Kills:\s*0.*Deaths:\s*0.*K/D:\s*0\.00] *)
Definition default_combat_stats : regex :=
  Seq [Lit "Kills:"; Star space; Chr "0"; Star Dot;
       Lit "Deaths:"; Star space; Chr "0"; Star Dot;
       Lit "K/D:"; Star space; Lit "0.00"].
(** [Group:\s*Unknown] *)
Definition default_group : regex :=
  Seq [Lit "Group:"; Star space; Lit "Unknown"].
(** [Recruit.*14/400] *)
Definition default_rank : regex :=
  Seq [Lit "Recruit"; Star Dot; Lit "14/400"].

(** [[1-9]\d*] as group 1 *)
Definition nonzero_number : regex :=
  Grp 1 (Cat (Cls false [IRange "1" "9"]) (Star digit)).

Definition meaningful_data_patterns : list regex :=
  [ (* [Kk]ills?[:\s]*([1-9]\d* ) *)
    Seq [either "K" "k"; Lit "ill"; Opt (Chr "s"); Star colon_or_space;
         nonzero_number];
    (* [Dd]eaths?[:\s]*([1-9]\d* ) *)
    Seq [either "D" "d"; Lit "eath"; Opt (Chr "s"); Star colon_or_space;
         nonzero_number];
    (* the [current/max] pair, both numbers with optional spaces *)
    Seq [number_spaced 1; slash; number_spaced 2];
    (* (Private|Gefreiter|...|Legend) *)
    Grp 1
      (fold_right Alt (Lit "Legend")
         (map Lit
            ["Private"; "Gefreiter"; "Corporal"; "Sergeant"; "Lieutenant";
             "Captain"; "Major"; "Colonel"; "General"; "Marshal";
             "Commander"])) ].

(** ['/' in pattern], read off the syntax tree: none of the patterns
    above has a slash inside a class or an escape. *)
Fixpoint has_slash (r : regex) : bool :=
  match r with
  | Chr c => Ascii.eqb c "/"
  | Cat r1 r2 | Alt r1 r2 => (has_slash r1 || has_slash r2)%bool
  | Star r1 | Grp _ r1 => has_slash r1
  | _ => false
  end.

(** [display:\s*none] *)
Definition display_none : regex :=
  Seq [Lit "display:"; Star space; Lit "none"].

Definition exp_patterns : list regex :=
  [ Seq [number_spaced 1; slash; number_spaced 2];
    Seq [number_commas 1; slash; number_commas 2];
    (* (\d+)\s*/\s*(\d+) *)
    Seq [Grp 1 (Plus digit); slash; Grp 2 (Plus digit)] ].

Definition single_exp_patterns : list regex :=
  [ Seq [Lit "Experience"; Star not_digit; number_opt_commas];
    Seq [Lit "–û–ø—ã—Ç"; Star not_digit; number_opt_commas];
    Seq [quoted "experience"; Star not_digit; number_opt_commas] ].

(** [(ru|en)] as group 1 *)
Definition rank_token (ru en : string) : regex := Grp 1 (Alt (Lit ru) (Lit en)).

Definition rank_patterns : list regex :=
  [ Seq [rank_token "–õ–µ–≥–µ–Ω–¥–∞" "Legend"; Star space; Grp 2 (Star digit)];
    rank_token "–ì–µ–Ω–µ—Ä–∞–ª–∏—Å—Å–∏–º—É—Å" "Generalissimo";
    rank_token "–ö–æ–º–∞–Ω–¥–∏—Ä –±—Ä–∏–≥–∞–¥—ã" "Brigadier Commander";
    rank_token "–ö–æ–º–∞–Ω–¥–∏—Ä –ø–æ–ª–∫–æ–≤–Ω–∏–∫" "Colonel Commander";
    rank_token "–ö–æ–º–∞–Ω–¥–∏—Ä –ø–æ–¥–ø–æ–ª–∫–æ–≤–Ω–∏–∫" "Lieutenant Colonel Commander";
    rank_token "–ö–æ–º–∞–Ω–¥–∏—Ä –º–∞–π–æ—Ä" "Major Commander";
    rank_token "–ö–æ–º–∞–Ω–¥–∏—Ä –∫–∞–ø–∏—Ç–∞–Ω" "Captain Commander";
    rank_token "–ö–æ–º–∞–Ω–¥–∏—Ä –ª–µ–π—Ç–µ–Ω–∞–Ω—Ç" "Lieutenant Commander";
    rank_token "–ö–æ–º–∞–Ω–¥–∏—Ä" "Commander";
    rank_token "–§–µ–ª—å–¥–º–∞—Ä—à–∞–ª" "Field Marshal";
    rank_token "–ú–∞—Ä—à–∞–ª" "Marshal";
    rank_token "–ì–µ–Ω–µ—Ä–∞–ª" "General";
    rank_token "–ì–µ–Ω–µ—Ä–∞–ª-–ª–µ–π—Ç–µ–Ω–∞–Ω—Ç" "Lieutenant General";
    rank_token "–ì–µ–Ω–µ—Ä–∞–ª-–º–∞–π–æ—Ä" "Major General";
    rank_token "–ë—Ä–∏–≥–∞–¥–∏—Ä" "Brigadier";
    rank_token "–ü–æ–ª–∫–æ–≤–Ω–∏–∫" "Colonel";
    rank_token "–ü–æ–¥–ø–æ–ª–∫–æ–≤–Ω–∏–∫" "Lieutenant Colonel";
    rank_token "–ú–∞–π–æ—Ä" "Major";
    rank_token "–ö–∞–ø–∏—Ç–∞–Ω" "Captain";
    rank_token "–°—Ç–∞—Ä—à–∏–π –ª–µ–π—Ç–µ–Ω–∞–Ω—Ç" "First Lieutenant";
    rank_token "–õ–µ–π—Ç–µ–Ω–∞–Ω—Ç" "Second Lieutenant";
    rank_token "–°—Ç–∞—Ä—à–∏–π –ø—Ä–∞–ø–æ—Ä—â–∏–∫" "Master Warrant Officer";
    rank_token "–ü—Ä–∞–ø–æ—Ä—â–∏–∫" "Warrant Officer";
    rank_token "–°—Ç–∞—Ä—à–∏–Ω–∞" "Sergeant Major";
    rank_token "–°—Ç–∞—Ä—à–∏–π —Å–µ—Ä–∂–∞–Ω—Ç" "First Sergeant";
    rank_token "–°–µ—Ä–∂–∞–Ω—Ç" "Master Sergeant";
    rank_token "–ú–ª–∞–¥—à–∏–π —Å–µ—Ä–∂–∞–Ω—Ç" "Staff Sergeant";
    rank_token "–ï—Ñ—Ä–µ–π—Ç–æ—Ä" "Sergeant";
    rank_token "–°—Ç–∞—Ä—à–∏–π –µ—Ñ—Ä–µ–π—Ç–æ—Ä" "Master Corporal";
    rank_token "–ö–∞–ø—Ä–∞–ª" "Corporal";
    rank_token "–ì–µ—Ñ—Ä–µ–π—Ç–æ—Ä" "Gefreiter";
    rank_token "–†—è–¥–æ–≤–æ–π" "Private";
    rank_token "–ù–æ–≤–æ–±—Ä–∞–Ω–µ—Ü" "Recruit" ].

Definition rank_mapping : list (string * string) :=
  [ ("–õ–µ–≥–µ–Ω–¥–∞", "Legend");
    ("–ì–µ–Ω–µ—Ä–∞–ª–∏—Å—Å–∏–º—É—Å", "Generalissimo");
    ("–ö–æ–º–∞–Ω–¥–∏—Ä –±—Ä–∏–≥–∞–¥—ã", "Brigadier Commander");
    ("–ö–æ–º–∞–Ω–¥–∏—Ä –ø–æ–ª–∫–æ–≤–Ω–∏–∫", "Colonel Commander");
    ("–ö–æ–º–∞–Ω–¥–∏—Ä –ø–æ–¥–ø–æ–ª–∫–æ–≤–Ω–∏–∫", "Lieutenant Colonel Commander");
    ("–ö–æ–º–∞–Ω–¥–∏—Ä –º–∞–π–æ—Ä", "Major Commander");
    ("–ö–æ–º–∞–Ω–¥–∏—Ä –∫–∞–ø–∏—Ç–∞–Ω", "Captain Commander");
    ("–ö–æ–º–∞–Ω–¥–∏—Ä –ª–µ–π—Ç–µ–Ω–∞–Ω—Ç", "Lieutenant Commander");
    ("–ö–æ–º–∞–Ω–¥–∏—Ä", "Commander");
    ("–§–µ–ª—å–¥–º–∞—Ä—à–∞–ª", "Field Marshal");
    ("–ú–∞—Ä—à–∞–ª", "Marshal");
    ("–ì–µ–Ω–µ—Ä–∞–ª", "General");
    ("–ì–µ–Ω–µ—Ä–∞–ª-–ª–µ–π—Ç–µ–Ω–∞–Ω—Ç", "Lieutenant General");
    ("–ì–µ–Ω–µ—Ä–∞–ª-–º–∞–π–æ—Ä", "Major General");
    ("–ë—Ä–∏–≥–∞–¥–∏—Ä", "Brigadier");
    ("–ü–æ–ª–∫–æ–≤–Ω–∏–∫", "Colonel");
    ("–ü–æ–¥–ø–æ–ª–∫–æ–≤–Ω–∏–∫", "Lieutenant Colonel");
    ("–ú–∞–π–æ—Ä", "Major");
    ("–ö–∞–ø–∏—Ç–∞–Ω", "Captain");
    ("–°—Ç–∞—Ä—à–∏–π –ª–µ–π—Ç–µ–Ω–∞–Ω—Ç", "First Lieutenant");
    ("–õ–µ–π—Ç–µ–Ω–∞–Ω—Ç", "Second Lieutenant");
    ("–°—Ç–∞—Ä—à–∏–π –ø—Ä–∞–ø–æ—Ä—â–∏–∫", "Master Warrant Officer");
    ("–ü—Ä–∞–ø–æ—Ä—â–∏–∫", "Warrant Officer");
    ("–°—Ç–∞—Ä—à–∏–Ω–∞", "Sergeant Major");
    ("–°—Ç–∞—Ä—à–∏–π —Å–µ—Ä–∂–∞–Ω—Ç", "First Sergeant");
    ("–°–µ—Ä–∂–∞–Ω—Ç", "Master Sergeant");
    ("–ú–ª–∞–¥—à–∏–π —Å–µ—Ä–∂–∞–Ω—Ç", "Staff Sergeant");
    ("–ï—Ñ—Ä–µ–π—Ç–æ—Ä", "Sergeant");
    ("–°—Ç–∞—Ä—à–∏–π –µ—Ñ—Ä–µ–π—Ç–æ—Ä", "Master Corporal");
    ("–ö–∞–ø—Ä–∞–ª", "Corporal");
    ("–ì–µ—Ñ—Ä–µ–π—Ç–æ—Ä", "Gefreiter");
    ("–†—è–¥–æ–≤–æ–π", "Private");
    ("–ù–æ–≤–æ–±—Ä–∞–Ω–µ—Ü", "Recruit") ].

Definition kill_patterns : list regex :=
  [ Seq [either "K" "k"; Lit "ill"; Opt (Chr "s"); Star colon_or_space;
         number_grouped];
    Seq [Lit "–£–±–∏–π—Å—Ç–≤–∞"; Star colon_or_space; number_grouped];
    Seq [quoted "kills"; Star colon_or_space; number_grouped] ].

Definition death_patterns : list regex :=
  [ Seq [either "D" "d"; Lit "eath"; Opt (Chr "s"); Star colon_or_space;
         number_grouped];
    Seq [Lit "–°–º–µ—Ä—Ç–∏"; Star colon_or_space; number_grouped];
    Seq [quoted "deaths"; Star colon_or_space; number_grouped] ].

Definition gold_patterns : list regex :=
  [ (* [Gg]old[^0-9]*[Bb]oxes?[:\s]*(\d+) *)
    Seq [either "G" "g"; Lit "old"; Star not_digit; either "B" "b";
         Lit "oxe"; Opt (Chr "s"); Star colon_or_space; Grp 1 (Plus digit)];
    Seq [Lit "–ó–æ–ª–æ—Ç—ã–µ"; Star not_digit; Lit "–∫–æ—Ä–æ–±–∫–∏";
         Star colon_or_space; Grp 1 (Plus digit)];
    Seq [quoted "gold_boxes"; Star colon_or_space; Grp 1 (Plus digit)] ].

(** [([^<\n\r]+)] *)
Definition group_value : regex :=
  Grp 1 (Plus (Cls true [IChar "<"; IChar "010"; IChar "013"])).

Definition group_patterns : list regex :=
  [ Seq [either "G" "g"; Lit "roup"; Star colon_or_space; group_value];
    Seq [either "C" "c"; Lit "lan"; Star colon_or_space; group_value];
    Seq [Lit "–ì—Ä—É–ø–ø–∞"; Star colon_or_space; group_value];
    (* the quoted key [group], then a quoted value *)
    Seq [quoted "group"; Star colon_or_space; Lit Str.dquote;
         Grp 1 (Plus (Cls true [IChar "034"])); Lit Str.dquote] ].

(** The three forms tried for a piece of equipment: [name[^a-zA-Z0-9]*M(\d+)],
    [name[^a-zA-Z0-9]*(\d+)] and [name].  The name is spliced into the
    pattern as it is; it is read here as a literal, which is what the
    splice gives for a name of letters, digits and spaces. *)
Definition equipment_patterns (name : string) : list regex :=
  [ Seq [Lit name; Star not_alnum; Chr "M"; Grp 1 (Plus digit)];
    Seq [Lit name; Star not_alnum; Grp 1 (Plus digit)];
    Lit name ].

(** *** The classification *)

Section Parse.

(** [BeautifulSoup(html, 'html.parser')]; [None] when it raises. *)
Variable BeautifulSoup : string -> option Bs4.soup.
(** [urllib.parse.quote] *)
Variable quote : string -> string.
(** [config.TURRET_NAMES] and [config.HULL_NAMES]; the [config] module
    is not among the sources. *)
Variable TURRET_NAMES : list string.
Variable HULL_NAMES : list string.

Definition error_indicators (html : string) (soup : Bs4.soup)
    (username : string) : list bool :=
  [ Str.contains "player not found" (Str.lower html);
    Str.contains "user not found" (Str.lower html);
    Str.contains "not found" (Str.lower html) && (Str.len html <? 5000);
    Str.contains "404" html && Str.contains "error" (Str.lower html);
    Str.contains "–ø–æ–ª—å–∑–æ–≤–∞—Ç–µ–ª—å –Ω–µ –Ω–∞–π–¥–µ–Ω" (Str.lower html);
    match Bs4.find_text ignorecase error_text soup with
    | Some t => negb (Str.is_empty t) && (Str.len html <? 3000)
    | None => false
    end;
    String.eqb (base_url ++ "/") (base_url ++ "/user/" ++ quote username) ]%bool.

Definition profile_structure_indicators (soup : Bs4.soup) : list bool :=
  [ is_some (Bs4.find_attr "class" ignorecase profile_class soup);
    is_some (Bs4.find_attr "id" ignorecase profile_id soup);
    is_some (Bs4.find_text ignorecase activity_label soup);
    is_some (Bs4.find_text ignorecase combat_stats_label soup) ].

Definition default_data_indicators (html : string) : list bool :=
  [ found no_flags default_experience html;
    found dotall default_combat_stats html;
    found no_flags default_group html;
    found dotall default_rank html ].

(** The loop over [meaningful_data_patterns]; [None] when it raises. *)
Fixpoint has_meaningful_data (patterns : list regex) (html : string)
    : option bool :=
  match patterns with
  | [] => Some false
  | pattern :: patterns' =>
      match search ignorecase pattern html with
      | Some m =>
          if has_slash pattern then
            match mgroup 1 m with
            | Some g =>
                let current_exp := strip_separators g in
                if negb (String.eqb current_exp "14") then Some true
                else has_meaningful_data patterns' html
            | None => None
            end
          else Some true
      | None => has_meaningful_data patterns' html
      end
  end.

(** *** The fields *)

Definition span_text (span : Bs4.node) : string :=
  Str.lower (Bs4.get_text_strip span).

(** [for span in spans: if text == 'yes': ... break elif text == 'no':
    ... break] *)
Fixpoint scan_spans (spans : list Bs4.node) (is_online : bool) : bool :=
  match spans with
  | [] => is_online
  | span :: spans' =>
      if String.eqb (span_text span) "yes" then true
      else if String.eqb (span_text span) "no" then false
      else scan_spans spans' is_online
  end.

Definition yes_or_no (span : Bs4.node) : bool :=
  (String.eqb (span_text span) "yes" || String.eqb (span_text span) "no")%bool.

Definition parse_is_online (soup : Bs4.soup) : bool :=
  let activity_spans := Bs4.find_all_style "span" ignorecase display_none soup in
  let is_online := scan_spans activity_spans false in
  if negb (existsb yes_or_no activity_spans)
  then scan_spans (Bs4.find_all "span" soup) is_online
  else is_online.

(** The loop over [exp_patterns].  The state is the pair of the keys
    [experience] and [max_experience] and the flag [exp_found]; a
    [ValueError] of [int] moves on to the next pattern, keeping what
    was stored before it. *)
Fixpoint parse_exp_pair (patterns : list regex) (html : string)
    (experience : Z) (max_experience : option Z)
    : option (Z * option Z * bool) :=
  match patterns with
  | [] => Some (experience, max_experience, false)
  | pattern :: patterns' =>
      match search no_flags pattern html with
      | Some exp_match =>
          match mgroup 1 exp_match, mgroup 2 exp_match with
          | Some g1, Some g2 =>
              let current_exp_str := strip_separators g1 in
              let max_exp_str := strip_separators g2 in
              match Str.int current_exp_str with
              | Some e =>
                  match Str.int max_exp_str with
                  | Some m => Some (e, Some m, true)
                  | None => parse_exp_pair patterns' html e max_experience
                  end
              | None =>
                  parse_exp_pair patterns' html experience max_experience
              end
          | _, _ => None
          end
      | None => parse_exp_pair patterns' html experience max_experience
      end
  end.

(** The loop over [single_exp_patterns]. *)
Definition parse_single_exp (html : string) (experience : Z) : option Z :=
  match first_search ignorecase single_exp_patterns html with
  | Some (_, exp_match) =>
      match mgroup 1 exp_match with
      | Some g => Str.int (strip_separators g)
      | None => None
      end
  | None => Some experience
  end.

(** The loop over [rank_patterns]: the rank when a token is found. *)
Definition parse_rank_token (html : string) : option (option string) :=
  match first_search ignorecase rank_patterns html with
  | Some (pattern, rank_match) =>
      match mgroup 1 rank_match with
      | Some rank_text =>
          let rank := Utils.get_default rank_mapping rank_text rank_text in
          Some (Some
            (if Nat.ltb 1 (ngroups pattern) then
               match mgroup 2 rank_match with
               | Some legend_level =>
                   if Str.is_empty legend_level then rank
                   else "Legend " ++ legend_level
               | None => rank
               end
             else rank))
      | None => None
      end
  | None => Some None
  end.

(** The chain of thresholds that gives a rank to an experience. *)
Definition rank_of_experience (experience : Z) : string :=
  if 1800000 <=? experience then
    let legend_level := Z.max 1 ((experience - 1600000) / 200000) in
    "Legend " ++ Str.of_Z legend_level
  else if 1600000 <=? experience then "Generalissimo"
  else if 1400000 <=? experience then "Commander"
  else if 1255000 <=? experience then "Field Marshal"
  else if 1122000 <=? experience then "Marshal"
  else if 1000000 <=? experience then "General"
  else if 889000 <=? experience then "Lieutenant General"
  else if 787000 <=? experience then "Major General"
  else if 695000 <=? experience then "Brigadier"
  else if 606000 <=? experience then "Colonel"
  else if 527000 <=? experience then "Lieutenant Colonel"
  else if 455000 <=? experience then "Major"
  else if 390000 <=? experience then "Captain"
  else if 332000 <=? experience then "First Lieutenant"
  else if 280000 <=? experience then "Second Lieutenant"
  else if 233000 <=? experience then "Third Lieutenant"
  else if 192000 <=? experience then "Warrant Officer 5"
  else if 156000 <=? experience then "Warrant Officer 4"
  else if 125000 <=? experience then "Warrant Officer 3"
  else if 98000 <=? experience then "Warrant Officer 2"
  else if 76000 <=? experience then "Warrant Officer 1"
  else if 57000 <=? experience then "Sergeant Major"
  else if 41000 <=? experience then "First Sergeant"
  else if 29000 <=? experience then "Master Sergeant"
  else if 20000 <=? experience then "Staff Sergeant"
  else if 12300 <=? experience then "Sergeant"
  else if 7700 <=? experience then "Master Corporal"
  else if 4400 <=? experience then "Corporal"
  else if 2200 <=? experience then "Gefreiter"
  else if 1000 <=? experience then "Private"
  else "Recruit".

(** The rank of the record: the token found, else the rank of a
    positive experience, else the initial ['Unknown']. *)
Definition parse_rank (html : string) (experience : Z) : option string :=
  match parse_rank_token html with
  | Some (Some rank) => Some rank
  | Some None =>
      Some (if 0 <? experience then rank_of_experience experience
            else "Unknown")
  | None => None
  end.

(** The loops over [kill_patterns], [death_patterns] and
    [gold_patterns]: the number after the first label found, else the
    initial 0; [None] when [int] raises. *)
Definition parse_count (patterns : list regex) (html : string) : option Z :=
  match first_search ignorecase patterns html with
  | Some (_, m) =>
      match mgroup 1 m with
      | Some g => Str.int (strip_separators g)
      | None => None
      end
  | None => Some 0
  end.

Definition parse_gold (html : string) : option Z :=
  match first_search ignorecase gold_patterns html with
  | Some (_, gold_match) =>
      match mgroup 1 gold_match with
      | Some g => Str.int g
      | None => None
      end
  | None => Some 0
  end.

(** The ratio, computed from the two counts just stored. *)
Definition compute_kd_ratio (kills deaths : Z) : option string :=
  if deaths =? 0 then
    Some (if 0 <? kills then Str.of_Z kills else "0.00")
  else
    match Py.true_div kills deaths with
    | Some x => Some (Py.format_2f x)
    | None => None
    end.

Definition premium_indicators (html : string) : list bool :=
  [ Str.contains "premium" (Str.lower html);
    Str.contains "–ø—Ä–µ–º–∏—É–º" (Str.lower html);
    Str.contains (Str.dquote ++ "premium" ++ Str.dquote ++ ": true")
      (Str.lower html) ].

(** The loop over [group_patterns]: a value that is empty or one of the
    place holders is passed over. *)
Fixpoint parse_group (patterns : list regex) (html : string)
    (group : string) : option string :=
  match patterns with
  | [] => Some group
  | pattern :: patterns' =>
      match search ignorecase pattern html with
      | Some group_match =>
          match mgroup 1 group_match with
          | Some g =>
              let group_name := Str.strip g in
              if (negb (Str.is_empty group_name) &&
                  negb (existsb (String.eqb (Str.lower group_name))
                          ["unknown"; "none"; "null"; ""]))%bool
              then Some group_name
              else parse_group patterns' html group
          | None => None
          end
      | None => parse_group patterns' html group
      end
  end.

(** What one result of [re.findall] adds to the list of a name. *)
Definition equipment_entry (name match_ : string) : string :=
  if Str.isdigit match_ then name ++ " M" ++ match_
  else if Str.is_empty match_ then name
  else name ++ " M" ++ match_.

(** The loop over the three forms of one name: the first form that has
    any result gives the entries. *)
Fixpoint equipment_of (patterns : list regex) (html name : string)
    : list string :=
  match patterns with
  | [] => []
  | pattern :: patterns' =>
      match findall ignorecase pattern html with
      | [] => equipment_of patterns' html name
      | matches => map (equipment_entry name) matches
      end
  end.

Definition equipment_found (names : list string) (html : string)
    : list string :=
  flat_map (fun name => equipment_of (equipment_patterns name) html name)
           names.

(** [list(dict.fromkeys(l))] *)
Fixpoint dedup (l : list string) : list string :=
  match l with
  | [] => []
  | x :: l' => x :: filter (fun y => negb (String.eqb y x)) (dedup l')
  end.

Definition status_online : string := "üü¢".
Definition status_offline : string := "üî¥".

(** *** The function *)

Definition _parse_player_data (html username : string)
    : option player_data :=
  match BeautifulSoup html with
  | None => None
  | Some soup =>
  if any (error_indicators html soup username) then None else
  let structure := profile_structure_indicators soup in
  if any (default_data_indicators html) then None else
  match has_meaningful_data meaningful_data_patterns html with
  | None | Some false => None
  | Some true =>
  let is_online := parse_is_online soup in
  match parse_exp_pair exp_patterns html 0 None with
  | None => None
  | Some (experience, max_experience, exp_found) =>
  match (if exp_found then Some experience
         else parse_single_exp html experience) with
  | None => None
  | Some experience =>
  match parse_rank html experience with
  | None => None
  | Some rank =>
  match parse_count kill_patterns html with
  | None => None
  | Some kills =>
  match parse_count death_patterns html with
  | None => None
  | Some deaths =>
  match compute_kd_ratio kills deaths with
  | None => None
  | Some kd_ratio =>
  match parse_gold html with
  | None => None
  | Some gold_boxes =>
  match parse_group group_patterns html "Unknown" with
  | None => None
  | Some group =>
      Some {| username := username;
              rank := rank;
              experience := experience;
              max_experience := max_experience;
              kills := kills;
              deaths := deaths;
              kd_ratio := kd_ratio;
              gold_boxes := gold_boxes;
              premium := any (premium_indicators html);
              group := group;
              is_online := is_online;
              status_indicator :=
                if is_online then status_online else status_offline;
              turrets := dedup (equipment_found TURRET_NAMES html);
              hulls := dedup (equipment_found HULL_NAMES html) |}
  end end end end end end end end end
  end.

End Parse.

End Scraper.

(* ------------------------------------------------------------------ *)
(** ** A concrete setting for examples

    Documents without markup: for a text with no tag and no entity,
    [html.parser] builds one string holding the whole text, and [quote]
    leaves a name made of letters as it is. *)

Module Example.

Definition text_document (html : string) : option Bs4.soup :=
  Some [Bs4.NavigableString html].

Definition quote_letters (name : string) : string := name.

Definition turret_names : list string := ["Smoky"; "Railgun"].
Definition hull_names : list string := ["Hunter"; "Viking"].

(** [_parse_player_data] in this setting. *)
Definition parse (html username : string) : option Scraper.player_data :=
  Scraper._parse_player_data text_document quote_letters
    turret_names hull_names html username.

End Example.

(* ------------------------------------------------------------------ *)
(** ** scraper.py: [get_player_data] and the search in the rankings *)

Module Lookup.

Import Re Scraper.

(** A string of the document with the tags that enclose it, the nearest
    first: [element.parent], [element.parent.parent], and so on up to
    the document itself, which is not a tag of the tree. *)
Fixpoint strings_under (ancestors : list Bs4.node) (n : Bs4.node)
    : list (string * list Bs4.node) :=
  match n with
  | Bs4.NavigableString t => [(t, ancestors)]
  | Bs4.Tag _ _ children =>
      flat_map (strings_under (n :: ancestors)) children
  end.

(** [soup.find_all(text=re.compile(pattern, flags))]: the strings of the
    document in which the pattern is found, in document order. *)
Definition find_all_text (fl : flags) (r : regex) (doc : Bs4.soup)
    : list (string * list Bs4.node) :=
  filter (fun e => found fl r (fst e)) (flat_map (strings_under []) doc).

(** [tag.get_text()]: the strings under the tag, joined. *)
Definition get_text (n : Bs4.node) : string :=
  String.concat ""
    (flat_map
       (fun d =>
          match d with
          | Bs4.NavigableString t => [t]
          | Bs4.Tag _ _ _ => []
          end)
       (Bs4.self_and_descendants n)).

(** [parent.name in ['tr', 'li', 'div']] *)
Definition is_row (n : Bs4.node) : bool :=
  match n with
  | Bs4.Tag name _ _ => existsb (String.eqb name) ["tr"; "li"; "div"]
  | Bs4.NavigableString _ => false
  end.

(** The loop [while parent and parent.name not in [...]]: the nearest
    enclosing row, [None] when the document is reached. *)
Definition enclosing_row (ancestors : list Bs4.node) : option Bs4.node :=
  List.find is_row ancestors.

(** The minimal player object of the rankings. *)
Definition minimal_player (username : string) (experience : Z)
    : player_data :=
  {| username := username;
     rank := "Unknown";
     experience := experience;
     max_experience := None;
     kills := 0;
     deaths := 0;
     kd_ratio := "0.00";
     gold_boxes := 0;
     premium := false;
     group := "Unknown";
     is_online := false;
     status_indicator := status_offline;
     turrets := [];
     hulls := [] |}.

(** The loop over the strings that mention the name: the first one that
    lies in a row with a number gives the record; [None] at the end of
    the loop, and when an exception other than [ValueError] is raised. *)
Fixpoint scan_elements (username : string)
    (elements : list (string * list Bs4.node)) : option player_data :=
  match elements with
  | [] => None
  | (_, ancestors) :: elements' =>
      match enclosing_row ancestors with
      | Some parent =>
          match search no_flags number_grouped (get_text parent) with
          | Some exp_match =>
              match mgroup 1 exp_match with
              | Some g =>
                  Some (minimal_player username
                          match Str.int (strip_separators g) with
                          | Some n => n
                          | None => 0
                          end)
              | None => None
              end
          | None => scan_elements username elements'
          end
      | None => scan_elements username elements'
      end
  end.

Section Site.

(** [BeautifulSoup(html, 'html.parser')]; [None] when it raises. *)
Variable BeautifulSoup : string -> option Bs4.soup.
(** [urllib.parse.quote] *)
Variable quote : string -> string.
Variable TURRET_NAMES : list string.
Variable HULL_NAMES : list string.
(** [session.get(url)]: the status of the response and its text; [None]
    when the request or the reading of the text raises, a time-out
    included. *)
Variable fetch : string -> option (Z * string).

(** [_extract_from_rankings(html, username)] *)
Definition _extract_from_rankings (html username : string)
    : option player_data :=
  match BeautifulSoup html with
  | None => None
  | Some soup =>
      scan_elements username
        (find_all_text ignorecase (Lit username) soup)
  end.

Definition search_urls (username : string) : list string :=
  [ base_url;
    base_url ++ "/rankings";
    base_url ++ "/search?q=" ++ quote username ].

(** The loop over [search_urls]: the first page that answers with status
    200 and holds the name, letter case apart, decides. *)
Fixpoint search_pages (urls : list string) (username : string)
    : option player_data :=
  match urls with
  | [] => None
  | url :: urls' =>
      match fetch url with
      | Some (status, html) =>
          if ((status =? 200)
              && Str.contains (Str.lower username) (Str.lower html))%bool
          then _extract_from_rankings html username
          else search_pages urls' username
      | None => search_pages urls' username
      end
  end.

(** [_search_player_on_main_page(username)] *)
Definition _search_player_on_main_page (username : string)
    : option player_data :=
  search_pages (search_urls username) username.

(** [get_player_data(username)]: the profile page first, then the
    rankings.  The pause before the request has no part in the
    result. *)
Definition get_player_data (username : string) : option player_data :=
  let player_data :=
    match fetch (base_url ++ "/user/" ++ quote username) with
    | Some (status, html) =>
        if status =? 200
        then _parse_player_data BeautifulSoup quote TURRET_NAMES HULL_NAMES
               html username
        else None
    | None => None
    end in
  match player_data with
  | Some r => Some r
  | None => _search_player_on_main_page username
  end.

End Site.

End Lookup.

Module LookupVocabulary.




End LookupVocabulary.

Module ExampleSite.

Import Bs4.

(** A page of the rankings with one row: position, name, experience. *)
Definition rankings_page : string :=
  "<table><tr><td>7</td><td>Player</td><td>50,000</td></tr></table>".

Definition rankings_tree : soup :=
  [Tag "table" []
     [Tag "tr" []
        [Tag "td" [] [NavigableString "7"];
         Tag "td" [] [NavigableString "Player"];
         Tag "td" [] [NavigableString "50,000"]]]].

(** The parse of that page; any other text is taken as free of
    markup. *)
Definition parse_page (html : string) : option soup :=
  if String.eqb html rankings_page then Some rankings_tree
  else Example.text_document html.

(** A site without the profile of the player, whose home page is the
    page of the rankings. *)
Definition rankings_only (url : string) : option (Z * string) :=
  if String.eqb url (Scraper.base_url ++ "/user/player")
  then Some (404, "")
  else if String.eqb url Scraper.base_url then Some (200, rankings_page)
  else None.

(** A site with a profile page. *)
Definition with_profile (url : string) : option (Z * string) :=
  if String.eqb url (Scraper.base_url ++ "/user/player")
  then Some (200, "Kills: 1,234 Deaths: 7 Experience: 50,000")
  else None.

Definition get_player_data (fetch : string -> option (Z * string))
    (username : string) : option Scraper.player_data :=
  Lookup.get_player_data parse_page Example.quote_letters
    Example.turret_names Example.hull_names fetch username.

End ExampleSite.

(* ------------------------------------------------------------------ *)
(** ** The vocabulary of the specification *)

Module Vocabulary.

(** A string of the shape [digits.dd]: a number rendered with exactly
    two decimal places. *)
Definition two_decimals (s : string) : Prop :=
  exists int_part d1 d2,
    s = int_part ++ "." ++ String d1 (String d2 EmptyString) /\
    Str.isdigit int_part = true /\
    Str.is_digit d1 = true /\ Str.is_digit d2 = true.

(** [s] is the number [n / 100] written with two decimal places. *)
Definition renders_hundredths (s : string) (n : Z) : Prop :=
  0 <= n /\
  s = Str.of_Z (n / 100) ++ "." ++
      String (Str.digit_char (n mod 100 / 10))
        (String (Str.digit_char (n mod 10)) EmptyString).

(** [n] hundredths is the quotient [a / b] rounded to the nearest
    hundredth, up to the rounding of the quotient itself to binary64: the
    two last terms are zero for [a] below 2^52 / 100 and [b] below
    2^1074 / 100, and then [n] is a nearest integer to [100 a / b]. *)
Definition nearest_hundredths (n a b : Z) : Prop :=
  2 * Z.abs (n * b - 100 * a)
  <= b + (100 * a) / 2 ^ 52 + (100 * b) / 2 ^ 1074.

(** No rank token: none of the rank patterns is found in the document. *)
Definition no_rank_token (html : string) : Prop :=
  forall pattern, In pattern Scraper.rank_patterns ->
    Re.found Re.ignorecase pattern html = false.

Definition no_rank_tokenb (html : string) : bool :=
  forallb (fun pattern => negb (Re.found Re.ignorecase pattern html))
          Scraper.rank_patterns.

(** The level of a label [Legend N]; 0 for any other label. *)
Definition legend_level (rank : string) : Z :=
  if Str.startswith "Legend " rank then
    match Str.int (Str.drop 7 rank) with Some n => n | None => 0 end
  else 0.

(** The place of a rank label in the progression: its tier, from 1 to
    31, and within the last tier its level. *)
Definition seniority (rank : string) : Z * Z :=
  (Utils.emoji_index rank, legend_level rank).

(** [a] is not senior to [b]: a lower tier, or the same tier and a level
    that is not higher. *)
Definition not_senior (a b : string) : Prop :=
  fst (seniority a) < fst (seniority b) \/
  (fst (seniority a) = fst (seniority b) /\
   snd (seniority a) <= snd (seniority b)).

(** The tier of the progression that the thresholds give to an
    experience: 31 from 1,800,000 on, 30 from 1,600,000 on, and so on
    down to 1 below 1,000. *)
Definition tier_of_experience (experience : Z) : Z :=
  if 1800000 <=? experience then 31
  else if 1600000 <=? experience then 30
  else if 1400000 <=? experience then 29
  else if 1255000 <=? experience then 28
  else if 1122000 <=? experience then 27
  else if 1000000 <=? experience then 26
  else if 889000 <=? experience then 25
  else if 787000 <=? experience then 24
  else if 695000 <=? experience then 23
  else if 606000 <=? experience then 22
  else if 527000 <=? experience then 21
  else if 455000 <=? experience then 20
  else if 390000 <=? experience then 19
  else if 332000 <=? experience then 18
  else if 280000 <=? experience then 17
  else if 233000 <=? experience then 16
  else if 192000 <=? experience then 15
  else if 156000 <=? experience then 14
  else if 125000 <=? experience then 13
  else if 98000 <=? experience then 12
  else if 76000 <=? experience then 11
  else if 57000 <=? experience then 10
  else if 41000 <=? experience then 9
  else if 29000 <=? experience then 8
  else if 20000 <=? experience then 7
  else if 12300 <=? experience then 6
  else if 7700 <=? experience then 5
  else if 4400 <=? experience then 4
  else if 2200 <=? experience then 3
  else if 1000 <=? experience then 2
  else 1.

(** A character that may stand between a label and its number: a colon
    or white space. *)
Definition is_separator (c : ascii) : bool :=
  (Ascii.eqb c ":" || Str.is_space c)%bool.

(** The pattern is matched nowhere in [s] from a position before [n]. *)
Definition no_match_before (fl : Re.flags) (r : Re.regex) (n : nat)
    (s : string) : Prop :=
  forall i, (i < n)%nat -> Re.match_here fl r i (Str.drop i s) = None.

Definition no_match_beforeb (fl : Re.flags) (r : Re.regex) (n : nat)
    (s : string) : bool :=
  forallb (fun i => negb (Scraper.is_some (Re.match_here fl r i (Str.drop i s))))
          (seq 0 n).

(** The first pattern of the kills, and of the deaths: the label in
    letters. *)
Definition kills_pattern : Re.regex := nth 0 Scraper.kill_patterns Re.Eps.
Definition deaths_pattern : Re.regex := nth 0 Scraper.death_patterns Re.Eps.

(** The text of three characters. *)
Definition three (d1 d2 d3 : ascii) : string :=
  String d1 (String d2 (String d3 EmptyString)).

(** A recognised rank name: one that the table of [get_rank_emoji]
    reads as a name of the progression, that is, one equal to it once
    lowered and with its spaces turned into underscores. *)
Definition in_progression (rank_name : string) : Prop :=
  In (Utils.normalize rank_name) (map Utils.normalize Utils.progression).

End Vocabulary.

Module ExperienceVocabulary.





End ExperienceVocabulary.

Module GoldVocabulary.



End GoldVocabulary.

(* ------------------------------------------------------------------ *)
(** ** Properties of the string and number helpers *)

Unset Implicit Arguments.

Module StrFacts.

Arguments Str.digit_char : simpl never.
Arguments Str.digit_value : simpl never.
Arguments Str.is_digit : simpl never.

Lemma digit_char_is_digit (d : Z) :
  0 <= d < 10 -> Str.is_digit (Str.digit_char d) = true.
Proof.
  intros H.
  assert (Hd : d = 0 \/ d = 1 \/ d = 2 \/ d = 3 \/ d = 4 \/ d = 5 \/
               d = 6 \/ d = 7 \/ d = 8 \/ d = 9) by lia.
  repeat destruct Hd as [-> | Hd]; try subst d; reflexivity.
Qed.

Lemma digit_value_digit_char (d : Z) :
  0 <= d < 10 -> Str.digit_value (Str.digit_char d) = d.
Proof.
  intros H.
  assert (Hd : d = 0 \/ d = 1 \/ d = 2 \/ d = 3 \/ d = 4 \/ d = 5 \/
               d = 6 \/ d = 7 \/ d = 8 \/ d = 9) by lia.
  repeat destruct Hd as [-> | Hd]; try subst d; reflexivity.
Qed.

Lemma of_pos_aux_digits (fuel : nat) : forall n acc,
  0 <= n ->
  Str.forallb Str.is_digit acc = true ->
  Str.forallb Str.is_digit (Str.of_pos_aux fuel n acc) = true.
Proof.
  induction fuel as [|fuel IH]; intros n acc Hn Hacc; simpl; [assumption|].
  assert (Hd : Str.forallb Str.is_digit
                 (String (Str.digit_char (n mod 10)) acc) = true).
  { cbn [Str.forallb]. rewrite digit_char_is_digit, Hacc; [reflexivity|].
    apply Z.mod_pos_bound; lia. }
  destruct (n <? 10); [assumption|].
  apply IH; [apply Z.div_pos; lia | assumption].
Qed.

Lemma of_pos_aux_nonempty (fuel : nat) (n : Z) (acc : string) :
  Str.is_empty (Str.of_pos_aux (S fuel) n acc) = false.
Proof.
  revert n acc.
  induction fuel as [|fuel IH]; intros n acc.
  - simpl. now destruct (n <? 10).
  - change (Str.of_pos_aux (S (S fuel)) n acc)
      with (let acc' := String (Str.digit_char (n mod 10)) acc in
            if n <? 10 then acc'
            else Str.of_pos_aux (S fuel) (n / 10) acc').
    simpl. destruct (n <? 10); [reflexivity | apply IH].
Qed.

(** [str(n)] of a natural number is a non-empty run of digits. *)
Lemma of_Z_isdigit (n : Z) : 0 <= n -> Str.isdigit (Str.of_Z n) = true.
Proof.
  intros Hn. unfold Str.isdigit, Str.of_Z.
  destruct (n <? 0) eqn:Hneg; [lia|].
  rewrite of_pos_aux_nonempty, of_pos_aux_digits; auto.
Qed.

Lemma digits_value_nonneg (s : string) : forall acc,
  0 <= acc -> 0 <= Str.digits_value acc s.
Proof.
  induction s as [|c s IH]; intros acc Hacc; cbn [Str.digits_value];
    [assumption|].
  apply IH. unfold Str.digit_value. lia.
Qed.

(** [int] of a run of digits is never negative. *)
Lemma int_nonneg (s : string) (v : Z) : Str.int s = Some v -> 0 <= v.
Proof.
  unfold Str.int. destruct (Str.isdigit s); [|discriminate].
  intros [= <-]. now apply digits_value_nonneg.
Qed.

Lemma digits_value_app (s t : string) : forall acc,
  Str.digits_value acc (s ++ t) = Str.digits_value (Str.digits_value acc s) t.
Proof.
  induction s as [|c s IH]; intros acc; cbn [append Str.digits_value];
    [reflexivity | apply IH].
Qed.

Lemma append_assoc (a b c : string) : (a ++ b) ++ c = a ++ (b ++ c).
Proof.
  induction a as [|x a IH]; cbn [append]; [reflexivity | now rewrite IH].
Qed.

Lemma append_empty_r (a : string) : a ++ "" = a.
Proof.
  induction a as [|x a IH]; cbn [append]; [reflexivity | now rewrite IH].
Qed.

(** With enough fuel, [of_pos_aux] puts before [acc] the digits of [n]. *)
Lemma of_pos_aux_value (fuel : nat) : forall n acc,
  0 <= n < 2 ^ Z.of_nat fuel ->
  exists s, Str.of_pos_aux fuel n acc = s ++ acc /\ Str.digits_value 0 s = n.
Proof.
  induction fuel as [|fuel IH]; intros n acc Hn.
  - exists "". split; [reflexivity|]. cbn [Str.digits_value].
    change (2 ^ Z.of_nat 0) with 1 in Hn. lia.
  - cbn [Str.of_pos_aux].
    destruct (n <? 10) eqn:Hlt.
    + apply Z.ltb_lt in Hlt.
      exists (String (Str.digit_char (n mod 10)) "").
      split; [reflexivity|]. cbn [Str.digits_value].
      rewrite digit_value_digit_char by (apply Z.mod_pos_bound; lia).
      rewrite Z.mod_small; lia.
    + apply Z.ltb_ge in Hlt.
      rewrite Nat2Z.inj_succ, Z.pow_succ_r in Hn by lia.
      destruct (IH (n / 10) (String (Str.digit_char (n mod 10)) acc))
        as (s & Hs & Hv).
      { split; [apply Z.div_pos; lia|].
        apply Z.div_lt_upper_bound; lia. }
      exists (s ++ String (Str.digit_char (n mod 10)) "").
      split.
      * rewrite Hs, append_assoc. reflexivity.
      * rewrite digits_value_app, Hv. cbn [Str.digits_value].
        rewrite digit_value_digit_char by (apply Z.mod_pos_bound; lia).
        pose proof (Z.div_mod n 10 ltac:(lia)). lia.
Qed.

(** [int(str(n)) = n] for a natural number. *)
Lemma int_of_Z (n : Z) : 0 <= n -> Str.int (Str.of_Z n) = Some n.
Proof.
  intros Hn. unfold Str.int. rewrite of_Z_isdigit by assumption.
  f_equal. unfold Str.of_Z.
  destruct (n <? 0) eqn:Hneg; [lia|].
  destruct (of_pos_aux_value (S (Z.to_nat (Z.log2 n))) n "") as (s & Hs & Hv).
  { split; [assumption|].
    rewrite Nat2Z.inj_succ, Z2Nat.id by apply Z.log2_nonneg.
    destruct (Z.eq_dec n 0) as [->|Hne]; [reflexivity|].
    apply Z.log2_spec. lia. }
  rewrite Hs, append_empty_r. exact Hv.
Qed.

End StrFacts.

Module PyFacts.

Lemma round_half_even_nonneg (n d : Z) :
  0 <= n -> 0 < d -> 0 <= Py.round_half_even n d.
Proof.
  intros Hn Hd. unfold Py.round_half_even.
  assert (0 <= n / d) by (apply Z.div_pos; lia).
  destruct (2 * (n mod d) <? d); [assumption|].
  destruct (d <? 2 * (n mod d)); [lia|].
  destruct (Z.even (n / d)); lia.
Qed.

Lemma pow2_pos (e : Z) : 0 <= e -> 0 < 2 ^ e.
Proof. intros; apply Z.pow_pos_nonneg; lia. Qed.

(** The quotient of a natural number by a positive one carries no sign
    and a natural mantissa. *)
Lemma true_div_nonneg (a b : Z) (x : Py.float) :
  0 <= a -> 0 < b -> Py.true_div a b = Some x ->
  Py.negative x = false /\ 0 <= Py.mant x.
Proof.
  intros Ha Hb. unfold Py.true_div.
  destruct (b =? 0) eqn:Hb0; [lia|].
  replace (a <? 0) with false by (symmetry; apply Z.ltb_ge; lia).
  replace (b <? 0) with false by (symmetry; apply Z.ltb_ge; lia).
  rewrite (Z.abs_eq a), (Z.abs_eq b) by lia.
  destruct (a =? 0); [intros [= <-]; simpl; split; [reflexivity|lia]|].
  set (u := Z.max (Py.quotient_exponent a b - 52) (-1074)).
  destruct (0 <=? u) eqn:Hu.
  - apply Z.leb_le in Hu.
    destruct (_ && _)%bool; [discriminate|].
    intros [= <-]; simpl; split; [reflexivity|].
    apply round_half_even_nonneg; [lia|].
    apply Z.mul_pos_pos; [lia | now apply pow2_pos].
  - apply Z.leb_gt in Hu. simpl.
    intros [= <-]; simpl; split; [reflexivity|].
    apply round_half_even_nonneg; [|lia].
    apply Z.mul_nonneg_nonneg; [lia|].
    apply Z.lt_le_incl, pow2_pos; lia.
Qed.

Lemma hundredths_nonneg (x : Py.float) :
  0 <= Py.mant x -> 0 <= Py.hundredths x.
Proof.
  intros Hm. unfold Py.hundredths.
  destruct (0 <=? Py.expo x) eqn:He.
  - apply Z.leb_le in He.
    apply Z.mul_nonneg_nonneg; [lia|].
    apply Z.lt_le_incl; now apply pow2_pos.
  - apply Z.leb_gt in He.
    apply round_half_even_nonneg; [lia | apply pow2_pos; lia].
Qed.

Lemma format_2f_two_decimals (x : Py.float) :
  Py.negative x = false -> 0 <= Py.mant x ->
  Vocabulary.two_decimals (Py.format_2f x).
Proof.
  intros Hs Hm. unfold Py.format_2f. rewrite Hs.
  pose proof (hundredths_nonneg x Hm) as Hn.
  set (n := Py.hundredths x) in *.
  exists (Str.of_Z (n / 100)), (Str.digit_char (n mod 100 / 10)),
         (Str.digit_char (n mod 10)).
  split; [reflexivity|].
  split; [apply StrFacts.of_Z_isdigit; apply Z.div_pos; lia|].
  split; apply StrFacts.digit_char_is_digit.
  - pose proof (Z.mod_pos_bound n 100 ltac:(lia)).
    split; [apply Z.div_pos; lia | apply Z.div_lt_upper_bound; lia].
  - apply Z.mod_pos_bound; lia.
Qed.

(** Rounding to the nearest integer is off by at most one half. *)
Lemma round_half_even_error (n d : Z) :
  0 < d -> 2 * Z.abs (Py.round_half_even n d * d - n) <= d.
Proof.
  intros Hd. unfold Py.round_half_even.
  pose proof (Z.div_mod n d ltac:(lia)) as Hn.
  pose proof (Z.mod_pos_bound n d Hd) as Hr.
  set (q := n / d) in *. set (r := n mod d) in *.
  destruct (Z.ltb_spec (2 * r) d); [nia|].
  destruct (Z.ltb_spec d (2 * r)); [nia|].
  destruct (Z.even q); nia.
Qed.

(** The exponent of the quotient is not above it. *)
Lemma quotient_exponent_below (a b : Z) :
  0 < a -> 0 < b ->
  (0 <= Py.quotient_exponent a b -> b * 2 ^ Py.quotient_exponent a b <= a) /\
  (Py.quotient_exponent a b < 0 -> b <= a * 2 ^ (- Py.quotient_exponent a b)).
Proof.
  intros Ha Hb. unfold Py.quotient_exponent.
  pose proof (Z.log2_spec a Ha) as [Hla _].
  pose proof (Z.log2_spec b Hb) as [_ Hlb].
  pose proof (Z.log2_nonneg a) as Hna.
  pose proof (Z.log2_nonneg b) as Hnb.
  set (la := Z.log2 a) in *. set (lb := Z.log2 b) in *.
  assert (Hpa : 0 < 2 ^ la) by (apply pow2_pos; lia).
  destruct (Z.leb_spec 0 (la - lb)) as [He|He].
  - destruct (Z.leb_spec (b * 2 ^ (la - lb)) a) as [Ht|Ht].
    + split; [intros _; exact Ht | lia].
    + split.
      * intros Hpos.
        assert (Hsplit : 2 ^ la = 2 ^ Z.succ lb * 2 ^ (la - lb - 1))
          by (rewrite <- Z.pow_add_r by lia; f_equal; lia).
        assert (0 < 2 ^ (la - lb - 1)) by (apply pow2_pos; lia).
        nia.
      * intros Hneg. replace (- (la - lb - 1)) with 1 by lia.
        replace lb with la in Hlb by lia.
        rewrite Z.pow_succ_r in Hlb by lia. change (2 ^ 1) with 2. lia.
  - destruct (Z.leb_spec b (a * 2 ^ (- (la - lb)))) as [Ht|Ht].
    + split; [lia | intros _; exact Ht].
    + split; [lia|]. intros _.
      assert (Hsplit : 2 ^ Z.succ lb = 2 ^ la * 2 ^ (- (la - lb - 1)))
        by (rewrite <- Z.pow_add_r by lia; f_equal; lia).
      assert (0 < 2 ^ (- (la - lb - 1))) by (apply pow2_pos; lia).
      nia.
Qed.

(** The hundredths printed for [a / b] are the nearest to the exact
    quotient, up to the rounding of the quotient to binary64. *)
Lemma hundredths_accuracy (a b : Z) (x : Py.float) :
  0 <= a -> 0 < b -> Py.true_div a b = Some x ->
  Vocabulary.nearest_hundredths (Py.hundredths x) a b.
Proof.
  unfold Vocabulary.nearest_hundredths.
  intros Ha Hb. unfold Py.true_div.
  destruct (b =? 0) eqn:Hb0; [lia|].
  replace (a <? 0) with false by (symmetry; apply Z.ltb_ge; lia).
  replace (b <? 0) with false by (symmetry; apply Z.ltb_ge; lia).
  rewrite (Z.abs_eq a), (Z.abs_eq b) by lia.
  assert (H52 : 0 < 2 ^ 52) by (apply pow2_pos; lia).
  assert (H1074 : 0 < 2 ^ 1074) by (apply pow2_pos; lia).
  assert (Hq1 : 0 <= (100 * a) / 2 ^ 52) by (apply Z.div_pos; lia).
  assert (Hq2 : 0 <= (100 * b) / 2 ^ 1074) by (apply Z.div_pos; lia).
  destruct (Z.eqb_spec a 0) as [Ha0|Ha0].
  { intros [= <-]. unfold Py.hundredths. cbn [Py.expo Py.mant].
    change (0 <=? 0) with true. cbv beta iota.
    replace (100 * 0 * 2 ^ 0 * b - 100 * a) with 0 by lia.
    change (Z.abs 0) with 0. lia. }
  destruct (quotient_exponent_below a b ltac:(lia) Hb) as [HEpos HEneg].
  set (E := Py.quotient_exponent a b) in *.
  set (u := Z.max (E - 52) (-1074)).
  destruct (Z.leb_spec 0 u) as [Hu|Hu].
  - destruct (_ && _)%bool; [discriminate|].
    intros [= <-]. unfold Py.hundredths. cbn [Py.expo Py.mant].
    replace (0 <=? u) with true by (symmetry; apply Z.leb_le; lia).
    assert (HuE : u = E - 52) by lia.
    assert (Hpu : 0 < 2 ^ u) by (apply pow2_pos; lia).
    pose proof (round_half_even_error a (b * 2 ^ u) ltac:(nia)) as Herr.
    set (m := Py.round_half_even a (b * 2 ^ u)) in *.
    assert (HE : b * 2 ^ u * 2 ^ 52 <= a).
    { rewrite <- Z.mul_assoc, <- Z.pow_add_r by lia.
      replace (u + 52) with E by lia. apply HEpos. lia. }
    assert (Hfloor : 100 * (b * 2 ^ u) <= (100 * a) / 2 ^ 52)
      by (apply Z.div_le_lower_bound; nia).
    replace (100 * m * 2 ^ u * b - 100 * a)
      with (100 * (m * (b * 2 ^ u) - a)) by ring.
    rewrite Z.abs_mul. change (Z.abs 100) with 100. lia.
  - intros [= <-]. unfold Py.hundredths. cbn [Py.expo Py.mant].
    replace (0 <=? u) with false by (symmetry; apply Z.leb_gt; lia).
    assert (HD : 0 < 2 ^ (- u)) by (apply pow2_pos; lia).
    pose proof (round_half_even_error (a * 2 ^ (- u)) b Hb) as Hm.
    set (m := Py.round_half_even (a * 2 ^ (- u)) b) in *.
    pose proof (round_half_even_error (100 * m) (2 ^ (- u)) HD) as HN.
    set (N := Py.round_half_even (100 * m) (2 ^ (- u))) in *.
    (* both errors together, scaled by D = 2^(-u) *)
    assert (Hboth : (2 * Z.abs (N * b - 100 * a) - b) * 2 ^ (- u) <= 100 * b).
    { assert (Hid : (N * b - 100 * a) * 2 ^ (- u)
                    = b * (N * 2 ^ (- u) - 100 * m)
                      + 100 * (m * b - a * 2 ^ (- u))) by ring.
      assert (Habs : Z.abs (N * b - 100 * a) * 2 ^ (- u)
                     = Z.abs ((N * b - 100 * a) * 2 ^ (- u)))
        by (rewrite Z.abs_mul, (Z.abs_eq (2 ^ (- u))); lia).
      pose proof (Z.abs_triangle (b * (N * 2 ^ (- u) - 100 * m))
                    (100 * (m * b - a * 2 ^ (- u)))) as Htri.
      rewrite !Z.abs_mul in Htri.
      rewrite (Z.abs_eq b), (Z.abs_eq 100) in Htri by lia.
      rewrite Hid in Habs.
      nia. }
    set (L := 2 * Z.abs (N * b - 100 * a) - b) in *.
    destruct (Z.max_spec (E - 52) (-1074)) as [[Hlt Hmax]|[Hge Hmax]];
      fold u in Hmax.
    + (* below the normal range: u = -1074 *)
      assert (L <= (100 * b) / 2 ^ 1074); [|lia].
      apply Z.div_le_lower_bound; [lia|].
      rewrite Hmax in Hboth. change (- -1074) with 1074 in Hboth. lia.
    + (* normal range: u = E - 52 *)
      assert (L <= (100 * a) / 2 ^ 52); [|lia].
      apply Z.div_le_lower_bound; [lia|].
      destruct (Z.le_gt_cases L 0) as [HL|HL]; [nia|].
      destruct (Z.le_gt_cases 0 E) as [HE0|HE0].
      * (* 2^(-u) * 2^E = 2^52 *)
        specialize (HEpos HE0).
        assert (Hsplit : 2 ^ 52 = 2 ^ (- u) * 2 ^ E)
          by (rewrite <- Z.pow_add_r by lia; f_equal; lia).
        assert (0 < 2 ^ E) by (apply pow2_pos; lia).
        nia.
      * (* 2^(-u) = 2^52 * 2^(-E) *)
        specialize (HEneg HE0).
        assert (Hsplit : 2 ^ (- u) = 2 ^ 52 * 2 ^ (- E))
          by (rewrite <- Z.pow_add_r by lia; f_equal; lia).
        assert (0 < 2 ^ (- E)) by (apply pow2_pos; lia).
        nia.
Qed.

(** For counts below 2^52 / 100 the hundredths printed are the nearest to
    the exact quotient. *)
Lemma nearest_hundredths_exact (n a b : Z) :
  0 <= a -> 0 < b -> 100 * a < 2 ^ 52 -> 100 * b < 2 ^ 1074 ->
  Vocabulary.nearest_hundredths n a b ->
  2 * Z.abs (n * b - 100 * a) <= b.
Proof.
  unfold Vocabulary.nearest_hundredths. intros Ha Hb Hsa Hsb H.
  rewrite (Z.div_small (100 * a)), (Z.div_small (100 * b)) in H by lia.
  lia.
Qed.

Lemma format_2f_renders (x : Py.float) :
  Py.negative x = false -> 0 <= Py.mant x ->
  Vocabulary.renders_hundredths (Py.format_2f x) (Py.hundredths x).
Proof.
  intros Hs Hm. split; [now apply hundredths_nonneg|].
  unfold Py.format_2f. now rewrite Hs.
Qed.

End PyFacts.

(* ------------------------------------------------------------------ *)
(** ** Properties of the scraper *)

(* ------------------------------------------------------------------ *)
(** ** Properties of the matcher *)

Module ReFacts.
Import Re.

Ltac by_cases_on_char a :=
  destruct a as [[] [] [] [] [] [] [] []]; vm_compute; intros;
  repeat split; congruence.

Lemma digit_matches_digit (a : ascii) :
  Str.is_digit a = true -> cls_matches ignorecase false [IDigit] a = true.
Proof. by_cases_on_char a. Qed.

Lemma digit_is_no_group_separator (a : ascii) :
  Str.is_digit a = true ->
  cls_matches ignorecase false [IChar ","; ISpace] a = false.
Proof. by_cases_on_char a. Qed.

Lemma digit_is_no_separator (a : ascii) :
  Str.is_digit a = true ->
  cls_matches ignorecase false [IChar ":"; ISpace] a = false.
Proof. by_cases_on_char a. Qed.

Lemma separator_matches (a : ascii) :
  Vocabulary.is_separator a = true ->
  cls_matches ignorecase false [IChar ":"; ISpace] a = true.
Proof. by_cases_on_char a. Qed.

Lemma digit_is_no_s (a : ascii) :
  Str.is_digit a = true -> chr_matches ignorecase "s" a = false.
Proof. by_cases_on_char a. Qed.

Lemma separator_is_no_s (a : ascii) :
  Vocabulary.is_separator a = true -> chr_matches ignorecase "s" a = false.
Proof. by_cases_on_char a. Qed.

Lemma digit_is_no_comma_nor_space (a : ascii) :
  Str.is_digit a = true -> Ascii.eqb a "," = false /\ Ascii.eqb a " " = false.
Proof. by_cases_on_char a. Qed.

(** Under [IGNORECASE] a literal matches the characters that lower to its
    own lower case. *)
Lemma chr_matches_lower (x a : ascii) :
  Str.lower_char a = Str.lower_char x -> chr_matches ignorecase x a = true.
Proof.
  intros H. unfold chr_matches, item_matches. cbn [IGNORECASE ignorecase].
  rewrite H. apply Ascii.eqb_refl.
Qed.

Lemma either_matches_lower (u l a : ascii) :
  Str.lower_char a = Str.lower_char l ->
  cls_matches ignorecase false [IChar u; IChar l] a = true.
Proof.
  intros H. unfold cls_matches, item_matches.
  cbn [IGNORECASE ignorecase existsb]. rewrite H, Ascii.eqb_refl.
  now rewrite !orb_true_r.
Qed.

Section Run.
Variable A : Type.
Variable fl : flags.
Implicit Types (k : cont A) (c : captures) (s t : string) (r : regex).

Lemma run_Cat r1 r2 s c k :
  run fl (Cat r1 r2) s c k = run fl r1 s c (fun s' c' => run fl r2 s' c' k).
Proof. reflexivity. Qed.

Lemma run_Grp n r s c k :
  run fl (Grp n r) s c k =
  run fl r s c (fun s' c' => k s' ((n, Str.consumed s s') :: c')).
Proof. reflexivity. Qed.

Lemma run_Star r s c k :
  run fl (Star r) s c k = star_loop (run fl r) k (String.length s) s c.
Proof. reflexivity. Qed.

Lemma run_Chr_hit x a s c k :
  chr_matches fl x a = true -> run fl (Chr x) (String a s) c k = k s c.
Proof. intros H. cbn [run]. now rewrite H. Qed.

Lemma run_Chr_miss x a s c k :
  chr_matches fl x a = false -> run fl (Chr x) (String a s) c k = None.
Proof. intros H. cbn [run]. now rewrite H. Qed.

Lemma run_Cls_hit neg items a s c k :
  cls_matches fl neg items a = true ->
  run fl (Cls neg items) (String a s) c k = k s c.
Proof. intros H. cbn [run]. now rewrite H. Qed.

Lemma run_Cls_miss neg items a s c k :
  cls_matches fl neg items a = false ->
  run fl (Cls neg items) (String a s) c k = None.
Proof. intros H. cbn [run]. now rewrite H. Qed.

Lemma run_Alt_first r1 r2 s c k v :
  run fl r1 s c k = Some v -> run fl (Alt r1 r2) s c k = Some v.
Proof. intros H. cbn [run]. now rewrite H. Qed.

Lemma run_Alt_second r1 r2 s c k :
  run fl r1 s c k = None -> run fl (Alt r1 r2) s c k = run fl r2 s c k.
Proof. intros H. cbn [run]. now rewrite H. Qed.

(** A greedy repetition of a class over a run of characters of the
    class, followed by a character outside it: when the rest of the
    pattern accepts what follows the whole run, that is the match. *)
Lemma star_loop_class neg items (sep : string) t k v :
  forall fuel c,
    Str.forallb (cls_matches fl neg items) sep = true ->
    match t with
    | String a _ => cls_matches fl neg items a = false
    | EmptyString => True
    end ->
    (String.length sep <= fuel)%nat ->
    k t c = Some v ->
    star_loop (run fl (Cls neg items)) k fuel (sep ++ t) c = Some v.
Proof.
  induction sep as [|a sep IH]; intros fuel c Hsep Ht Hfuel Hk.
  - cbn [append]. destruct fuel as [|fuel]; cbn [star_loop]; [exact Hk|].
    destruct t as [|b t]; cbn [run]; [now rewrite Hk|].
    now rewrite Ht, Hk.
  - cbn [Str.forallb] in Hsep. apply andb_true_iff in Hsep as [Ha Hsep].
    destruct fuel as [|fuel]; [cbn [String.length] in Hfuel; lia|].
    cbn [append star_loop]. rewrite run_Cls_hit by exact Ha.
    replace (Nat.ltb (String.length (sep ++ t))
                     (String.length (String a (sep ++ t)))) with true
      by (symmetry; apply Nat.ltb_lt; cbn [String.length]; lia).
    rewrite (IH fuel c Hsep Ht); [reflexivity | | exact Hk].
    cbn [String.length] in Hfuel. lia.
Qed.

End Run.

Section Literal.
Variable A : Type.
Implicit Types (k : cont A) (c : captures).

(** A literal, letter case observed, matches where the text starts with
    it, and consumes it. *)
Lemma run_Lit (p : string) : forall s c k,
  run no_flags (Lit p) s c k =
  if Str.startswith p s then k (Str.drop (String.length p) s) c else None.
Proof.
  induction p as [|x p IH]; intros s c k; [reflexivity|].
  assert (Hchr : forall k',
             run no_flags (Chr x) s c k' =
             match s with
             | String a s' => if Ascii.eqb x a then k' s' c else None
             | EmptyString => None
             end) by reflexivity.
  destruct p as [|y p].
  - cbn [Lit]. rewrite Hchr. destruct s as [|a s]; [reflexivity|].
    cbn [Str.startswith Str.drop String.length].
    destruct (Ascii.eqb x a); reflexivity.
  - change (Lit (String x (String y p)))
      with (Cat (Chr x) (Lit (String y p))).
    rewrite run_Cat, Hchr. destruct s as [|a s]; [reflexivity|].
    cbn [Str.startswith Str.drop String.length].
    destruct (Ascii.eqb x a); [|reflexivity].
    rewrite IH. reflexivity.
Qed.

End Literal.

(** Searching a literal is looking for a substring. *)
Lemma found_Lit (p s : string) :
  found no_flags (Lit p) s = Str.contains p s.
Proof.
  unfold found, search. generalize 0%nat as pos.
  induction s as [|a s IH]; intros pos.
  - cbn [search_from Str.contains]. unfold match_here. rewrite run_Lit.
    destruct (Str.startswith p ""); reflexivity.
  - cbn [search_from Str.contains]. unfold match_here. rewrite run_Lit.
    destruct (Str.startswith p (String a s)); [reflexivity|].
    apply IH.
Qed.

Lemma length_append (s t : string) :
  String.length (s ++ t) = (String.length s + String.length t)%nat.
Proof.
  induction s as [|a s IH]; cbn [append String.length]; [reflexivity|].
  now rewrite IH.
Qed.

(** A search that fails at every position of a prefix goes on after it. *)
Lemma search_from_skip (fl : flags) (r : regex) (pre : string) :
  forall pos tail,
    (forall i, (i < String.length pre)%nat ->
       match_here fl r (pos + i) (Str.drop i (pre ++ tail)) = None) ->
    search_from fl r pos (pre ++ tail)
    = search_from fl r (pos + String.length pre) tail.
Proof.
  induction pre as [|a pre IH]; intros pos tail H.
  - cbn [append String.length]. now rewrite Nat.add_0_r.
  - cbn [append]. unfold search_from at 1. fold search_from.
    pose proof (H 0%nat ltac:(cbn [String.length]; lia)) as H0.
    rewrite Nat.add_0_r in H0. cbn [Str.drop append] in H0. rewrite H0.
    rewrite IH.
    + cbn [String.length]. f_equal. lia.
    + intros i Hi.
      pose proof (H (S i) ltac:(cbn [String.length]; lia)) as HS.
      cbn [Str.drop append] in HS.
      now replace (S pos + i)%nat with (pos + S i)%nat by lia.
Qed.

Lemma no_match_before_reflect (fl : flags) (r : regex) (n : nat) (s : string) :
  Vocabulary.no_match_beforeb fl r n s = true ->
  Vocabulary.no_match_before fl r n s.
Proof.
  unfold Vocabulary.no_match_beforeb, Vocabulary.no_match_before.
  intros H i Hi. rewrite forallb_forall in H.
  specialize (H i ltac:(apply in_seq; lia)).
  destruct (match_here fl r i (Str.drop i s)); [discriminate | reflexivity].
Qed.

End ReFacts.

(* ------------------------------------------------------------------ *)
(** ** A label followed by an ungrouped number *)

Module LabelFacts.
Import Re ReFacts Scraper Vocabulary.

Section Number.
Variable A : Type.
Implicit Types (k : cont A) (c : captures).

(** The grouped number at a run of four digits or more takes the first
    three and stops. *)
Lemma number_grouped_takes_three (d1 d2 d3 d4 : ascii) (rest : string) k c v :
  Str.is_digit d1 = true -> Str.is_digit d2 = true ->
  Str.is_digit d3 = true -> Str.is_digit d4 = true ->
  k (String d4 rest) ((1%nat, three d1 d2 d3) :: c) = Some v ->
  run ignorecase number_grouped
    (String d1 (String d2 (String d3 (String d4 rest)))) c k = Some v.
Proof.
  intros H1 H2 H3 H4 Hk.
  unfold number_grouped, digit1to3, digit3, Opt, digit.
  rewrite run_Grp, run_Cat, run_Cat.
  rewrite run_Cls_hit by now apply digit_matches_digit.
  apply run_Alt_first. rewrite run_Cat.
  rewrite run_Cls_hit by now apply digit_matches_digit.
  apply run_Alt_first.
  rewrite run_Cls_hit by now apply digit_matches_digit.
  rewrite run_Star. cbn [String.length star_loop].
  rewrite run_Cat.
  rewrite run_Cls_miss by now apply digit_is_no_group_separator.
  unfold Str.consumed. cbn [String.length].
  replace (S (S (S (S (String.length rest)))) - S (String.length rest))%nat
    with 3%nat by lia.
  exact Hk.
Qed.

(** The separators between the label and the number, then the number. *)
Lemma separators_then_number (sep : string) (d1 d2 d3 d4 : ascii)
    (rest : string) k c v :
  Str.forallb is_separator sep = true ->
  Str.is_digit d1 = true -> Str.is_digit d2 = true ->
  Str.is_digit d3 = true -> Str.is_digit d4 = true ->
  k (String d4 rest) ((1%nat, three d1 d2 d3) :: c) = Some v ->
  run ignorecase (Cat (Star colon_or_space) number_grouped)
    (sep ++ String d1 (String d2 (String d3 (String d4 rest)))) c k = Some v.
Proof.
  intros Hsep H1 H2 H3 H4 Hk.
  rewrite run_Cat, run_Star. unfold colon_or_space.
  apply star_loop_class.
  - clear -Hsep. induction sep as [|a sep IH]; [reflexivity|].
    cbn [Str.forallb] in *. apply andb_true_iff in Hsep as [Ha Hsep].
    now rewrite separator_matches, IH.
  - now apply digit_is_no_separator.
  - rewrite length_append. lia.
  - now apply number_grouped_takes_three.
Qed.

(** What stands after the label is no letter [s]. *)
Lemma no_s_after_label (sep : string) (d1 : ascii) (rest : string) k c :
  Str.forallb is_separator sep = true -> Str.is_digit d1 = true ->
  run ignorecase (Chr "s") (sep ++ String d1 rest) c k = None.
Proof.
  intros Hsep H1. destruct sep as [|a sep]; cbn [append].
  - now apply run_Chr_miss, digit_is_no_s.
  - cbn [Str.forallb] in Hsep. apply andb_true_iff in Hsep as [Ha _].
    now apply run_Chr_miss, separator_is_no_s.
Qed.

Ltac label_chars H :=
  repeat match type of H with
         | Str.lower ?l = String _ _ =>
             destruct l as [|? ?]; [discriminate H|];
             cbn [Str.lower] in H;
             let Hc := fresh "Hc" in injection H as Hc H
         | Str.lower ?l = EmptyString =>
             destruct l; [clear H | discriminate H]
         end.

Ltac match_letters :=
  repeat first
    [ rewrite run_Cat
    | rewrite run_Cls_hit by (apply either_matches_lower; assumption)
    | rewrite run_Chr_hit by (apply chr_matches_lower; assumption) ].

(** The first pattern of the kills at a label followed by four digits. *)
Lemma kills_pattern_takes_three (label sep : string) (d1 d2 d3 d4 : ascii)
    (rest : string) k c v :
  Str.lower label = "kill" \/ Str.lower label = "kills" ->
  Str.forallb is_separator sep = true ->
  Str.is_digit d1 = true -> Str.is_digit d2 = true ->
  Str.is_digit d3 = true -> Str.is_digit d4 = true ->
  k (String d4 rest) ((1%nat, three d1 d2 d3) :: c) = Some v ->
  run ignorecase kills_pattern
    (label ++ sep ++ String d1 (String d2 (String d3 (String d4 rest)))) c k
  = Some v.
Proof.
  intros Hlabel Hsep H1 H2 H3 H4 Hk.
  change kills_pattern with
    (Cat (either "K" "k")
       (Cat (Cat (Chr "i") (Cat (Chr "l") (Chr "l")))
          (Cat (Opt (Chr "s")) (Cat (Star colon_or_space) number_grouped)))).
  unfold either, Opt.
  destruct Hlabel as [H|H]; label_chars H; cbn [append]; match_letters.
  - rewrite run_Alt_second by now apply no_s_after_label.
    cbn [run]. now apply separators_then_number.
  - apply run_Alt_first. match_letters.
    now apply separators_then_number.
Qed.

(** The first pattern of the deaths at a label followed by four digits. *)
Lemma deaths_pattern_takes_three (label sep : string) (d1 d2 d3 d4 : ascii)
    (rest : string) k c v :
  Str.lower label = "death" \/ Str.lower label = "deaths" ->
  Str.forallb is_separator sep = true ->
  Str.is_digit d1 = true -> Str.is_digit d2 = true ->
  Str.is_digit d3 = true -> Str.is_digit d4 = true ->
  k (String d4 rest) ((1%nat, three d1 d2 d3) :: c) = Some v ->
  run ignorecase deaths_pattern
    (label ++ sep ++ String d1 (String d2 (String d3 (String d4 rest)))) c k
  = Some v.
Proof.
  intros Hlabel Hsep H1 H2 H3 H4 Hk.
  change deaths_pattern with
    (Cat (either "D" "d")
       (Cat (Cat (Chr "e") (Cat (Chr "a") (Cat (Chr "t") (Chr "h"))))
          (Cat (Opt (Chr "s")) (Cat (Star colon_or_space) number_grouped)))).
  unfold either, Opt.
  destruct Hlabel as [H|H]; label_chars H; cbn [append]; match_letters.
  - rewrite run_Alt_second by now apply no_s_after_label.
    cbn [run]. now apply separators_then_number.
  - apply run_Alt_first. match_letters.
    now apply separators_then_number.
Qed.

End Number.

Lemma search_from_hit (fl : flags) (r : regex) (pos : nat) (s : string)
    (m : match_obj) :
  match_here fl r pos s = Some m -> search_from fl r pos s = Some m.
Proof.
  intros H. destruct s; cbn [search_from]; now rewrite H.
Qed.

(** A search whose first match is at a label followed by four digits:
    group 1 is the first three digits. *)
Lemma search_takes_three (r : regex) (pre tail rest : string)
    (d1 d2 d3 : ascii) :
  no_match_before ignorecase r (String.length pre) (pre ++ tail) ->
  (forall (k : cont match_obj) c v,
      k rest ((1%nat, three d1 d2 d3) :: c) = Some v ->
      run ignorecase r tail c k = Some v) ->
  exists m,
    search ignorecase r (pre ++ tail) = Some m /\
    mgroup 1 m = Some (three d1 d2 d3).
Proof.
  intros Hno Hrun. unfold search.
  rewrite search_from_skip by exact Hno.
  eexists. split.
  - apply search_from_hit. unfold match_here. apply Hrun. reflexivity.
  - reflexivity.
Qed.

Lemma strip_separators_digits (s : string) :
  Str.forallb Str.is_digit s = true -> strip_separators s = s.
Proof.
  unfold strip_separators. induction s as [|a s IH]; [reflexivity|].
  cbn [Str.forallb]. intros H. apply andb_true_iff in H as [Ha Hs].
  destruct (digit_is_no_comma_nor_space a Ha) as [Hc Hsp].
  cbn [Str.replace]. rewrite Hc. cbn [Str.replace]. rewrite Hsp.
  now rewrite (IH Hs).
Qed.

(** The count read after a label followed by four digits. *)
Lemma parse_count_takes_three (r : regex) (others : list regex)
    (html : string) (d1 d2 d3 : ascii) (m : match_obj) :
  Str.is_digit d1 = true -> Str.is_digit d2 = true ->
  Str.is_digit d3 = true ->
  search ignorecase r html = Some m ->
  mgroup 1 m = Some (three d1 d2 d3) ->
  parse_count (r :: others) html
  = Some (100 * Str.digit_value d1 + 10 * Str.digit_value d2
          + Str.digit_value d3).
Proof.
  intros H1 H2 H3 Hs Hg. unfold parse_count. cbn [first_search].
  rewrite Hs, Hg.
  assert (Hd : Str.forallb Str.is_digit (three d1 d2 d3) = true)
    by (unfold three; cbn [Str.forallb]; now rewrite H1, H2, H3).
  rewrite strip_separators_digits by exact Hd.
  unfold Str.int, Str.isdigit. rewrite Hd. unfold three.
  cbn [Str.is_empty negb andb Str.digits_value]. f_equal. lia.
Qed.

End LabelFacts.


Module RankFacts.
Import Scraper Vocabulary.

Ltac split_thresholds e :=
  repeat match goal with
         | |- context [?c <=? e] => destruct (Z.leb_spec c e)
         end.

(** The tier of the rank that the chain of thresholds gives. *)
Lemma emoji_index_rank_of_experience (e : Z) :
  Utils.emoji_index (rank_of_experience e) = tier_of_experience e.
Proof.
  unfold rank_of_experience, tier_of_experience.
  destruct (1800000 <=? e); [reflexivity|].
  repeat match goal with
         | |- context [?c <=? e] =>
             destruct (c <=? e); [vm_compute; reflexivity|]
         end.
  vm_compute; reflexivity.
Qed.

(** The level of the rank that the chain of thresholds gives. *)
Lemma legend_level_rank_of_experience (e : Z) :
  legend_level (rank_of_experience e) =
  if 1800000 <=? e then Z.max 1 ((e - 1600000) / 200000) else 0.
Proof.
  unfold rank_of_experience.
  destruct (1800000 <=? e).
  - unfold legend_level.
    change (Str.startswith "Legend " ("Legend " ++ ?x)) with true.
    change (Str.drop 7 ("Legend " ++ ?x)) with x.
    cbv beta iota.
    now rewrite StrFacts.int_of_Z by lia.
  - repeat match goal with
           | |- context [?c <=? e] =>
               destruct (c <=? e); [vm_compute; reflexivity|]
           end.
    vm_compute; reflexivity.
Qed.

Lemma tier_of_experience_monotone (e1 e2 : Z) :
  e1 <= e2 -> tier_of_experience e1 <= tier_of_experience e2.
Proof.
  intros Hle. unfold tier_of_experience.
  split_thresholds e1; split_thresholds e2; lia.
Qed.

Lemma tier_31 (e : Z) : tier_of_experience e = 31 -> 1800000 <= e.
Proof.
  unfold tier_of_experience. split_thresholds e; lia.
Qed.

Lemma tier_below_31 (e : Z) :
  tier_of_experience e <> 31 -> (1800000 <=? e) = false.
Proof.
  unfold tier_of_experience. destruct (1800000 <=? e); [congruence|reflexivity].
Qed.

(** The rank the thresholds give never becomes less senior as the
    experience grows. *)
Lemma rank_of_experience_monotone (e1 e2 : Z) :
  e1 <= e2 ->
  not_senior (rank_of_experience e1) (rank_of_experience e2).
Proof.
  intros Hle. unfold not_senior, seniority. cbn [fst snd].
  rewrite !emoji_index_rank_of_experience, !legend_level_rank_of_experience.
  pose proof (tier_of_experience_monotone e1 e2 Hle) as Ht.
  destruct (Z.eq_dec (tier_of_experience e1) (tier_of_experience e2))
    as [Heq|Hne]; [right; split; [exact Heq|] | left; lia].
  destruct (Z.leb_spec 1800000 e1) as [H1|H1].
  - replace (1800000 <=? e2) with true by (symmetry; apply Z.leb_le; lia).
    apply Z.max_le_compat_l, Z.div_le_mono; lia.
  - destruct (Z.leb_spec 1800000 e2) as [H2|H2]; [|lia].
    exfalso.
    assert (H31 : tier_of_experience e2 = 31)
      by (unfold tier_of_experience;
          replace (1800000 <=? e2) with true
            by (symmetry; apply Z.leb_le; lia); reflexivity).
    rewrite H31 in Heq. apply tier_31 in Heq. lia.
Qed.

End RankFacts.

Module ScraperFacts.
Import Scraper Vocabulary.

Section Parse.
Variable BeautifulSoup : string -> option Bs4.soup.
Variable quote : string -> string.
Variable TURRET_NAMES : list string.
Variable HULL_NAMES : list string.

Local Abbreviation parse_player_data :=
  (_parse_player_data BeautifulSoup quote TURRET_NAMES HULL_NAMES).

(** What a returned record says about the run that produced it. *)
Lemma parse_player_data_inv (html user : string) (r : player_data) :
  parse_player_data html user = Some r ->
  exists soup e0 found,
    BeautifulSoup html = Some soup /\
    any (error_indicators quote html soup user) = false /\
    any (default_data_indicators html) = false /\
    has_meaningful_data meaningful_data_patterns html = Some true /\
    parse_exp_pair exp_patterns html 0 None
      = Some (e0, max_experience r, found) /\
    (if found then Some e0 else parse_single_exp html e0)
      = Some (experience r) /\
    parse_rank html (experience r) = Some (rank r) /\
    parse_count kill_patterns html = Some (kills r) /\
    parse_count death_patterns html = Some (deaths r) /\
    compute_kd_ratio (kills r) (deaths r) = Some (kd_ratio r) /\
    turrets r = dedup (equipment_found TURRET_NAMES html) /\
    hulls r = dedup (equipment_found HULL_NAMES html).
Proof.
  unfold _parse_player_data.
  destruct (BeautifulSoup html) as [soup|]; [|discriminate].
  destruct (any (error_indicators quote html soup user)) eqn:Herr;
    [discriminate|].
  destruct (any (default_data_indicators html)) eqn:Hdef; [discriminate|].
  destruct (has_meaningful_data meaningful_data_patterns html)
    as [[|]|] eqn:Hmean; try discriminate.
  destruct (parse_exp_pair exp_patterns html 0 None)
    as [[[e0 mx] found]|] eqn:Hpair; [|discriminate].
  destruct (if found then Some e0 else parse_single_exp html e0)
    as [e|] eqn:Hexp; [|discriminate].
  destruct (parse_rank html e) as [rk|] eqn:Hrank; [|discriminate].
  destruct (parse_count kill_patterns html) as [k|] eqn:Hk; [|discriminate].
  destruct (parse_count death_patterns html) as [d|] eqn:Hd; [|discriminate].
  destruct (compute_kd_ratio k d) as [kd|] eqn:Hkd; [|discriminate].
  destruct (parse_gold html) as [g|]; [|discriminate].
  destruct (parse_group group_patterns html "Unknown") as [gr|];
    [|discriminate].
  intros H; injection H as <-; cbn.
  exists soup, e0, found. repeat split; assumption.
Qed.

Lemma first_search_none (fl : Re.flags) (patterns : list Re.regex)
    (s : string) :
  (forall p, In p patterns -> Re.found fl p s = false) ->
  first_search fl patterns s = None.
Proof.
  induction patterns as [|p ps IH]; cbn; intros H; [reflexivity|].
  assert (Hp : Re.found fl p s = false) by (apply H; now left).
  unfold Re.found in Hp.
  destruct (Re.search fl p s); [discriminate|].
  apply IH; intros q Hq; apply H; now right.
Qed.

Lemma no_rank_token_parse (html : string) :
  no_rank_token html -> parse_rank_token html = Some None.
Proof.
  intros H. unfold parse_rank_token.
  now rewrite (first_search_none _ _ _ H).
Qed.

(** Without a rank token the rank of the record is a function of its
    experience alone. *)
Lemma rank_without_token (html user : string) (r : player_data) :
  parse_player_data html user = Some r ->
  no_rank_token html ->
  rank r = if 0 <? experience r then rank_of_experience (experience r)
           else "Unknown".
Proof.
  intros Hp Hno.
  destruct (parse_player_data_inv _ _ _ Hp)
    as (soup & e0 & found & _ & _ & _ & _ & _ & _ & Hrank & _).
  unfold parse_rank in Hrank.
  rewrite (no_rank_token_parse _ Hno) in Hrank.
  now injection Hrank as <-.
Qed.

Lemma parse_count_nonneg (patterns : list Re.regex) (html : string) (n : Z) :
  parse_count patterns html = Some n -> 0 <= n.
Proof.
  unfold parse_count.
  destruct (first_search Re.ignorecase patterns html) as [[p m]|].
  - destruct (Re.mgroup 1 m); [apply StrFacts.int_nonneg | discriminate].
  - intros [= <-]. lia.
Qed.

Lemma parse_exp_pair_nonneg (patterns : list Re.regex) (html : string) :
  forall e mx e' mx' found,
    0 <= e -> (forall m, mx = Some m -> 0 <= m) ->
    parse_exp_pair patterns html e mx = Some (e', mx', found) ->
    0 <= e' /\ (forall m, mx' = Some m -> 0 <= m).
Proof.
  induction patterns as [|p ps IH]; intros e mx e' mx' found He Hmx; cbn.
  - intros [= <- <- _]. now split.
  - destruct (Re.search Re.no_flags p html) as [m|]; [|now apply IH].
    destruct (Re.mgroup 1 m) as [g1|]; [|discriminate].
    destruct (Re.mgroup 2 m) as [g2|]; [|discriminate].
    destruct (Str.int (strip_separators g1)) as [v1|] eqn:H1;
      [|now apply IH].
    apply StrFacts.int_nonneg in H1.
    destruct (Str.int (strip_separators g2)) as [v2|] eqn:H2.
    + apply StrFacts.int_nonneg in H2.
      intros [= <- <- _]. split; [assumption|].
      now intros m0 [= <-].
    + now apply IH.
Qed.

(** What one result of [re.findall] adds, when it is not the empty text:
    the name with an annotation.  The plain name is added for the empty
    text only, which the form of the bare name never gives for a name
    that is not empty. *)
Lemma equipment_entry_annotated (name match_ : string) :
  match_ <> "" -> equipment_entry name match_ = name ++ " M" ++ match_.
Proof.
  intros Hne. unfold equipment_entry.
  destruct (Str.isdigit match_); [reflexivity|].
  destruct match_; [contradiction | reflexivity].
Qed.

(** C1.  A document that shows one of the placeholder signatures (it
    contains the default experience fraction [14/400]; or the pattern of
    zero kills, zero deaths and a [0.00] ratio is found in it; or the
    label [Group: Unknown]; or the rank [Recruit] followed by the default
    fraction) is classified as not found: no record is returned, whatever
    else the document holds. *)
Theorem placeholder_signature_is_not_found (html user : string) :
  Str.contains "14/400" html = true \/
  Re.found Re.dotall default_combat_stats html = true \/
  Re.found Re.no_flags default_group html = true \/
  Re.found Re.dotall default_rank html = true ->
  parse_player_data html user = None.
Proof.
  intros H. unfold _parse_player_data.
  destruct (BeautifulSoup html) as [soup|]; [|reflexivity].
  destruct (any (error_indicators quote html soup user)); [reflexivity|].
  replace (any (default_data_indicators html)) with true; [reflexivity|].
  symmetry. unfold any, default_data_indicators. cbn [existsb].
  unfold default_experience. rewrite ReFacts.found_Lit.
  destruct H as [-> | [-> | [-> | ->]]];
    rewrite ?orb_true_r; reflexivity.
Qed.

(** C3.  In every record the ratio is derived from the kills and the
    deaths of the same record: the decimal string of the kills when
    there are kills and no deaths, ["0.00"] when there are neither,
    and otherwise the quotient kills/deaths rendered by [.2f]: a string
    with exactly two decimal places, which writes the hundredths nearest
    to the quotient.  It is what [calculate_kd_ratio] gives for the two
    counts. *)
Theorem kd_ratio_is_derived (html user : string) (r : player_data) :
  parse_player_data html user = Some r ->
  (deaths r = 0 -> 0 < kills r -> kd_ratio r = Str.of_Z (kills r)) /\
  (kills r = 0 -> deaths r = 0 -> kd_ratio r = "0.00") /\
  (deaths r <> 0 ->
     exists x, Py.true_div (kills r) (deaths r) = Some x /\
               kd_ratio r = Py.format_2f x /\
               two_decimals (kd_ratio r) /\
               renders_hundredths (kd_ratio r) (Py.hundredths x) /\
               nearest_hundredths (Py.hundredths x) (kills r) (deaths r)) /\
  Utils.calculate_kd_ratio (kills r) (deaths r) = Some (kd_ratio r).
Proof.
  intros Hp.
  destruct (parse_player_data_inv _ _ _ Hp)
    as (soup & e0 & found & _ & _ & _ & _ & _ & _ & _ & Hk & Hd & Hkd & _).
  apply parse_count_nonneg in Hk, Hd.
  unfold Utils.calculate_kd_ratio.
  unfold compute_kd_ratio in Hkd.
  destruct (deaths r =? 0) eqn:Hz.
  - apply Z.eqb_eq in Hz. injection Hkd as Hkd.
    repeat split.
    + intros _ Hpos. apply Z.ltb_lt in Hpos. now rewrite Hpos in Hkd.
    + intros H0 _. rewrite H0 in Hkd. now cbn in Hkd.
    + intros Hne. contradiction.
    + now rewrite Hkd.
  - apply Z.eqb_neq in Hz.
    destruct (Py.true_div (kills r) (deaths r)) as [x|] eqn:Hdiv;
      [|discriminate].
    injection Hkd as Hkd.
    repeat split; try (intros; lia).
    + intros _. exists x.
      destruct (@PyFacts.true_div_nonneg (kills r) (deaths r) x
                  ltac:(lia) ltac:(lia) Hdiv) as [Hs Hm].
      split; [reflexivity|]. split; [now symmetry|]. rewrite <- Hkd.
      split; [now apply PyFacts.format_2f_two_decimals|].
      split; [now apply PyFacts.format_2f_renders|].
      apply PyFacts.hundredths_accuracy; [lia | lia | exact Hdiv].
    + now rewrite Hkd.
Qed.

(** C4.  When no rank token is found and the experience of the record
    lies in [41000, 57000), the rank of the record is
    ["First Sergeant"], as the threshold table says. *)
Theorem rank_between_41000_and_57000 (html user : string) (r : player_data) :
  parse_player_data html user = Some r ->
  no_rank_token html ->
  41000 <= experience r < 57000 ->
  rank r = "First Sergeant".
Proof.
  intros Hp Hno [Hlo Hhi].
  rewrite (rank_without_token _ _ _ Hp Hno).
  replace (0 <? experience r) with true by (symmetry; apply Z.ltb_lt; lia).
  unfold rank_of_experience.
  repeat match goal with
         | |- context [?c <=? experience r] =>
             first
               [ replace (c <=? experience r) with false
                   by (symmetry; apply Z.leb_gt; lia)
               | replace (c <=? experience r) with true
                   by (symmetry; apply Z.leb_le; lia) ]
         end.
  reflexivity.
Qed.

(** C5.  For two documents without a rank token whose records hold the
    positive experiences e1 < e2, the rank of the first record is not
    senior to the rank of the second: its tier in the progression is not
    higher, and within the Legend tier its level is not higher. *)
Theorem derived_rank_is_monotonic (html1 user1 html2 user2 : string)
    (r1 r2 : player_data) :
  parse_player_data html1 user1 = Some r1 ->
  parse_player_data html2 user2 = Some r2 ->
  no_rank_token html1 -> no_rank_token html2 ->
  0 < experience r1 < experience r2 ->
  not_senior (rank r1) (rank r2).
Proof.
  intros Hp1 Hp2 Hno1 Hno2 [Hpos Hlt].
  rewrite (rank_without_token _ _ _ Hp1 Hno1).
  rewrite (rank_without_token _ _ _ Hp2 Hno2).
  replace (0 <? experience r1) with true by (symmetry; apply Z.ltb_lt; lia).
  replace (0 <? experience r2) with true by (symmetry; apply Z.ltb_lt; lia).
  apply RankFacts.rank_of_experience_monotone. lia.
Qed.

(** C10.  In a positively classified document whose first match of the
    kills pattern (the deaths pattern) is at a label [kill] or [kills]
    ([death] or [deaths]), in any letter case, followed by colons or
    white space and then by a run of four digits or more, the kills (the
    deaths) of the record are the number formed by the first three digits
    of the run. *)
Theorem ungrouped_count_is_truncated (html user : string) (r : player_data)
    (pre label sep : string) (d1 d2 d3 d4 : ascii) (rest : string) :
  parse_player_data html user = Some r ->
  html = pre ++ label ++ sep
         ++ String d1 (String d2 (String d3 (String d4 rest))) ->
  Str.forallb is_separator sep = true ->
  Str.is_digit d1 = true -> Str.is_digit d2 = true ->
  Str.is_digit d3 = true -> Str.is_digit d4 = true ->
  (Str.lower label = "kill" \/ Str.lower label = "kills" ->
   no_match_before Re.ignorecase kills_pattern (String.length pre) html ->
   kills r = 100 * Str.digit_value d1 + 10 * Str.digit_value d2
             + Str.digit_value d3) /\
  (Str.lower label = "death" \/ Str.lower label = "deaths" ->
   no_match_before Re.ignorecase deaths_pattern (String.length pre) html ->
   deaths r = 100 * Str.digit_value d1 + 10 * Str.digit_value d2
              + Str.digit_value d3).
Proof.
  intros Hp Hhtml Hsep H1 H2 H3 H4.
  destruct (parse_player_data_inv _ _ _ Hp)
    as (soup & e0 & found & _ & _ & _ & _ & _ & _ & _ & Hk & Hd & _).
  split; intros Hlabel Hno; rewrite Hhtml in Hno.
  - destruct (LabelFacts.search_takes_three kills_pattern pre _
                (String d4 rest) d1 d2 d3 Hno) as (m & Hs & Hg).
    { intros k c v Hkv.
      now apply LabelFacts.kills_pattern_takes_three. }
    rewrite <- Hhtml in Hs.
    change kill_patterns with (kills_pattern :: tl kill_patterns) in Hk.
    rewrite (LabelFacts.parse_count_takes_three _ _ _ _ _ _ _ H1 H2 H3 Hs Hg)
      in Hk.
    now injection Hk.
  - destruct (LabelFacts.search_takes_three deaths_pattern pre _
                (String d4 rest) d1 d2 d3 Hno) as (m & Hs & Hg).
    { intros k c v Hkv.
      now apply LabelFacts.deaths_pattern_takes_three. }
    rewrite <- Hhtml in Hs.
    change death_patterns with (deaths_pattern :: tl death_patterns) in Hd.
    rewrite (LabelFacts.parse_count_takes_three _ _ _ _ _ _ _ H1 H2 H3 Hs Hg)
      in Hd.
    now injection Hd.
Qed.

(** C6, as the code has it.  When no rank token is found and the
    experience of the record is zero, the rank of the record is the
    initial value ["Unknown"]. *)
Theorem rank_without_token_or_experience (html user : string)
    (r : player_data) :
  parse_player_data html user = Some r ->
  no_rank_token html ->
  experience r = 0 ->
  rank r = "Unknown".
Proof.
  intros Hp Hno H0.
  rewrite (rank_without_token _ _ _ Hp Hno), H0. reflexivity.
Qed.

(** C7, as the code has it.  In every record that holds a maximum
    experience, the experience and the maximum are natural numbers; no
    order between the two is imposed. *)
Theorem experience_pair_is_natural (html user : string) (r : player_data)
    (m : Z) :
  parse_player_data html user = Some r ->
  max_experience r = Some m ->
  0 <= experience r /\ 0 <= m.
Proof.
  intros Hp Hm.
  destruct (parse_player_data_inv _ _ _ Hp)
    as (soup & e0 & found & _ & _ & _ & _ & Hpair & Hexp & _).
  destruct (@parse_exp_pair_nonneg exp_patterns html 0 None _ _ _
              ltac:(lia) ltac:(discriminate) Hpair) as [He0 Hmx].
  split; [|now apply Hmx].
  destruct found.
  - now injection Hexp as <-.
  - unfold parse_single_exp in Hexp.
    destruct (first_search Re.ignorecase single_exp_patterns html)
      as [[p mo]|].
    + destruct (Re.mgroup 1 mo); [|discriminate].
      now apply StrFacts.int_nonneg in Hexp.
    + now injection Hexp as <-.
Qed.

End Parse.
End ScraperFacts.

Module ScraperExamples.
Import Scraper Vocabulary.

Lemma no_rank_token_reflect (html : string) :
  no_rank_tokenb html = true -> no_rank_token html.
Proof.
  unfold no_rank_tokenb, no_rank_token. intros H pattern Hin.
  rewrite forallb_forall in H.
  specialize (H pattern Hin). now apply negb_true_iff in H.
Qed.

Ltac evaluate := vm_compute; reflexivity.

Lemma placeholder_signature_is_not_found_witness :
  Str.contains "14/400" "Captain 14/400 Kills: 250 Deaths: 3" = true /\
  Example.parse "Captain 14/400 Kills: 250 Deaths: 3" "player" = None.
Proof.
  split; [evaluate|].
  apply ScraperFacts.placeholder_signature_is_not_found.
  left. evaluate.
Defined.

Lemma kd_ratio_is_derived_witness :
  exists r,
    Example.parse "Captain Kills: 200 Deaths: 50" "player" = Some r /\
    kd_ratio r = "4.00" /\
    Utils.calculate_kd_ratio (kills r) (deaths r) = Some (kd_ratio r).
Proof.
  eexists. split; [evaluate|]. split; [reflexivity|].
  refine (proj2 (proj2 (proj2
            (ScraperFacts.kd_ratio_is_derived
               Example.text_document Example.quote_letters
               Example.turret_names Example.hull_names
               "Captain Kills: 200 Deaths: 50" "player" _ _)))).
  evaluate.
Defined.

Lemma rank_between_41000_and_57000_witness :
  exists r,
    Example.parse "Experience: 50,000 Kills: 5" "player" = Some r /\
    experience r = 50000 /\
    rank r = "First Sergeant".
Proof.
  eexists. split; [evaluate|]. split; [reflexivity|].
  refine (ScraperFacts.rank_between_41000_and_57000
            Example.text_document Example.quote_letters
            Example.turret_names Example.hull_names
            "Experience: 50,000 Kills: 5" "player" _ _ _ _).
  - evaluate.
  - apply no_rank_token_reflect. evaluate.
  - cbn [experience]. lia.
Defined.

Lemma derived_rank_is_monotonic_witness :
  exists r1 r2,
    Example.parse "Experience: 1,999,999 Kills: 5" "player" = Some r1 /\
    Example.parse "Experience: 2,000,000 Kills: 5" "player" = Some r2 /\
    rank r1 = "Legend 1" /\ rank r2 = "Legend 2" /\
    not_senior (rank r1) (rank r2).
Proof.
  eexists. eexists. do 2 (split; [evaluate|]). do 2 (split; [reflexivity|]).
  refine (ScraperFacts.derived_rank_is_monotonic
            Example.text_document Example.quote_letters
            Example.turret_names Example.hull_names
            "Experience: 1,999,999 Kills: 5" "player"
            "Experience: 2,000,000 Kills: 5" "player" _ _ _ _ _ _ _).
  - evaluate.
  - evaluate.
  - apply no_rank_token_reflect. evaluate.
  - apply no_rank_token_reflect. evaluate.
  - cbn [experience]. lia.
Defined.

Lemma ungrouped_count_is_truncated_witness :
  exists r,
    Example.parse "Kills: 1234 Deaths: 56789" "player" = Some r /\
    kills r = 123 /\ deaths r = 567.
Proof.
  eexists. split; [evaluate|]. split.
  - refine (proj1 (ScraperFacts.ungrouped_count_is_truncated
                     Example.text_document Example.quote_letters
                     Example.turret_names Example.hull_names
                     "Kills: 1234 Deaths: 56789" "player" _
                     "" "Kills" ": " "1" "2" "3" "4" " Deaths: 56789"
                     _ _ _ _ _ _ _) _ _);
      [evaluate | evaluate | evaluate | evaluate | evaluate | evaluate
      | evaluate | right; reflexivity
      | apply ReFacts.no_match_before_reflect; evaluate ].
  - refine (proj2 (ScraperFacts.ungrouped_count_is_truncated
                     Example.text_document Example.quote_letters
                     Example.turret_names Example.hull_names
                     "Kills: 1234 Deaths: 56789" "player" _
                     "Kills: 1234 " "Deaths" ": " "5" "6" "7" "8" "9"
                     _ _ _ _ _ _ _) _ _);
      [evaluate | evaluate | evaluate | evaluate | evaluate | evaluate
      | evaluate | right; reflexivity
      | apply ReFacts.no_match_before_reflect; evaluate ].
Defined.

(** C6, as the specification states it, fails: a document with kills and
    nothing else is positively classified, has no rank token and no
    experience, and its record holds the rank ["Unknown"], not
    ["Recruit"]. *)
Lemma rank_default_is_not_recruit :
  exists r,
    Example.parse "Kills: 5" "player" = Some r /\
    no_rank_token "Kills: 5" /\
    experience r = 0 /\
    rank r = "Unknown" /\
    rank r <> "Recruit".
Proof.
  eexists. split; [evaluate|].
  split; [apply no_rank_token_reflect; evaluate|].
  cbn [experience rank]. repeat split. discriminate.
Qed.

Lemma rank_without_token_or_experience_witness :
  exists r,
    Example.parse "Kills: 5" "player" = Some r /\ rank r = "Unknown".
Proof.
  eexists. split; [evaluate|].
  refine (ScraperFacts.rank_without_token_or_experience
            Example.text_document Example.quote_letters
            Example.turret_names Example.hull_names
            "Kills: 5" "player" _ _ _ _).
  - evaluate.
  - apply no_rank_token_reflect. evaluate.
  - reflexivity.
Defined.

(** C7, as the specification states it, fails: the pair [500/400] is
    read as it stands, and the experience of the record exceeds its
    maximum. *)
Lemma experience_may_exceed_maximum :
  exists r m,
    Example.parse "500/400" "player" = Some r /\
    max_experience r = Some m /\
    ~ experience r <= m.
Proof.
  eexists. eexists. split; [evaluate|].
  cbn [experience max_experience]. split; [reflexivity | lia].
Qed.

Lemma experience_pair_is_natural_witness :
  exists r,
    Example.parse "500/400" "player" = Some r /\
    max_experience r = Some 400 /\
    0 <= experience r /\ 0 <= 400.
Proof.
  eexists. split; [evaluate|]. split; [reflexivity|].
  refine (ScraperFacts.experience_pair_is_natural
            Example.text_document Example.quote_letters
            Example.turret_names Example.hull_names
            "500/400" "player" _ 400 _ _).
  - evaluate.
  - reflexivity.
Defined.

(** C2: the code at a document with no profile structure.  The text
    [Kills: 5 Deaths: 2] has no tag and neither label, so every
    structure indicator is empty; the indicators are computed and never
    consulted, and a record is returned. *)
Theorem structure_indicators_are_not_consulted :
  any (profile_structure_indicators
         [Bs4.NavigableString "Kills: 5 Deaths: 2"]) = false /\
  exists r,
    Example.parse "Kills: 5 Deaths: 2" "player" = Some r /\
    kills r = 5 /\ deaths r = 2 /\ kd_ratio r = "2.50".
Proof.
  split; [evaluate|].
  eexists. split; [evaluate|].
  cbn [kills deaths kd_ratio]. repeat split.
Qed.

(** C8: the code at a document that names a turret with no tier.  Of
    the three forms only the bare name is found in [Smoky, Kills: 5];
    [re.findall] then returns the matched text, which is neither a
    number nor empty, and the entry collected is the name followed by
    [M] and that text. *)
Theorem bare_name_entry_carries_annotation :
  Re.findall Re.ignorecase (nth 0 (equipment_patterns "Smoky") Re.Eps)
    "Smoky, Kills: 5" = [] /\
  Re.findall Re.ignorecase (nth 1 (equipment_patterns "Smoky") Re.Eps)
    "Smoky, Kills: 5" = [] /\
  Re.findall Re.ignorecase (nth 2 (equipment_patterns "Smoky") Re.Eps)
    "Smoky, Kills: 5" = ["Smoky"] /\
  exists r,
    Example.parse "Smoky, Kills: 5" "player" = Some r /\
    turrets r = ["Smoky MSmoky"].
Proof.
  repeat split; try evaluate.
  eexists. split; [evaluate|]. reflexivity.
Qed.

End ScraperExamples.

(* ------------------------------------------------------------------ *)
(** ** Properties of the formatter *)

Module UtilsFacts.
Import Utils Vocabulary.

Lemma dict_get_In (A : Type) (key : string) (d : list (string * A)) (v : A) :
  dict_get key d = Some v -> In (key, v) d.
Proof.
  induction d as [|[k w] d IH]; cbn; [discriminate|].
  destruct (String.eqb k key) eqn:E.
  - apply String.eqb_eq in E. intros [= <-]. left. now subst.
  - intros H. right. now apply IH.
Qed.

(** C9.  The mapping gives the 31 names of the progression the indices
    1 to 31 in their order, Recruit first and Legend last; it gives 31
    to every label [Legend N]; and it gives 31 to every name it does not
    recognise as a name of the progression. *)
Theorem rank_index_mapping :
  length progression = 31%nat /\
  (forall (i : nat) (name : string),
      nth_error progression i = Some name ->
      emoji_index name = Z.of_nat i + 1) /\
  (forall level : string, emoji_index ("Legend " ++ level) = 31) /\
  (forall name : string, ~ in_progression name -> emoji_index name = 31).
Proof.
  split; [reflexivity|].
  split.
  { intros i name.
    do 31 (destruct i as [|i]; [intros [= <-]; reflexivity|]).
    destruct i; discriminate. }
  split; [reflexivity|].
  intros name Hout. unfold emoji_index.
  destruct (Str.startswith "Legend" name); [reflexivity|].
  unfold get_default.
  destruct (dict_get (normalize name) rank_mapping) as [v|] eqn:E;
    [|reflexivity].
  apply dict_get_In in E. unfold in_progression in Hout.
  cbn [rank_mapping In] in E.
  repeat (destruct E as [E|E];
          [injection E as Hk Hv;
           first [ now symmetry
                 | exfalso; apply Hout; rewrite <- Hk;
                   vm_compute; tauto ] |]).
  contradiction.
Qed.

Lemma rank_index_mapping_witness :
  ~ in_progression "Unknown" /\ emoji_index "Unknown" = 31.
Proof.
  assert (H : ~ in_progression "Unknown").
  { unfold in_progression. vm_compute.
    intros H. repeat (destruct H as [H|H]; [discriminate|]). exact H. }
  split; [exact H|].
  exact (proj2 (proj2 (proj2 rank_index_mapping)) "Unknown" H).
Defined.

End UtilsFacts.

(* ------------------------------------------------------------------ *)
(** ** Invariants of the records *)

Module RecordFacts.
Import Scraper Vocabulary.

(** *** The list without duplicates *)

Lemma dedup_In (l : list string) (x : string) : In x (dedup l) <-> In x l.
Proof.
  induction l as [|y l IH]; cbn [dedup]; [tauto|].
  cbn [In]. rewrite filter_In, IH, negb_true_iff, String.eqb_neq.
  destruct (String.eqb_spec y x) as [->|Hne]; [tauto|].
  split; [tauto|]. intros [H|H]; [tauto|]. right. split; [exact H|congruence].
Qed.

Lemma dedup_NoDup (l : list string) : NoDup (dedup l).
Proof.
  induction l as [|y l IH]; cbn [dedup]; constructor.
  - rewrite filter_In, negb_true_iff, String.eqb_neq. tauto.
  - now apply NoDup_filter.
Qed.

(** *** Substrings *)

Lemma startswith_app (p q s : string) :
  Str.startswith (p ++ q) s = true -> Str.startswith p s = true.
Proof.
  revert s. induction p as [|a p IH]; intros s H; [now destruct s|].
  destruct s as [|b s]; [discriminate|].
  cbn [append Str.startswith] in *.
  apply andb_true_iff in H as [Hab H]. now rewrite Hab, (IH s H).
Qed.

Lemma contains_app (p q s : string) :
  Str.contains (p ++ q) s = true -> Str.contains p s = true.
Proof.
  induction s as [|b s IH]; cbn [Str.contains]; intros H.
  - rewrite orb_false_r in *. now apply startswith_app in H.
  - apply orb_true_iff in H as [H|H].
    + now rewrite (startswith_app _ _ _ H).
    + rewrite (IH H). apply orb_true_r.
Qed.

Lemma contains_tail (a : ascii) (p s : string) :
  Str.contains (String a p) s = true -> Str.contains p s = true.
Proof.
  induction s as [|b s IH]; cbn [Str.contains Str.startswith]; intros H.
  - discriminate.
  - apply orb_true_iff in H as [H|H].
    + apply andb_true_iff in H as [_ H].
      assert (Hc : Str.contains p s = true).
      { destruct s; cbn [Str.contains]; now rewrite H. }
      rewrite Hc. apply orb_true_r.
    + rewrite (IH H). apply orb_true_r.
Qed.

Section Parse.
Variable BeautifulSoup : string -> option Bs4.soup.
Variable quote : string -> string.
Variable TURRET_NAMES : list string.
Variable HULL_NAMES : list string.

Local Abbreviation parse_player_data :=
  (_parse_player_data BeautifulSoup quote TURRET_NAMES HULL_NAMES).

(** The fields of a returned record that the first inversion leaves out. *)
Lemma parse_player_data_fields (html user : string) (r : player_data) :
  parse_player_data html user = Some r ->
  exists soup,
    BeautifulSoup html = Some soup /\
    any (error_indicators quote html soup user) = false /\
    username r = user /\
    parse_gold html = Some (gold_boxes r) /\
    parse_group group_patterns html "Unknown" = Some (group r) /\
    premium r = any (premium_indicators html) /\
    is_online r = parse_is_online soup /\
    status_indicator r
    = (if is_online r then status_online else status_offline).
Proof.
  unfold _parse_player_data.
  destruct (BeautifulSoup html) as [soup|]; [|discriminate].
  destruct (any (error_indicators quote html soup user)) eqn:Herr;
    [discriminate|].
  destruct (any (default_data_indicators html)); [discriminate|].
  destruct (has_meaningful_data meaningful_data_patterns html)
    as [[|]|]; try discriminate.
  destruct (parse_exp_pair exp_patterns html 0 None)
    as [[[e0 mx] found]|]; [|discriminate].
  destruct (if found then Some e0 else parse_single_exp html e0)
    as [e|]; [|discriminate].
  destruct (parse_rank html e) as [rk|]; [|discriminate].
  destruct (parse_count kill_patterns html) as [k|]; [|discriminate].
  destruct (parse_count death_patterns html) as [d|]; [|discriminate].
  destruct (compute_kd_ratio k d) as [kd|]; [|discriminate].
  destruct (parse_gold html) as [g|] eqn:Hg; [|discriminate].
  destruct (parse_group group_patterns html "Unknown") as [gr|] eqn:Hgr;
    [|discriminate].
  intros H; injection H as <-; cbn.
  exists soup. repeat split; assumption.
Qed.

(** An explicit error marker in the document gives no record, whatever
    else the document holds: the texts [player not found] and
    [user not found] in any letter case, [not found] in a document of
    fewer than 5000 characters, and [404] together with [error]. *)
Theorem error_marker_is_not_found (html user : string) :
  Str.contains "player not found" (Str.lower html) = true \/
  Str.contains "user not found" (Str.lower html) = true \/
  (Str.contains "not found" (Str.lower html) = true /\ Str.len html < 5000) \/
  (Str.contains "404" html = true /\
   Str.contains "error" (Str.lower html) = true) ->
  parse_player_data html user = None.
Proof.
  intros H. unfold _parse_player_data.
  destruct (BeautifulSoup html) as [soup|]; [|reflexivity].
  replace (any (error_indicators quote html soup user)) with true;
    [reflexivity|].
  symmetry. unfold any, error_indicators. cbn [existsb].
  destruct H as [-> | [-> | [[-> Hlen] | [-> ->]]]];
    rewrite ?orb_true_r; try reflexivity.
  apply Z.ltb_lt in Hlen. rewrite Hlen. cbn [andb].
  rewrite ?orb_true_r. reflexivity.
Qed.

(** Every number of a record is a natural number. *)
Theorem record_numbers_are_natural (html user : string) (r : player_data) :
  parse_player_data html user = Some r ->
  0 <= experience r /\ 0 <= kills r /\ 0 <= deaths r /\ 0 <= gold_boxes r.
Proof.
  intros Hp.
  destruct (parse_player_data_fields _ _ _ Hp)
    as (soup' & _ & _ & _ & Hg & _).
  destruct (ScraperFacts.parse_player_data_inv _ _ _ _ _ _ _ Hp)
    as (soup & e0 & found & _ & _ & _ & _ & Hpair & Hexp & _ & Hk & Hd & _).
  destruct (ScraperFacts.parse_exp_pair_nonneg exp_patterns html 0 None
              _ _ _ ltac:(lia) ltac:(discriminate) Hpair) as [He0 _].
  repeat split.
  - destruct found.
    + now injection Hexp as <-.
    + unfold parse_single_exp in Hexp.
      destruct (first_search Re.ignorecase single_exp_patterns html)
        as [[p mo]|].
      * destruct (Re.mgroup 1 mo); [|discriminate].
        now apply StrFacts.int_nonneg in Hexp.
      * now injection Hexp as <-.
  - now apply ScraperFacts.parse_count_nonneg in Hk.
  - now apply ScraperFacts.parse_count_nonneg in Hd.
  - unfold parse_gold in Hg.
    destruct (first_search Re.ignorecase gold_patterns html) as [[p mo]|].
    + destruct (Re.mgroup 1 mo); [|discriminate].
      now apply StrFacts.int_nonneg in Hg.
    + injection Hg as <-. lia.
Qed.

Lemma parse_group_result (patterns : list Re.regex) (html g : string) :
  parse_group patterns html "Unknown" = Some g ->
  g = "Unknown" \/
  (Str.is_empty g = false /\
   existsb (String.eqb (Str.lower g)) ["unknown"; "none"; "null"; ""] = false).
Proof.
  induction patterns as [|p ps IH]; cbn [parse_group].
  - intros [= <-]. now left.
  - destruct (Re.search Re.ignorecase p html) as [m|]; [|exact IH].
    destruct (Re.mgroup 1 m) as [t|]; [|discriminate].
    destruct (negb (Str.is_empty (Str.strip t))) eqn:Hne; cbn [andb];
      [|exact IH].
    destruct (existsb (String.eqb (Str.lower (Str.strip t))) _) eqn:Hex;
      cbn [negb]; [exact IH|].
    intros [= <-]. right. split; [|exact Hex].
    now apply negb_true_iff in Hne.
Qed.

(** The group of a record is the initial ["Unknown"], or a text that is
    not empty and is none of the place holders [unknown], [none] and
    [null] in any letter case. *)
Theorem group_is_sentinel_or_real (html user : string) (r : player_data) :
  parse_player_data html user = Some r ->
  group r = "Unknown" \/
  (group r <> "" /\
   Str.lower (group r) <> "unknown" /\
   Str.lower (group r) <> "none" /\
   Str.lower (group r) <> "null").
Proof.
  intros Hp.
  destruct (parse_player_data_fields _ _ _ Hp)
    as (soup & _ & _ & _ & _ & Hgr & _).
  destruct (parse_group_result _ _ _ Hgr) as [H|[Hne Hex]]; [now left|].
  right. cbn [existsb] in Hex.
  repeat (apply orb_false_iff in Hex as [?%String.eqb_neq Hex]).
  repeat split; try assumption.
  intros E. rewrite E in Hne. discriminate.
Qed.

Lemma startswith_self_app (p s : string) : Str.startswith p (p ++ s) = true.
Proof.
  induction p as [|a p IH]; cbn [append Str.startswith]; [reflexivity|].
  now rewrite Ascii.eqb_refl, IH.
Qed.

Lemma equipment_entry_starts_with_name (name m : string) :
  Str.startswith name (equipment_entry name m) = true.
Proof.
  unfold equipment_entry.
  destruct (Str.isdigit m); [apply startswith_self_app|].
  destruct (Str.is_empty m); [|apply startswith_self_app].
  rewrite <- (StrFacts.append_empty_r name) at 2. apply startswith_self_app.
Qed.

Lemma equipment_of_entries (patterns : list Re.regex) (html name x : string) :
  In x (equipment_of patterns html name) ->
  Str.startswith name x = true.
Proof.
  induction patterns as [|p ps IH]; cbn [equipment_of]; [contradiction|].
  destruct (Re.findall Re.ignorecase p html) as [|m ms] eqn:E; [exact IH|].
  intros Hin. apply in_map_iff in Hin as (m' & <- & _).
  apply equipment_entry_starts_with_name.
Qed.

(** The equipment lists of a record hold no entry twice, hold exactly the
    entries collected from the document, and each entry starts with one of
    the configured names. *)
Theorem equipment_lists_are_sets (html user : string) (r : player_data) :
  parse_player_data html user = Some r ->
  NoDup (turrets r) /\ NoDup (hulls r) /\
  (forall x, In x (turrets r) <-> In x (equipment_found TURRET_NAMES html)) /\
  (forall x, In x (hulls r) <-> In x (equipment_found HULL_NAMES html)) /\
  (forall x, In x (turrets r) ->
     exists name, In name TURRET_NAMES /\ Str.startswith name x = true) /\
  (forall x, In x (hulls r) ->
     exists name, In name HULL_NAMES /\ Str.startswith name x = true).
Proof.
  intros Hp.
  destruct (ScraperFacts.parse_player_data_inv _ _ _ _ _ _ _ Hp)
    as (soup & e0 & found & _ & _ & _ & _ & _ & _ & _ & _ & _ & _ & Ht & Hh).
  rewrite Ht, Hh.
  assert (Hnames : forall names x,
             In x (dedup (equipment_found names html)) ->
             exists name, In name names /\ Str.startswith name x = true).
  { intros names x Hin. apply (proj1 (dedup_In _ _)) in Hin.
    unfold equipment_found in Hin. apply in_flat_map in Hin as (n & Hn & Hx).
    exists n. split; [exact Hn|]. now apply equipment_of_entries in Hx. }
  repeat split; try apply dedup_NoDup; try apply dedup_In;
    try apply Hnames.
Qed.

(** The premium flag of a record is set exactly when the document holds
    the word [premium], in any letter case, or its second-language form:
    the test of the quoted form adds nothing, and where the word stands
    does not matter. *)
Theorem premium_is_word_anywhere (html user : string) (r : player_data) :
  parse_player_data html user = Some r ->
  premium r = (Str.contains "premium" (Str.lower html)
               || nth 1 (premium_indicators html) false)%bool.
Proof.
  intros Hp.
  destruct (parse_player_data_fields _ _ _ Hp)
    as (soup & _ & _ & _ & _ & _ & Hprem & _).
  rewrite Hprem. unfold any, premium_indicators. cbn [existsb nth].
  destruct (Str.contains "premium" (Str.lower html)) eqn:H1; [reflexivity|].
  cbn [orb].
  destruct (Str.contains (Str.dquote ++ "premium" ++ Str.dquote ++ ": true")
              (Str.lower html)) eqn:H3; [|now rewrite !orb_false_r].
  exfalso.
  apply contains_tail in H3.
  change ("premium" ++ Str.dquote ++ ": true")
    with ("premium" ++ (Str.dquote ++ ": true")) in H3.
  apply contains_app in H3. congruence.
Qed.

End Parse.
End RecordFacts.

Module RecordExamples.
Import Scraper Vocabulary.

Ltac evaluate := vm_compute; reflexivity.

Lemma error_marker_is_not_found_witness :
  Str.contains "player not found" (Str.lower "Player Not Found: Kills: 5")
  = true /\
  Example.parse "Player Not Found: Kills: 5" "player" = None.
Proof.
  split; [evaluate|].
  apply RecordFacts.error_marker_is_not_found. left. evaluate.
Defined.

Lemma record_numbers_are_natural_witness :
  exists r,
    Example.parse "Kills: 1,234 Deaths: 7 Gold boxes: 12 Experience: 50,000"
      "player" = Some r /\
    kills r = 1234 /\ gold_boxes r = 12 /\
    0 <= experience r /\ 0 <= kills r /\ 0 <= deaths r /\ 0 <= gold_boxes r.
Proof.
  eexists. split; [evaluate|]. do 2 (split; [reflexivity|]).
  refine (RecordFacts.record_numbers_are_natural
            Example.text_document Example.quote_letters
            Example.turret_names Example.hull_names
            "Kills: 1,234 Deaths: 7 Gold boxes: 12 Experience: 50,000"
            "player" _ _).
  evaluate.
Defined.

Lemma group_is_sentinel_or_real_witness :
  exists r,
    Example.parse "Kills: 7 Clan: none" "player" = Some r /\
    group r = "Unknown" /\
    (group r = "Unknown" \/
     (group r <> "" /\ Str.lower (group r) <> "unknown" /\
      Str.lower (group r) <> "none" /\ Str.lower (group r) <> "null")).
Proof.
  eexists. split; [evaluate|]. split; [reflexivity|].
  refine (RecordFacts.group_is_sentinel_or_real
            Example.text_document Example.quote_letters
            Example.turret_names Example.hull_names
            "Kills: 7 Clan: none" "player" _ _).
  evaluate.
Defined.

Lemma equipment_lists_are_sets_witness :
  exists r,
    Example.parse "Smoky M2, smoky m2, Smoky M3, Hunter 1. Kills: 5"
      "player" = Some r /\
    turrets r = ["Smoky M2"; "Smoky M3"] /\
    NoDup (turrets r).
Proof.
  eexists. split; [evaluate|]. split; [reflexivity|].
  refine (proj1 (RecordFacts.equipment_lists_are_sets
                   Example.text_document Example.quote_letters
                   Example.turret_names Example.hull_names
                   "Smoky M2, smoky m2, Smoky M3, Hunter 1. Kills: 5"
                   "player" _ _)).
  evaluate.
Defined.

Lemma premium_is_word_anywhere_witness :
  exists r,
    Example.parse "Kills: 5, premium: false" "player" = Some r /\
    premium r = true /\
    premium r = (Str.contains "premium" (Str.lower "Kills: 5, premium: false")
                 || nth 1 (premium_indicators "Kills: 5, premium: false")
                      false)%bool.
Proof.
  eexists. split; [evaluate|]. split; [reflexivity|].
  refine (RecordFacts.premium_is_word_anywhere
            Example.text_document Example.quote_letters
            Example.turret_names Example.hull_names
            "Kills: 5, premium: false" "player" _ _).
  evaluate.
Defined.

End RecordExamples.

(* ------------------------------------------------------------------ *)
(** ** Properties of the formatters *)

Module FormatterFacts.
Import Formatter.

(** *** The exact format *)

Lemma digit_is_no_comma (c : ascii) :
  Str.is_digit c = true -> Ascii.eqb c "," = false /\ Ascii.eqb c " " = false.
Proof. apply ReFacts.digit_is_no_comma_nor_space. Qed.

Lemma replace_group_thousands (s : string) :
  Str.forallb Str.is_digit s = true ->
  Str.replace "," "" (group_thousands s) = s.
Proof.
  induction s as [|c s IH]; [reflexivity|].
  cbn [Str.forallb]. intros H. apply andb_true_iff in H as [Hc Hs].
  destruct (digit_is_no_comma c Hc) as [Hcomma _].
  cbn [group_thousands Str.replace]. rewrite Hcomma. f_equal.
  destruct (negb (Str.is_empty s) && _)%bool; [|now apply IH].
  change ("," ++ group_thousands s) with (String "," (group_thousands s)).
  cbn [Str.replace]. change (Ascii.eqb "," ",") with true. cbv iota.
  cbn [append]. now apply IH.
Qed.

Lemma replace_space_digits (s : string) :
  Str.forallb Str.is_digit s = true -> Str.replace " " "" s = s.
Proof.
  induction s as [|c s IH]; [reflexivity|].
  cbn [Str.forallb]. intros H. apply andb_true_iff in H as [Hc Hs].
  destruct (digit_is_no_comma c Hc) as [_ Hsp].
  cbn [Str.replace]. rewrite Hsp. now rewrite IH.
Qed.

Lemma of_Z_digits (n : Z) :
  0 <= n -> Str.forallb Str.is_digit (Str.of_Z n) = true.
Proof.
  intros Hn. pose proof (StrFacts.of_Z_isdigit n Hn) as H.
  unfold Str.isdigit in H. now apply andb_true_iff in H as [_ H].
Qed.

(** Taking the commas out of the exact format gives back [str(num)]. *)
Lemma format_exact_number_without_commas (num : Z) :
  Str.replace "," "" (format_exact_number num) = Str.of_Z num.
Proof.
  unfold format_exact_number.
  destruct (Z.ltb_spec num 0) as [Hneg|Hpos].
  - change ("-" ++ group_thousands (Str.of_Z (- num)))
      with (String "-" (group_thousands (Str.of_Z (- num)))).
    cbn [Str.replace]. change (Ascii.eqb "-" ",") with false. cbv iota.
    rewrite replace_group_thousands by (apply of_Z_digits; lia).
    unfold Str.of_Z.
    replace (num <? 0) with true by (symmetry; apply Z.ltb_lt; lia).
    replace (- num <? 0) with false by (symmetry; apply Z.ltb_ge; lia).
    reflexivity.
  - apply replace_group_thousands, of_Z_digits. lia.
Qed.

(** What the bot prints with [format_exact_number], the conversion of the
    scraper reads back: the separators are stripped and [int] gives the
    number. *)
Theorem format_exact_number_round_trip (num : Z) :
  0 <= num ->
  Str.int (Scraper.strip_separators (format_exact_number num)) = Some num.
Proof.
  intros Hn. unfold Scraper.strip_separators.
  rewrite format_exact_number_without_commas.
  rewrite replace_space_digits by now apply of_Z_digits.
  now apply StrFacts.int_of_Z.
Qed.

(** *** Durations *)

(** The two numbers of a duration are in the range of their unit, and the
    time they stand for is the given time, short of less than one of the
    finer unit; below one hour nothing is lost. *)
Theorem format_duration_parts (seconds : Z) :
  (seconds < 60 -> format_duration seconds = Str.of_Z seconds ++ "s") /\
  (60 <= seconds < 3600 ->
   exists m s,
     format_duration seconds = Str.of_Z m ++ "m " ++ Str.of_Z s ++ "s" /\
     1 <= m < 60 /\ 0 <= s < 60 /\ seconds = 60 * m + s) /\
  (3600 <= seconds < 86400 ->
   exists h m,
     format_duration seconds = Str.of_Z h ++ "h " ++ Str.of_Z m ++ "m" /\
     1 <= h < 24 /\ 0 <= m < 60 /\
     3600 * h + 60 * m <= seconds < 3600 * h + 60 * m + 60) /\
  (86400 <= seconds ->
   exists d h,
     format_duration seconds = Str.of_Z d ++ "d " ++ Str.of_Z h ++ "h" /\
     1 <= d /\ 0 <= h < 24 /\
     86400 * d + 3600 * h <= seconds < 86400 * d + 3600 * h + 3600).
Proof.
  unfold format_duration. repeat split.
  - intros H. now replace (seconds <? 60) with true
      by (symmetry; apply Z.ltb_lt; lia).
  - intros [Hlo Hhi].
    replace (seconds <? 60) with false by (symmetry; apply Z.ltb_ge; lia).
    replace (seconds <? 3600) with true by (symmetry; apply Z.ltb_lt; lia).
    exists (seconds / 60), (seconds mod 60).
    pose proof (Z.div_mod seconds 60 ltac:(lia)).
    pose proof (Z.mod_pos_bound seconds 60 ltac:(lia)).
    repeat split; try lia.
  - intros [Hlo Hhi].
    replace (seconds <? 60) with false by (symmetry; apply Z.ltb_ge; lia).
    replace (seconds <? 3600) with false by (symmetry; apply Z.ltb_ge; lia).
    replace (seconds <? 86400) with true by (symmetry; apply Z.ltb_lt; lia).
    exists (seconds / 3600), ((seconds mod 3600) / 60).
    pose proof (Z.div_mod seconds 3600 ltac:(lia)).
    pose proof (Z.mod_pos_bound seconds 3600 ltac:(lia)).
    pose proof (Z.div_mod (seconds mod 3600) 60 ltac:(lia)).
    pose proof (Z.mod_pos_bound (seconds mod 3600) 60 ltac:(lia)).
    repeat split; try lia.
  - intros Hlo.
    replace (seconds <? 60) with false by (symmetry; apply Z.ltb_ge; lia).
    replace (seconds <? 3600) with false by (symmetry; apply Z.ltb_ge; lia).
    replace (seconds <? 86400) with false by (symmetry; apply Z.ltb_ge; lia).
    exists (seconds / 86400), ((seconds mod 86400) / 3600).
    pose proof (Z.div_mod seconds 86400 ltac:(lia)).
    pose proof (Z.mod_pos_bound seconds 86400 ltac:(lia)).
    pose proof (Z.div_mod (seconds mod 86400) 3600 ltac:(lia)).
    pose proof (Z.mod_pos_bound (seconds mod 86400) 3600 ltac:(lia)).
    repeat split; try lia.
Qed.

End FormatterFacts.

Module NumberFacts.
Import Formatter.

(** The units printed for [a / b] are the nearest to the exact quotient,
    up to the rounding of the quotient to binary64. *)
Lemma scaled_accuracy (scale a b : Z) (x : Py.float) :
  0 < scale -> 0 <= a -> 0 < b -> Py.true_div a b = Some x ->
  2 * Z.abs (scaled scale x * b - scale * a)
  <= b + (scale * a) / 2 ^ 52 + (scale * b) / 2 ^ 1074.
Proof.
  intros Hs Ha Hb. unfold Py.true_div.
  destruct (b =? 0) eqn:Hb0; [lia|].
  replace (a <? 0) with false by (symmetry; apply Z.ltb_ge; lia).
  replace (b <? 0) with false by (symmetry; apply Z.ltb_ge; lia).
  rewrite (Z.abs_eq a), (Z.abs_eq b) by lia.
  assert (H52 : 0 < 2 ^ 52) by (apply PyFacts.pow2_pos; lia).
  assert (H1074 : 0 < 2 ^ 1074) by (apply PyFacts.pow2_pos; lia).
  assert (Hq1 : 0 <= (scale * a) / 2 ^ 52) by (apply Z.div_pos; nia).
  assert (Hq2 : 0 <= (scale * b) / 2 ^ 1074) by (apply Z.div_pos; nia).
  destruct (Z.eqb_spec a 0) as [Ha0|Ha0].
  { intros [= <-]. unfold scaled. cbn [Py.expo Py.mant].
    change (0 <=? 0) with true. cbv beta iota.
    replace (scale * 0 * 2 ^ 0 * b - scale * a) with 0 by (subst a; ring).
    change (Z.abs 0) with 0. lia. }
  destruct (PyFacts.quotient_exponent_below a b ltac:(lia) Hb)
    as [HEpos HEneg].
  set (E := Py.quotient_exponent a b) in *.
  set (u := Z.max (E - 52) (-1074)).
  destruct (Z.leb_spec 0 u) as [Hu|Hu].
  - destruct (_ && _)%bool; [discriminate|].
    intros [= <-]. unfold scaled. cbn [Py.expo Py.mant].
    replace (0 <=? u) with true by (symmetry; apply Z.leb_le; lia).
    assert (HuE : u = E - 52) by lia.
    assert (Hpu : 0 < 2 ^ u) by (apply PyFacts.pow2_pos; lia).
    pose proof (PyFacts.round_half_even_error a (b * 2 ^ u) ltac:(nia))
      as Herr.
    set (m := Py.round_half_even a (b * 2 ^ u)) in *.
    assert (HE : b * 2 ^ u * 2 ^ 52 <= a).
    { rewrite <- Z.mul_assoc, <- Z.pow_add_r by lia.
      replace (u + 52) with E by lia. apply HEpos. lia. }
    assert (Hfloor : scale * (b * 2 ^ u) <= (scale * a) / 2 ^ 52)
      by (apply Z.div_le_lower_bound; nia).
    replace (scale * m * 2 ^ u * b - scale * a)
      with (scale * (m * (b * 2 ^ u) - a)) by ring.
    rewrite Z.abs_mul, (Z.abs_eq scale) by lia.
    set (P := b * 2 ^ u) in *. set (A := Z.abs (m * P - a)) in *.
    assert (scale * (2 * A) <= scale * P)
      by (apply Z.mul_le_mono_nonneg_l; lia).
    lia.
  - intros [= <-]. unfold scaled. cbn [Py.expo Py.mant].
    replace (0 <=? u) with false by (symmetry; apply Z.leb_gt; lia).
    assert (HD : 0 < 2 ^ (- u)) by (apply PyFacts.pow2_pos; lia).
    pose proof (PyFacts.round_half_even_error (a * 2 ^ (- u)) b Hb) as Hm.
    set (m := Py.round_half_even (a * 2 ^ (- u)) b) in *.
    pose proof (PyFacts.round_half_even_error (scale * m) (2 ^ (- u)) HD)
      as HN.
    set (N := Py.round_half_even (scale * m) (2 ^ (- u))) in *.
    assert (Hboth : (2 * Z.abs (N * b - scale * a) - b) * 2 ^ (- u)
                    <= scale * b).
    { assert (Hid : (N * b - scale * a) * 2 ^ (- u)
                    = b * (N * 2 ^ (- u) - scale * m)
                      + scale * (m * b - a * 2 ^ (- u))) by ring.
      assert (Habs : Z.abs (N * b - scale * a) * 2 ^ (- u)
                     = Z.abs ((N * b - scale * a) * 2 ^ (- u)))
        by (rewrite Z.abs_mul, (Z.abs_eq (2 ^ (- u))); lia).
      pose proof (Z.abs_triangle (b * (N * 2 ^ (- u) - scale * m))
                    (scale * (m * b - a * 2 ^ (- u)))) as Htri.
      rewrite !Z.abs_mul in Htri.
      rewrite (Z.abs_eq b), (Z.abs_eq scale) in Htri by lia.
      rewrite Hid in Habs.
      set (X := Z.abs (N * 2 ^ (- u) - scale * m)) in *.
      set (Y := Z.abs (m * b - a * 2 ^ (- u))) in *.
      assert (b * (2 * X) <= b * 2 ^ (- u))
        by (apply Z.mul_le_mono_nonneg_l; lia).
      assert (scale * (2 * Y) <= scale * b)
        by (apply Z.mul_le_mono_nonneg_l; lia).
      lia. }
    set (L := 2 * Z.abs (N * b - scale * a) - b) in *.
    destruct (Z.max_spec (E - 52) (-1074)) as [[Hlt Hmax]|[Hge Hmax]];
      fold u in Hmax.
    + assert (L <= (scale * b) / 2 ^ 1074); [|lia].
      apply Z.div_le_lower_bound; [lia|].
      rewrite Hmax in Hboth. change (- -1074) with 1074 in Hboth. lia.
    + assert (L <= (scale * a) / 2 ^ 52); [|lia].
      apply Z.div_le_lower_bound; [lia|].
      destruct (Z.le_gt_cases L 0) as [HL|HL].
      { assert (L * 2 ^ 52 <= 0) by (apply Z.mul_nonpos_nonneg; lia).
        assert (0 <= scale * a) by (apply Z.mul_nonneg_nonneg; lia).
        lia. }
      destruct (Z.le_gt_cases 0 E) as [HE0|HE0].
      * specialize (HEpos HE0).
        assert (Hsplit : 2 ^ 52 = 2 ^ (- u) * 2 ^ E)
          by (rewrite <- Z.pow_add_r by lia; f_equal; lia).
        assert (0 < 2 ^ E) by (apply PyFacts.pow2_pos; lia).
        assert (Hprod : L * 2 ^ (- u) * (b * 2 ^ E) <= scale * b * a).
        { apply Z.mul_le_mono_nonneg; [|exact Hboth| |exact HEpos].
          - apply Z.mul_nonneg_nonneg; lia.
          - apply Z.mul_nonneg_nonneg; lia. }
        apply (Z.mul_le_mono_pos_r _ _ b Hb). rewrite Hsplit.
        replace (2 ^ (- u) * 2 ^ E * L * b)
          with (L * 2 ^ (- u) * (b * 2 ^ E)) by ring.
        replace (scale * a * b) with (scale * b * a) by ring.
        exact Hprod.
      * specialize (HEneg HE0).
        assert (Hsplit : 2 ^ (- u) = 2 ^ 52 * 2 ^ (- E))
          by (rewrite <- Z.pow_add_r by lia; f_equal; lia).
        assert (HF : 0 < 2 ^ (- E)) by (apply PyFacts.pow2_pos; lia).
        apply (Z.mul_le_mono_pos_r _ _ (2 ^ (- E)) HF).
        replace (2 ^ 52 * L * 2 ^ (- E)) with (L * 2 ^ (- u))
          by (rewrite Hsplit; ring).
        assert (scale * b <= scale * (a * 2 ^ (- E)))
          by (apply Z.mul_le_mono_nonneg_l; lia).
        lia.
Qed.

(** A quotient of a number below 2^52 is in the range of binary64. *)
Lemma true_div_small (a b : Z) :
  0 < a < 2 ^ 52 -> 0 < b -> exists x, Py.true_div a b = Some x.
Proof.
  intros [Ha Hlt] Hb. unfold Py.true_div.
  replace (b =? 0) with false by (symmetry; apply Z.eqb_neq; lia).
  rewrite (Z.abs_eq a), (Z.abs_eq b) by lia.
  replace (a =? 0) with false by (symmetry; apply Z.eqb_neq; lia).
  assert (HE : Py.quotient_exponent a b < 52).
  { unfold Py.quotient_exponent.
    pose proof (Z.log2_nonneg b).
    assert (Z.log2 a < 52) by (apply Z.log2_lt_pow2; lia).
    destruct (0 <=? _); [destruct (_ <=? _)|destruct (_ <=? _)]; lia. }
  replace (0 <=? Z.max (Py.quotient_exponent a b - 52) (-1074)) with false
    by (symmetry; apply Z.leb_gt; lia).
  cbn [andb]. eexists. reflexivity.
Qed.

(** The text printed for a quotient of two moderate natural numbers: the
    tenths nearest to the exact quotient. *)
Lemma format_quotient (num unit : Z) (suffix : string) :
  0 < num < 100000000000000 -> 0 < unit < 100000000000000 ->
  exists t,
    option_map (fun x => format_1f x ++ suffix) (Py.true_div num unit)
    = Some (render_tenths t ++ suffix) /\
    2 * Z.abs (t * unit - 10 * num) <= unit.
Proof.
  intros Hn Hu.
  assert (H52 : 100000000000000 * 10 < 2 ^ 52) by (vm_compute; reflexivity).
  assert (H1074 : 2 ^ 52 < 2 ^ 1074)
    by (apply Z.pow_lt_mono_r; lia).
  destruct (true_div_small num unit ltac:(lia) ltac:(lia)) as [x Hx].
  destruct (PyFacts.true_div_nonneg num unit x ltac:(lia) ltac:(lia) Hx)
    as [Hsign _].
  pose proof (scaled_accuracy 10 num unit x ltac:(lia) ltac:(lia)
                ltac:(lia) Hx) as Hacc.
  rewrite (Z.div_small (10 * num)), (Z.div_small (10 * unit)) in Hacc
    by lia.
  exists (scaled 10 x). rewrite Hx. cbn [option_map].
  unfold format_1f. rewrite Hsign. split; [reflexivity | lia].
Qed.

(** From a thousand on, [format_number] prints the number in thousands,
    millions or billions, whichever is the largest unit not above it, with
    one decimal: the tenths of the unit nearest to the number. *)
Theorem format_number_nearest_tenth (num : Z) :
  1000 <= num < 100000000000000 ->
  exists t suffix unit,
    In (suffix, unit)
       [("K", 1000); ("M", 1000000); ("B", 1000000000)] /\
    unit <= num /\ (suffix <> "B" -> num < 1000 * unit) /\
    format_number num = Some (render_tenths t ++ suffix) /\
    2 * Z.abs (t * unit - 10 * num) <= unit.
Proof.
  intros Hn. unfold format_number.
  replace (num =? 0) with false by (symmetry; apply Z.eqb_neq; lia).
  replace (num <? 1000) with false by (symmetry; apply Z.ltb_ge; lia).
  destruct (Z.ltb_spec num 1000000) as [HK|HK];
    [|destruct (Z.ltb_spec num 1000000000) as [HM|HM]].
  - destruct (format_quotient num 1000 "K" ltac:(lia) ltac:(lia))
      as (t & Ht & Hacc).
    exists t, "K", 1000. cbn [In]. intuition lia.
  - destruct (format_quotient num 1000000 "M" ltac:(lia) ltac:(lia))
      as (t & Ht & Hacc).
    exists t, "M", 1000000. cbn [In]. intuition lia.
  - destruct (format_quotient num 1000000000 "B" ltac:(lia) ltac:(lia))
      as (t & Ht & Hacc).
    exists t, "B", 1000000000. cbn [In]. intuition (try lia; congruence).
Qed.

(** The unit is chosen before the rounding: the last fifty numbers below
    a million are printed as a thousand thousands, and the last fifty
    thousand below a billion as a thousand millions. *)
Theorem format_number_rounds_past_unit (num : Z) :
  (999950 <= num < 1000000 -> format_number num = Some "1000.0K") /\
  (999950000 <= num < 1000000000 -> format_number num = Some "1000.0M").
Proof.
  split; intros Hn.
  - destruct (Z.eq_dec num 999950) as [->|Hne]; [vm_compute; reflexivity|].
    unfold format_number.
    replace (num =? 0) with false by (symmetry; apply Z.eqb_neq; lia).
    replace (num <? 1000) with false by (symmetry; apply Z.ltb_ge; lia).
    replace (num <? 1000000) with true by (symmetry; apply Z.ltb_lt; lia).
    destruct (format_quotient num 1000 "K" ltac:(lia) ltac:(lia))
      as (t & -> & Hacc).
    replace t with 10000 by lia. reflexivity.
  - destruct (Z.eq_dec num 999950000) as [->|Hne];
      [vm_compute; reflexivity|].
    unfold format_number.
    replace (num =? 0) with false by (symmetry; apply Z.eqb_neq; lia).
    replace (num <? 1000) with false by (symmetry; apply Z.ltb_ge; lia).
    replace (num <? 1000000) with false by (symmetry; apply Z.ltb_ge; lia).
    replace (num <? 1000000000) with true
      by (symmetry; apply Z.ltb_lt; lia).
    destruct (format_quotient num 1000000 "M" ltac:(lia) ltac:(lia))
      as (t & -> & Hacc).
    replace t with 10000 by lia. reflexivity.
Qed.

End NumberFacts.

(* ------------------------------------------------------------------ *)
(** ** The two rank tables *)

Module RankTableFacts.
Import Utils Formatter.

(** The index of a rank always lies in the table of symbols. *)
Theorem emoji_index_range (rank_name : string) :
  1 <= emoji_index rank_name <= 31.
Proof.
  unfold emoji_index.
  destruct (Str.startswith "Legend" rank_name); [lia|].
  unfold get_default.
  destruct (dict_get (normalize rank_name) rank_mapping) as [v|] eqn:E;
    [|lia].
  apply UtilsFacts.dict_get_In in E. cbn [rank_mapping In] in E.
  repeat (destruct E as [E|E]; [injection E as _ <-; lia|]).
  contradiction.
Qed.

Lemma legend_prefix_normalized (a : string) :
  Str.startswith "Legend" a = true ->
  Str.startswith "legend" (normalize a) = true.
Proof.
  intros H.
  do 6 (destruct a as [|? a]; [discriminate H|];
        cbn [Str.startswith] in H;
        apply andb_true_iff in H as [?%Ascii.eqb_eq H]; subst).
  reflexivity.
Qed.

Lemma legend_key_index (key : string) :
  Str.startswith "legend" key = true ->
  get_default rank_mapping key 31 = 31.
Proof.
  intros H. unfold get_default.
  destruct (dict_get key rank_mapping) as [v|] eqn:E; [|reflexivity].
  apply UtilsFacts.dict_get_In in E. cbn [rank_mapping In] in E.
  repeat (destruct E as [E|E];
          [injection E as <- <-;
           first [reflexivity | vm_compute in H; discriminate H]|]).
  contradiction.
Qed.

(** The index depends on the rank name only through its normal form:
    letter case does not matter, nor whether words are joined by spaces or
    by underscores. *)
Theorem emoji_index_normalized (a b : string) :
  normalize a = normalize b -> emoji_index a = emoji_index b.
Proof.
  intros H. unfold emoji_index.
  destruct (Str.startswith "Legend" a) eqn:Ha;
    destruct (Str.startswith "Legend" b) eqn:Hb.
  - reflexivity.
  - symmetry. apply legend_key_index. rewrite <- H.
    now apply legend_prefix_normalized.
  - apply legend_key_index. rewrite H.
    now apply legend_prefix_normalized.
  - now rewrite H.
Qed.

(** *** The maximum experience of a rank *)

Lemma digit_is_no_space (c : ascii) :
  Str.is_digit c = true ->
  Str.is_space c = false /\ Ascii.eqb c " " = false /\
  Ascii.eqb c "_" = false.
Proof.
  destruct c as [[] [] [] [] [] [] [] []]; vm_compute; intros;
    repeat split; congruence.
Qed.

Lemma literal_digits_of_digits (s : string) : forall after acc,
  Str.forallb Str.is_digit s = true ->
  (after = true \/ s <> "") ->
  literal_digits after acc s = Some (Str.digits_value acc s).
Proof.
  induction s as [|c s IH]; intros after acc Hd Hne.
  - destruct Hne as [-> | Hne]; [reflexivity | contradiction].
  - cbn [Str.forallb] in Hd. apply andb_true_iff in Hd as [Hc Hs].
    cbn [literal_digits Str.digits_value]. rewrite Hc.
    apply IH; [exact Hs | now left].
Qed.

Lemma rev_acc_rev_acc (s : string) : forall a b,
  Str.rev_acc (Str.rev_acc s a) b = Str.rev_acc a (s ++ b).
Proof.
  induction s as [|c s IH]; intros a b; cbn [Str.rev_acc append];
    [reflexivity|].
  rewrite IH. reflexivity.
Qed.

Lemma rev_involutive (s : string) : Str.rev (Str.rev s) = s.
Proof.
  unfold Str.rev. rewrite rev_acc_rev_acc. cbn [Str.rev_acc].
  apply StrFacts.append_empty_r.
Qed.

Lemma forallb_rev_acc (p : ascii -> bool) (s : string) : forall a,
  Str.forallb p (Str.rev_acc s a) = (Str.forallb p s && Str.forallb p a)%bool.
Proof.
  induction s as [|c s IH]; intros a; cbn [Str.rev_acc Str.forallb];
    [reflexivity|].
  rewrite IH. cbn [Str.forallb]. now destruct (p c), (Str.forallb p s).
Qed.

Lemma lstrip_digits (s : string) :
  Str.forallb Str.is_digit s = true -> Str.lstrip s = s.
Proof.
  destruct s as [|c s]; [reflexivity|].
  cbn [Str.forallb Str.lstrip]. intros H.
  apply andb_true_iff in H as [Hc _].
  destruct (digit_is_no_space c Hc) as [-> _]. reflexivity.
Qed.

Lemma strip_digits (s : string) :
  Str.forallb Str.is_digit s = true -> Str.strip s = s.
Proof.
  intros H. unfold Str.strip.
  rewrite (lstrip_digits s H).
  rewrite lstrip_digits.
  - apply rev_involutive.
  - unfold Str.rev. rewrite forallb_rev_acc, H. reflexivity.
Qed.

(** [int] reads a run of digits as its number. *)
Lemma python_int_of_digits (s : string) :
  Str.forallb Str.is_digit s = true -> s <> "" ->
  int s = Some (Str.digits_value 0 s).
Proof.
  intros Hd Hne. unfold int. rewrite (strip_digits s Hd).
  destruct s as [|c s]; [contradiction|].
  assert (Hc : Str.is_digit c = true)
    by (cbn [Str.forallb] in Hd; now apply andb_true_iff in Hd as [Hc _]).
  assert (Hgen : literal_digits false 0 (String c s)
                 = Some (Str.digits_value 0 (String c s)))
    by (apply literal_digits_of_digits; [exact Hd | now right]).
  revert Hc Hgen.
  destruct c as [[] [] [] [] [] [] [] []]; intros Hc Hgen;
    try (vm_compute in Hc; discriminate Hc); exact Hgen.
Qed.

Lemma python_int_of_Z (n : Z) : 0 <= n -> int (Str.of_Z n) = Some n.
Proof.
  intros Hn.
  pose proof (StrFacts.of_Z_isdigit n Hn) as Hd. unfold Str.isdigit in Hd.
  apply andb_true_iff in Hd as [Hne Hd].
  rewrite python_int_of_digits; [| exact Hd |].
  - pose proof (StrFacts.int_of_Z n Hn) as H. unfold Str.int in H.
    unfold Str.isdigit in H. rewrite Hne, Hd in H. exact H.
  - intros E. rewrite E in Hne. discriminate.
Qed.

Lemma split_digits (s : string) :
  Str.forallb Str.is_digit s = true -> split " " s = [s].
Proof.
  induction s as [|c s IH]; [reflexivity|].
  cbn [Str.forallb]. intros H. apply andb_true_iff in H as [Hc Hs].
  destruct (digit_is_no_space c Hc) as (_ & Hsp & _).
  cbn [split]. rewrite Hsp, (IH Hs). reflexivity.
Qed.

(** The label [Legend n] has the maximum 1,600,000 + 200,000 n; the bare
    label [Legend] has that of level 1. *)
Theorem max_experience_of_legend_level (n : Z) :
  0 <= n ->
  get_max_experience_for_rank ("Legend " ++ Str.of_Z n)
  = 1600000 + n * 200000.
Proof.
  intros Hn. unfold get_max_experience_for_rank.
  change (Str.startswith "Legend" ("Legend " ++ Str.of_Z n)) with true.
  cbv iota.
  assert (Heq : String.eqb ("Legend " ++ Str.of_Z n) "Legend" = false)
    by reflexivity.
  rewrite Heq.
  assert (Hsplit : split " " ("Legend " ++ Str.of_Z n)
                   = ["Legend"; Str.of_Z n]).
  { change ("Legend " ++ Str.of_Z n)
      with (String "L" (String "e" (String "g" (String "e" (String "n"
             (String "d" (String " " (Str.of_Z n)))))))).
    cbn [split]. change (Ascii.eqb " " " ") with true.
    change (Ascii.eqb "L" " ") with false.
    change (Ascii.eqb "e" " ") with false.
    change (Ascii.eqb "g" " ") with false.
    change (Ascii.eqb "n" " ") with false.
    change (Ascii.eqb "d" " ") with false.
    cbv iota.
    rewrite split_digits by (apply FormatterFacts.of_Z_digits; lia).
    reflexivity. }
  rewrite Hsplit. cbn [nth_error]. now rewrite python_int_of_Z.
Qed.



End RankTableFacts.

Module FormatterExamples.
Import Formatter.

Lemma format_exact_number_round_trip_witness :
  format_exact_number 1234567 = "1,234,567" /\
  Str.int (Scraper.strip_separators (format_exact_number 1234567))
  = Some 1234567.
Proof.
  split; [vm_compute; reflexivity|].
  apply (FormatterFacts.format_exact_number_round_trip 1234567). lia.
Defined.

Lemma format_duration_parts_witness :
  format_duration 3725 = "1h 2m" /\
  exists h m,
    format_duration 3725 = Str.of_Z h ++ "h " ++ Str.of_Z m ++ "m" /\
    1 <= h < 24 /\ 0 <= m < 60 /\
    3600 * h + 60 * m <= 3725 < 3600 * h + 60 * m + 60.
Proof.
  split; [vm_compute; reflexivity|].
  apply (proj1 (proj2 (proj2 (FormatterFacts.format_duration_parts 3725)))).
  lia.
Defined.

Lemma emoji_index_normalized_witness :
  Utils.normalize "Master Sergeant" = Utils.normalize "master_sergeant" /\
  Utils.emoji_index "Master Sergeant" = Utils.emoji_index "master_sergeant".
Proof.
  split; [vm_compute; reflexivity|].
  apply (RankTableFacts.emoji_index_normalized
           "Master Sergeant" "master_sergeant").
  vm_compute; reflexivity.
Defined.

Lemma max_experience_of_legend_level_witness :
  "Legend " ++ Str.of_Z 3 = "Legend 3" /\
  get_max_experience_for_rank ("Legend " ++ Str.of_Z 3)
  = 1600000 + 3 * 200000.
Proof.
  split; [vm_compute; reflexivity|].
  apply (RankTableFacts.max_experience_of_legend_level 3). lia.
Defined.


Lemma format_number_nearest_tenth_witness :
  format_number 1250 = Some "1.2K" /\
  exists t suffix unit,
    In (suffix, unit)
       [("K", 1000); ("M", 1000000); ("B", 1000000000)] /\
    unit <= 1250 /\ (suffix <> "B" -> 1250 < 1000 * unit) /\
    format_number 1250 = Some (render_tenths t ++ suffix) /\
    2 * Z.abs (t * unit - 10 * 1250) <= unit.
Proof.
  split; [vm_compute; reflexivity|].
  apply (NumberFacts.format_number_nearest_tenth 1250). lia.
Defined.

Lemma format_number_rounds_past_unit_witness :
  format_number 999999 = Some "1000.0K".
Proof.
  apply (proj1 (NumberFacts.format_number_rounds_past_unit 999999)). lia.
Defined.

End FormatterExamples.

(* ------------------------------------------------------------------ *)
(** ** Properties of the text helpers *)

Module TextFacts.
Import Re TextTools TextVocabulary.

(** *** What is kept of a text *)

Lemma keep_all (p : ascii -> bool) (s : string) :
  Str.forallb p s = true -> keep p s = s.
Proof.
  induction s as [|c s IH]; [reflexivity|].
  cbn [Str.forallb keep]. intros H. apply andb_true_iff in H as [-> Hs].
  now rewrite IH.
Qed.

Lemma keep_app (p : ascii -> bool) (s t : string) :
  keep p (s ++ t) = keep p s ++ keep p t.
Proof.
  induction s as [|c s IH]; [reflexivity|].
  cbn [append keep]. destruct (p c); cbn [append]; now rewrite IH.
Qed.

Lemma keep_ext (p q : ascii -> bool) (s : string) :
  (forall c, p c = q c) -> keep p s = keep q s.
Proof.
  intros H. induction s as [|c s IH]; [reflexivity|].
  cbn [keep]. now rewrite H, IH.
Qed.

Lemma forallb_keep (p : ascii -> bool) (s : string) :
  Str.forallb p (keep p s) = true.
Proof.
  induction s as [|c s IH]; [reflexivity|].
  cbn [keep]. destruct (p c) eqn:E; [|exact IH].
  cbn [Str.forallb]. now rewrite E, IH.
Qed.

Lemma take_length_app (s t : string) :
  Str.take (String.length s) (s ++ t) = s.
Proof.
  induction s as [|c s IH]; cbn [String.length append Str.take].
  - now destruct t.
  - now rewrite IH.
Qed.

Lemma consumed_app (s t : string) : Str.consumed (s ++ t) t = s.
Proof.
  unfold Str.consumed. rewrite ReFacts.length_append.
  replace (String.length s + String.length t - String.length t)%nat
    with (String.length s) by lia.
  apply take_length_app.
Qed.

(** *** Searching one character of a class *)

Section Class.
Variable fl : flags.
Variable neg : bool.
Variable items : list item.

Local Abbreviation hit := (cls_matches fl neg items).
Local Abbreviation miss := (fun c => negb (cls_matches fl neg items c)).

Lemma match_here_class (pos : nat) (a : ascii) (s : string) :
  match_here fl (Cls neg items) pos (String a s) =
  if hit a
  then Some {| m_start := pos; m_text := String a EmptyString;
               m_groups := []; m_rest := s |}
  else None.
Proof.
  unfold match_here. cbn [run]. destruct (hit a); [|reflexivity].
  pose proof (consumed_app (String a EmptyString) s) as H.
  cbn [append] in H. now rewrite H.
Qed.

(** The leftmost character of the class, with what is before and after
    it. *)
Lemma search_from_class (s : string) : forall pos,
  (Str.forallb miss s = true /\
   search_from fl (Cls neg items) pos s = None) \/
  (exists pre a rest,
     s = pre ++ String a rest /\ Str.forallb miss pre = true /\
     hit a = true /\
     search_from fl (Cls neg items) pos s =
     Some {| m_start := pos + String.length pre;
             m_text := String a EmptyString;
             m_groups := []; m_rest := rest |}).
Proof.
  induction s as [|a s IH]; intros pos.
  - left. split; reflexivity.
  - cbn [search_from]. rewrite match_here_class.
    destruct (hit a) eqn:Ha.
    + right. exists EmptyString, a, s.
      cbn [append String.length Str.forallb].
      rewrite Nat.add_0_r. repeat split; assumption.
    + destruct (IH (S pos))
        as [[Hall Hnone] | (pre & b & rest & -> & Hpre & Hb & Hs)].
      * left. cbn [Str.forallb]. rewrite Ha. split; assumption.
      * right. exists (String a pre), b, rest.
        cbn [append String.length Str.forallb]. rewrite Ha, Hpre, Hs.
        repeat split; [assumption|]. do 2 f_equal. lia.
Qed.

(** Deleting every character of a class. *)
Lemma sub_class (fuel : nat) : forall s pos,
  (String.length s < fuel)%nat ->
  sub_matches "" (finditer fuel fl (Cls neg items) pos s) pos s
  = keep miss s.
Proof.
  induction fuel as [|fuel IH]; intros s pos Hlen; [lia|].
  cbn [finditer].
  destruct (search_from_class s pos)
    as [[Hall ->] | (pre & a & rest & -> & Hpre & Ha & ->)].
  - cbn [sub_matches]. symmetry. now apply keep_all.
  - cbn [m_text m_rest m_start sub_matches String.length append].
    replace (pos + String.length pre - pos)%nat with (String.length pre)
      by lia.
    rewrite take_length_app, keep_app. cbn [keep]. rewrite Ha. cbn [negb].
    rewrite (keep_all _ _ Hpre). f_equal.
    apply IH. rewrite ReFacts.length_append in Hlen.
    cbn [String.length] in Hlen. lia.
Qed.

End Class.

(** *** [sanitize_username] *)

Lemma unsafe_character_is_not_safe (c : ascii) :
  negb (cls_matches no_flags true
          [IRange "a" "z"; IRange "A" "Z"; IRange "0" "9";
           IChar "_"; IChar "-"] c)
  = url_safe c.
Proof. destruct c as [[] [] [] [] [] [] [] []]; reflexivity. Qed.

(** [sanitize_username] keeps the letters and digits of ASCII, the
    underscores and the hyphens of a name, in their order, and nothing
    else; so the result holds only such characters, and a name made of
    them is unchanged. *)
Theorem sanitize_username_keeps_safe (username : string) :
  sanitize_username username = keep url_safe username /\
  Str.forallb url_safe (sanitize_username username) = true /\
  (Str.forallb url_safe username = true ->
   sanitize_username username = username).
Proof.
  assert (H : sanitize_username username = keep url_safe username).
  { unfold sanitize_username, sub, unsafe_character.
    rewrite sub_class by lia.
    apply keep_ext, unsafe_character_is_not_safe. }
  rewrite H. split; [reflexivity|]. split.
  - apply forallb_keep.
  - apply keep_all.
Qed.

(** *** [extract_numbers] *)










End TextFacts.

Module TextExamples.
Import TextTools TextVocabulary.

Lemma sanitize_username_keeps_safe_witness :
  sanitize_username "Tank_Ace-7" = "Tank_Ace-7" /\
  sanitize_username "../a b?c" = "abc".
Proof.
  split.
  - apply (proj2 (proj2 (TextFacts.sanitize_username_keeps_safe
                           "Tank_Ace-7"))).
    vm_compute; reflexivity.
  - rewrite (proj1 (TextFacts.sanitize_username_keeps_safe "../a b?c")).
    vm_compute; reflexivity.
Defined.

End TextExamples.

(* ------------------------------------------------------------------ *)
(** ** Properties of the lookup *)

Module LookupFacts.
Import Re Scraper Lookup LookupVocabulary.

(** *** Where the result of a match comes from *)

Section Run.
Variable A : Type.
Variable fl : flags.
Implicit Types (k : cont A) (c : captures) (s : string) (r : regex).





End Run.


(** *** A literal, letter case apart *)

Section Literal.
Variable A : Type.
Implicit Types (k : cont A) (c : captures).


End Literal.


(** *** The number of a row *)






(** *** The record of the rankings *)


(** A record of the loop is the minimal one, with a natural number for
    the experience. *)
Lemma scan_elements_minimal (username : string)
    (elements : list (string * list Bs4.node)) (r : player_data) :
  scan_elements username elements = Some r ->
  exists e, 0 <= e /\ r = minimal_player username e.
Proof.
  induction elements as [|[t anc] l IH]; cbn [scan_elements];
    [discriminate|].
  destruct (enclosing_row anc) as [parent|]; [|exact IH].
  destruct (search no_flags number_grouped (get_text parent)) as [m|];
    [|exact IH].
  destruct (mgroup 1 m) as [g|]; [|discriminate].
  intros [= <-].
  destruct (Str.int (strip_separators g)) as [n|] eqn:E.
  - exists n. split; [|reflexivity]. now apply StrFacts.int_nonneg in E.
  - exists 0. split; [lia | reflexivity].
Qed.

Section Site.
Variable BeautifulSoup : string -> option Bs4.soup.
Variable quote : string -> string.
Variable TURRET_NAMES : list string.
Variable HULL_NAMES : list string.
Variable fetch : string -> option (Z * string).

Local Abbreviation extract_from_rankings :=
  (_extract_from_rankings BeautifulSoup).
Local Abbreviation search_player_on_main_page :=
  (_search_player_on_main_page BeautifulSoup quote fetch).
Local Abbreviation player_data_of :=
  (get_player_data BeautifulSoup quote TURRET_NAMES HULL_NAMES fetch).
Local Abbreviation parse_player_data :=
  (_parse_player_data BeautifulSoup quote TURRET_NAMES HULL_NAMES).


Lemma search_pages_minimal (urls : list string) (username : string)
    (r : player_data) :
  search_pages BeautifulSoup fetch urls username = Some r ->
  exists e, 0 <= e /\ r = minimal_player username e.
Proof.
  induction urls as [|url urls IH]; cbn [search_pages]; [discriminate|].
  destruct (fetch url) as [[status html]|]; [|exact IH].
  destruct (_ && _)%bool; [|exact IH].
  unfold _extract_from_rankings.
  destruct (BeautifulSoup html) as [soup|]; [|discriminate].
  apply scan_elements_minimal.
Qed.

(** A record that comes from the rankings holds the name asked for and
    an experience, a natural number; the rank and the group are
    [Unknown], the counts zero, the lists empty, the player off line and
    without premium. *)
Theorem rankings_record_is_minimal (username : string) (r : player_data) :
  search_player_on_main_page username = Some r ->
  exists e, 0 <= e /\ r = minimal_player username e.
Proof. unfold _search_player_on_main_page. apply search_pages_minimal. Qed.

(** The numbers of a parsed profile are natural. *)
Lemma parsed_numbers (html user : string) (r : player_data) :
  parse_player_data html user = Some r ->
  0 <= experience r /\ 0 <= kills r /\ 0 <= deaths r /\ 0 <= gold_boxes r.
Proof.
  intros Hp.
  destruct (RecordFacts.parse_player_data_fields _ _ _ _ _ _ _ Hp)
    as (soup' & _ & _ & _ & Hg & _).
  destruct (ScraperFacts.parse_player_data_inv _ _ _ _ _ _ _ Hp)
    as (soup & e0 & found & _ & _ & _ & _ & Hpair & Hexp & _ & Hk & Hd & _).
  destruct (ScraperFacts.parse_exp_pair_nonneg exp_patterns html 0 None
              _ _ _ ltac:(lia) ltac:(discriminate) Hpair) as [He0 _].
  repeat split.
  - destruct found.
    + now injection Hexp as <-.
    + unfold parse_single_exp in Hexp.
      destruct (first_search Re.ignorecase single_exp_patterns html)
        as [[p mo]|].
      * destruct (Re.mgroup 1 mo); [|discriminate].
        now apply StrFacts.int_nonneg in Hexp.
      * now injection Hexp as <-.
  - now apply ScraperFacts.parse_count_nonneg in Hk.
  - now apply ScraperFacts.parse_count_nonneg in Hd.
  - unfold parse_gold in Hg.
    destruct (first_search Re.ignorecase gold_patterns html) as [[p mo]|].
    + destruct (Re.mgroup 1 mo); [|discriminate].
      now apply StrFacts.int_nonneg in Hg.
    + injection Hg as <-. lia.
Qed.

(** Whatever the site answers, a record that [get_player_data] returns
    holds the name asked for and natural numbers, and it is either the
    parse of the profile page, which answered with status 200, or the
    minimal record of the rankings. *)
Theorem player_data_is_sound (username : string) (r : player_data) :
  player_data_of username = Some r ->
  Scraper.username r = username /\
  0 <= experience r /\ 0 <= kills r /\ 0 <= deaths r /\
  0 <= gold_boxes r /\
  ((exists html,
      fetch (base_url ++ "/user/" ++ quote username) = Some (200, html) /\
      parse_player_data html username = Some r) \/
   (exists e, r = minimal_player username e)).
Proof.
  unfold get_player_data.
  assert (Hmin : search_player_on_main_page username = Some r ->
                 Scraper.username r = username /\
                 0 <= experience r /\ 0 <= kills r /\ 0 <= deaths r /\
                 0 <= gold_boxes r /\
                 ((exists html,
                     fetch (base_url ++ "/user/" ++ quote username)
                     = Some (200, html) /\
                     parse_player_data html username = Some r) \/
                  (exists e, r = minimal_player username e))).
  { intros H. apply search_pages_minimal in H as (e & He & ->).
    cbn. repeat split; try lia. right. now exists e. }
  destruct (fetch (base_url ++ "/user/" ++ quote username))
    as [[status html]|] eqn:Hfetch; [|exact Hmin].
  destruct (Z.eqb_spec status 200) as [->|Hne]; [|exact Hmin].
  destruct (parse_player_data html username) as [r'|] eqn:Hp;
    [|exact Hmin].
  intros [= <-].
  destruct (parsed_numbers _ _ _ Hp) as (He & Hk & Hd & Hg).
  destruct (RecordFacts.parse_player_data_fields _ _ _ _ _ _ _ Hp)
    as (_ & _ & _ & Hu & _).
  repeat split; try assumption. left. now exists html.
Qed.

End Site.

End LookupFacts.

Module LookupExamples.
Import Scraper Lookup LookupVocabulary.

Lemma rankings_record_is_minimal_witness :
  _search_player_on_main_page ExampleSite.parse_page Example.quote_letters
    ExampleSite.rankings_only "player"
  = Some (minimal_player "player" 7) /\
  exists e, 0 <= e /\ minimal_player "player" 7 = minimal_player "player" e.
Proof.
  split; [vm_compute; reflexivity|].
  refine (LookupFacts.rankings_record_is_minimal
            ExampleSite.parse_page Example.quote_letters
            ExampleSite.rankings_only "player" _ _).
  vm_compute; reflexivity.
Defined.

Lemma player_data_is_sound_witness :
  exists r,
    ExampleSite.get_player_data ExampleSite.with_profile "player" = Some r /\
    experience r = 50000 /\ kills r = 1234 /\
    username r = "player" /\
    0 <= experience r /\ 0 <= kills r /\ 0 <= deaths r /\
    0 <= gold_boxes r /\
    ((exists html,
        ExampleSite.with_profile
          (base_url ++ "/user/" ++ Example.quote_letters "player")
        = Some (200, html) /\
        _parse_player_data ExampleSite.parse_page Example.quote_letters
          Example.turret_names Example.hull_names html "player" = Some r) \/
     (exists e, r = minimal_player "player" e)).
Proof.
  eexists. split; [vm_compute; reflexivity|].
  do 2 (split; [reflexivity|]).
  refine (LookupFacts.player_data_is_sound
            ExampleSite.parse_page Example.quote_letters
            Example.turret_names Example.hull_names
            ExampleSite.with_profile "player" _ _).
  vm_compute; reflexivity.
Defined.


End LookupExamples.

(* ------------------------------------------------------------------ *)
(** ** A label followed by a grouped number *)

Module GroupingFacts.
Import Re ReFacts Scraper Vocabulary Formatter GroupingVocabulary.

(** *** The shape of a formatted number *)









(** *** The grouped number of the scraper on a formatted number *)





Section Number.
Variable A : Type.
Implicit Types (k : cont A) (c : captures).








Ltac label_chars H :=
  repeat match type of H with
         | Str.lower ?l = String _ _ =>
             destruct l as [|? ?]; [discriminate H|];
             cbn [Str.lower] in H;
             let Hc := fresh "Hc" in injection H as Hc H
         | Str.lower ?l = EmptyString =>
             destruct l; [clear H | discriminate H]
         end.

Ltac match_letters :=
  repeat first
    [ rewrite run_Cat
    | rewrite run_Cls_hit by (apply either_matches_lower; assumption)
    | rewrite run_Chr_hit by (apply chr_matches_lower; assumption) ].



End Number.




Section Parse.
Variable BeautifulSoup : string -> option Bs4.soup.
Variable quote : string -> string.
Variable TURRET_NAMES : list string.
Variable HULL_NAMES : list string.

Local Abbreviation parse_player_data :=
  (_parse_player_data BeautifulSoup quote TURRET_NAMES HULL_NAMES).


End Parse.

End GroupingFacts.

Module GroupingExamples.
Import Scraper Vocabulary.

Ltac evaluate := vm_compute; reflexivity.


End GroupingExamples.

(* ------------------------------------------------------------------ *)
(** ** A label followed by an ungrouped experience *)

Module ExperienceFacts.
Import Re ReFacts Scraper Vocabulary GroupingVocabulary ExperienceVocabulary.



(** *** Text facts *)







(** *** The number of the single experience *)

Section Number.
Variable A : Type.
Implicit Types (k : cont A) (c : captures).







End Number.


Section Parse.
Variable BeautifulSoup : string -> option Bs4.soup.
Variable quote : string -> string.
Variable TURRET_NAMES : list string.
Variable HULL_NAMES : list string.

Local Abbreviation parse_player_data :=
  (_parse_player_data BeautifulSoup quote TURRET_NAMES HULL_NAMES).


End Parse.

End ExperienceFacts.

Module ExperienceExamples.
Import Scraper Vocabulary ExperienceVocabulary.

Ltac evaluate := vm_compute; reflexivity.


End ExperienceExamples.

(* ------------------------------------------------------------------ *)
(** ** The count of the gold boxes *)

Module GoldFacts.
Import Re ReFacts Scraper Vocabulary TextVocabulary GoldVocabulary.

(** *** A repetition that has to give back *)

Section Backtrack.
Variable A : Type.
Variable fl : flags.
Variable neg : bool.
Variable items : list item.
Implicit Types (k : cont A) (c : captures).

Local Abbreviation inside := (cls_matches fl neg items).



End Backtrack.

(** *** Characters *)









(** *** The pattern of the gold boxes *)



Section Number.
Variable A : Type.
Implicit Types (k : cont A) (c : captures).


Local Abbreviation boxes :=
  (Cat (either "B" "b")
     (Cat (Cat (Chr "o") (Cat (Chr "x") (Chr "e")))
        (Cat (Opt (Chr "s"))
           (Cat (Star colon_or_space) (Grp 1 (Plus digit)))))).




End Number.


Section Parse.
Variable BeautifulSoup : string -> option Bs4.soup.
Variable quote : string -> string.
Variable TURRET_NAMES : list string.
Variable HULL_NAMES : list string.

Local Abbreviation parse_player_data :=
  (_parse_player_data BeautifulSoup quote TURRET_NAMES HULL_NAMES).


End Parse.

End GoldFacts.

Module GoldExamples.
Import Scraper Vocabulary TextVocabulary GoldVocabulary.

Ltac evaluate := vm_compute; reflexivity.


End GoldExamples.
